(** * simple-cart-upsell: rule matching, offers, analytics and plan gate

    A shallow embedding of the request handlers of the application.  The
    loader of [GET /upsells] exists in four copies, each embedded on its
    own:
    - [Upsells]                 app/routes/api.storefront.upsells.tsx, which
                                skips COLLECTION rules;
    - [ProxyUpsells]            the first app-proxy loader of
                                unnamed/part_003 (lines 1 to 134), which
                                skips them too;
    - [UpsellsCollections]      the storefront copy unnamed/part_001, which
                                looks collections up on the platform;
    - [ProxyUpsellsCollections] the second app-proxy loader of
                                unnamed/part_003 (lines 135 to 333), which
                                looks them up as well.
    The other handlers:
    - [Shipping]           the free-shipping settings loader;
    - [Track]              app/routes/api.storefront.track.tsx and its
                           app-proxy copy unnamed/part_002;
    - [Analytics]          the summary block of app/routes/app.analytics.tsx;
    - [Billing]            app/billing.ts;
    - [RulesNew]           the plan checks of app/routes/app.rules.new.tsx.

    JavaScript numbers are IEEE binary64 values, so they are primitive
    floats here.  Strings are the UTF-8 bytes of the JavaScript string.
    Nullable strings are [option string]; a Prisma call that rejects is an
    outcome [Threw] of the [Prisma] monad. *)

From Stdlib Require Import String Ascii List Bool Arith NArith ZArith Lia Floats.
From Stdlib Require Import DecimalString Sorted.
Import ListNotations.

Local Open Scope string_scope.
Local Open Scope list_scope.

(** ** JavaScript idioms *)

Module Js.

(** [!!s] for a value that is a string or null. *)
Definition truthy (s : option string) : bool :=
  match s with
  | Some s => negb (s =? "")
  | None => false
  end.

(** [s || null]. *)
Definition orNull (s : option string) : option string :=
  if truthy s then s else None.

(** [s || d] with a string default. *)
Definition orDefault (s : option string) (d : string) : string :=
  match s with
  | Some v => if v =? "" then d else v
  | None => d
  end.

(** [xs.includes(x)] on an array of strings. *)
Definition includes (xs : list string) (x : string) : bool :=
  existsb (String.eqb x) xs.

(** The string of the given bytes. *)
Definition bytes (ns : list nat) : string :=
  string_of_list_ascii (map ascii_of_nat ns).

(** The characters [String.prototype.trim] removes, WhiteSpace and
    LineTerminator of ECMAScript, each as its UTF-8 bytes. *)
Definition whiteSpace : list string :=
  map bytes
    [[9]; [10]; [11]; [12]; [13]; [32];   (* U+0009 to U+000D, U+0020 *)
     [194; 160];                          (* U+00A0 *)
     [225; 154; 128];                     (* U+1680 *)
     [226; 128; 128]; [226; 128; 129]; [226; 128; 130]; [226; 128; 131];
     [226; 128; 132]; [226; 128; 133]; [226; 128; 134]; [226; 128; 135];
     [226; 128; 136]; [226; 128; 137]; [226; 128; 138];
                                          (* U+2000 to U+200A *)
     [226; 128; 168]; [226; 128; 169];    (* U+2028, U+2029 *)
     [226; 128; 175];                     (* U+202F *)
     [226; 129; 159];                     (* U+205F *)
     [227; 128; 128];                     (* U+3000 *)
     [239; 187; 191]].                    (* U+FEFF *)

(** [s.startsWith(p)]. *)
Fixpoint startsWith (s p : string) {struct p} : bool :=
  match p, s with
  | EmptyString, _ => true
  | String a p', String b s' => Ascii.eqb a b && startsWith s' p'
  | String _ _, EmptyString => false
  end.

(** The number of bytes of the white-space character at the head of
    [s]; 0 when [s] does not start with one. *)
Definition spaceLength (s : string) : nat :=
  match find (startsWith s) whiteSpace with
  | Some w => String.length w
  | None => 0
  end.

(** [trimStart], entered [inside] bytes before the end of a white-space
    character. *)
Fixpoint trimStartFrom (inside : nat) (s : string) : string :=
  match s with
  | EmptyString => EmptyString
  | String _ r =>
      match inside with
      | S k => trimStartFrom k r
      | 0 =>
          match spaceLength s with
          | S k => trimStartFrom k r
          | 0 => s
          end
      end
  end.

Definition trimStart (s : string) : string := trimStartFrom 0 s.

(** [trimEnd]: the string up to the point from which only white space
    follows. *)
Fixpoint trimEnd (s : string) : string :=
  match s with
  | EmptyString => EmptyString
  | String c r =>
      if trimStart s =? "" then EmptyString else String c (trimEnd r)
  end.

Definition trim (s : string) : string := trimEnd (trimStart s).

(** [s.split(sep)] for a one-character separator. *)
Fixpoint split (sep : ascii) (s : string) : list string :=
  match s with
  | EmptyString => [EmptyString]
  | String c r =>
      if Ascii.eqb c sep then EmptyString :: split sep r
      else match split sep r with
           | h :: t => String c h :: t
           | [] => [String c EmptyString]
           end
  end.

(** A number built from an array length (exact: a length is below
    2^32). *)
Definition numberOfNat (n : nat) : float :=
  PrimFloat.of_uint63 (Uint63.of_Z (Z.of_nat n)).

(** The values a JSON body field can carry where the handlers do not
    insist on a string. *)
Inductive value : Type :=
| Undefined
| Null
| Bool (b : bool)
| Number (f : float)
| Str (s : string).

(** ToBoolean. *)
Definition truthyValue (v : value) : bool :=
  match v with
  | Undefined | Null => false
  | Bool b => b
  | Number f => negb (PrimFloat.is_zero f || PrimFloat.is_nan f)
  | Str s => negb (s =? "")
  end.

End Js.

(** ** The persistent store *)

Inductive Plan := FREE | STARTER | PRO.
Inductive TriggerType := PRODUCT | COLLECTION.
Inductive EventType := IMPRESSION | CONVERSION.

Definition Plan_eqb (a b : Plan) : bool :=
  match a, b with
  | FREE, FREE | STARTER, STARTER | PRO, PRO => true
  | _, _ => false
  end.

Definition EventType_eqb (a b : EventType) : bool :=
  match a, b with
  | IMPRESSION, IMPRESSION | CONVERSION, CONVERSION => true
  | _, _ => false
  end.

(** The JSON snapshot of the upsell product kept with a rule. *)
Record ProductData := mkProductData {
  pdTitle : option string;
  pdImage : option string;
  pdPrice : option string;
  pdCompareAtPrice : option string;
  pdVariantId : option string
}.

Record Rule := mkRule {
  ruleId : string;
  ruleShopId : string;
  ruleName : string;
  isEnabled : bool;
  triggerType : TriggerType;
  triggerProductId : option string;
  triggerCollectionId : option string;
  upsellProductId : string;
  upsellProductData : option ProductData;
  priority : Z
}.

Record Shop := mkShop {
  shopId : string;
  shopifyDomain : string;
  accessToken : string;
  currentPlan : Plan;
  freeShippingEnabled : bool;
  freeShippingThreshold : float;
  currencyCode : string
}.

(** [productPrice] is the number read from the DECIMAL(10,2) column,
    [None] for null. *)
Record AnalyticsEvent := mkEvent {
  evId : nat;
  evShopId : string;
  evRuleId : string;
  eventType : EventType;
  cartToken : option string;
  sessionId : option string;
  productPrice : option float;
  createdAt : nat
}.

Record Db := mkDb {
  shops : list Shop;
  rules : list Rule;
  events : list AnalyticsEvent
}.

(** A request runs against the store, a schedule telling which of its
    Prisma calls reject (the head is consumed by each call; an exhausted
    schedule means no further failure) and the clock that stamps rows. *)
Record World := mkWorld {
  db : Db;
  faults : list bool;
  clock : nat
}.

Inductive Outcome (A : Type) : Type :=
| Returned (a : A)
| Threw.
Arguments Returned {A} a.
Arguments Threw {A}.

Definition Prisma (A : Type) : Type := World -> Outcome A * World.

Definition ret {A} (a : A) : Prisma A := fun w => (Returned a, w).

Definition bind {A B} (m : Prisma A) (k : A -> Prisma B) : Prisma B :=
  fun w =>
    match m w with
    | (Returned a, w') => k a w'
    | (Threw, w') => (Threw, w')
    end.

Notation "x <- m ;; k" := (bind m (fun x => k))
  (at level 61, m at next level, right associativity).

(** One awaited Prisma call: it rejects when the schedule says so. *)
Definition call {A} (f : World -> A * Db) : Prisma A :=
  fun w =>
    match faults w with
    | true :: fs => (Threw, mkWorld (db w) fs (clock w))
    | false :: fs =>
        let (a, d) := f w in (Returned a, mkWorld d fs (clock w))
    | [] =>
        let (a, d) := f w in (Returned a, mkWorld d [] (clock w))
    end.

Definition query {A} (f : Db -> A) : Prisma A :=
  call (fun w => (f (db w), db w)).

(** A Prisma call that also rejects when the store cannot do what is asked
    (no row for the [where] of an update or a delete, a value the column
    does not take). *)
Definition callOrThrow {A} (f : World -> option (A * Db)) : Prisma A :=
  fun w =>
    match faults w with
    | true :: fs => (Threw, mkWorld (db w) fs (clock w))
    | false :: fs =>
        match f w with
        | Some (a, d) => (Returned a, mkWorld d fs (clock w))
        | None => (Threw, mkWorld (db w) fs (clock w))
        end
    | [] =>
        match f w with
        | Some (a, d) => (Returned a, mkWorld d [] (clock w))
        | None => (Threw, mkWorld (db w) [] (clock w))
        end
    end.

(** [try { body } catch { return handler }]. *)
Definition tryCatch {A} (body : Prisma A) (handler : A) : World -> A * World :=
  fun w =>
    match body w with
    | (Returned a, w') => (a, w')
    | (Threw, w') => (handler, w')
    end.

Module Store.

(** [prisma.shop.findUnique({ where: { shopifyDomain } })]. *)
Definition findShop (domain : string) : Prisma (option Shop) :=
  query (fun d => find (fun s => shopifyDomain s =? domain) (shops d)).

Fixpoint insertByPriority (r : Rule) (rs : list Rule) : list Rule :=
  match rs with
  | [] => [r]
  | x :: xs =>
      if (priority r <=? priority x)%Z then r :: rs
      else x :: insertByPriority r xs
  end.

(** [orderBy: { priority: "asc" }]; equal priorities keep table order. *)
Definition orderByPriority (rs : list Rule) : list Rule :=
  fold_right insertByPriority [] rs.

(** [prisma.rule.findMany({ where: { shopId, isEnabled: true },
    orderBy: { priority: "asc" } })]. *)
Definition findEnabledRules (sid : string) : Prisma (list Rule) :=
  query (fun d =>
    orderByPriority
      (filter (fun r => (ruleShopId r =? sid) && isEnabled r) (rules d))).

(** [prisma.rule.findUnique({ where: { id, shopId } })]. *)
Definition findRule (rid sid : string) : Prisma (option Rule) :=
  query (fun d =>
    find (fun r => (ruleId r =? rid) && (ruleShopId r =? sid)) (rules d)).

Definition isImpressionOf (rid sid : string) (e : AnalyticsEvent) : bool :=
  (evRuleId e =? rid)
  && EventType_eqb (eventType e) IMPRESSION
  && match sessionId e with
     | Some s => s =? sid
     | None => false
     end.

(** [prisma.analyticsEvent.findFirst({ where: { ruleId,
    eventType: "IMPRESSION", sessionId } })]. *)
Definition findImpression (rid sid : string) : Prisma (option AnalyticsEvent) :=
  query (fun d => find (isImpressionOf rid sid) (events d)).

(** The [productPrice] column is DECIMAL(10,2) (migration.sql, line 80):
    a number written to it is kept rounded to two decimals, and a number
    that does not fit the ten digits is refused.  [decimal] is the
    column: the number read back for a number written, [None] when the
    write is refused.  [toColumn] is what the column holds for the
    [productPrice] given to [create]; [null] is always taken. *)
Definition toColumn (decimal : float -> option float)
    (productPrice : option float) : option (option float) :=
  match productPrice with
  | None => Some None
  | Some price =>
      match decimal price with
      | Some kept => Some (Some kept)
      | None => None
      end
  end.

(** [prisma.analyticsEvent.create({ data })]: the row gets the next
    identifier and the current time, and goes to the end of the table;
    the call rejects when the column refuses the price. *)
Definition createEvent (decimal : float -> option float) (sid rid : string)
    (ty : EventType) (cart session : option string) (price : option float)
    : Prisma unit :=
  callOrThrow (fun w =>
    let d := db w in
    match toColumn decimal price with
    | Some kept =>
        let row := mkEvent (List.length (events d)) sid rid ty cart session
                           kept (clock w) in
        Some (tt, mkDb (shops d) (rules d) (events d ++ [row]))
    | None => None
    end).

End Store.

(** ** Responses *)

Record OfferProduct := mkOfferProduct {
  opId : string;
  opVariantId : string;
  opTitle : string;
  opImage : option string;
  opPrice : string;
  opCompareAtPrice : option string;
  opAvailable : bool
}.

Record Offer := mkOffer {
  offerRuleId : string;
  offerProduct : OfferProduct
}.

Inductive Body : Type :=
| ErrorBody (error : string)
| OffersBody (offers : list Offer)
| TrackedBody (success tracked : bool) (reason : option string)
| ShippingBody (enabled : bool) (threshold : float) (currency : option string).

Record Response := mkResponse {
  status : nat;
  body : Body
}.

(** [Response.json(b, { status })]; the status is 200 when none is given.
    Headers are not modelled. *)
Definition json (b : Body) (st : nat) : Response := mkResponse st b.
Definition ok (b : Body) : Response := json b 200.

(** ** Cart matching and offer formatting *)

Module Matcher.

Definition gidPrefix : string := "gid://shopify/Product/".

Definition isDigit (c : ascii) : bool :=
  let n := nat_of_ascii c in Nat.leb 48 n && Nat.leb n 57.

(** The longest run of digits at the head of [s]: the group [(\d+)]. *)
Fixpoint takeDigits (s : string) : string :=
  match s with
  | String c r => if isDigit c then String c (takeDigits r) else EmptyString
  | EmptyString => EmptyString
  end.

Fixpoint stripPrefix (p s : string) : option string :=
  match p, s with
  | EmptyString, _ => Some s
  | String a p', String b s' =>
      if Ascii.eqb a b then stripPrefix p' s' else None
  | String _ _, EmptyString => None
  end.

(** The pattern tried at the head of [s]. *)
Definition matchHere (s : string) : option string :=
  match stripPrefix gidPrefix s with
  | Some rest =>
      match takeDigits rest with
      | EmptyString => None
      | digits => Some digits
      end
  | None => None
  end.

(** [gid.match(/gid:\/\/shopify\/Product\/(\d+)/)], group 1: the pattern
    is not anchored, the leftmost position where it matches wins. *)
Fixpoint matchGid (s : string) : option string :=
  match matchHere s with
  | Some digits => Some digits
  | None =>
      match s with
      | String _ r => matchGid r
      | EmptyString => None
      end
  end.

Definition extractProductId (gid : option string) : option string :=
  match gid with
  | None => None
  | Some g => if g =? "" then None else matchGid g
  end.

(** [id && cartProductIds.includes(id)]. *)
Definition inCart (cartProductIds : list string) (id : option string) : bool :=
  match id with
  | Some i => negb (i =? "") && Js.includes cartProductIds i
  | None => false
  end.

Definition maxOffers : nat := 3.

(** One element of [topRules.map(...)]. *)
Definition formatOffer (rule : Rule) : Offer :=
  let field (f : ProductData -> option string) : option string :=
    match upsellProductData rule with
    | Some productData => f productData
    | None => None
    end in
  mkOffer (ruleId rule)
    (mkOfferProduct
       (upsellProductId rule)
       (Js.orDefault (field pdVariantId) (upsellProductId rule))
       (Js.orDefault (field pdTitle) "Product")
       (Js.orNull (field pdImage))
       (Js.orDefault (field pdPrice) "0.00")
       (Js.orNull (field pdCompareAtPrice))
       true).

(** [matchedRules.slice(0, maxOffers).map(...)]. *)
Definition formatOffers (matchedRules : list Rule) : list Offer :=
  map formatOffer (firstn maxOffers matchedRules).

(** [productsParam.split(",").map(id => id.trim()).filter(Boolean)]. *)
Definition parseCart (productsParam : string) : list string :=
  filter (fun id => negb (id =? ""))
         (map Js.trim (Js.split "," productsParam)).

End Matcher.

(** The query string of [GET /upsells]. *)
Record UpsellsRequest := mkUpsellsRequest {
  qShop : option string;
  qProducts : option string;
  qCartToken : option string
}.

(** The loader of app/routes/api.storefront.upsells.tsx.  COLLECTION rules
    are skipped (lines 92 to 97). *)
Module Upsells.
Import Matcher.

(** The body of [for (const rule of rules)], on the array built so far. *)
Definition step (cartProductIds : list string)
    (matchedRules : list Rule) (rule : Rule) : list Rule :=
  match triggerType rule with
  | PRODUCT =>
      let matches :=
        inCart cartProductIds (extractProductId (triggerProductId rule)) in
      if matches then
        if inCart cartProductIds
                  (extractProductId (Some (upsellProductId rule)))
        then matchedRules
        else matchedRules ++ [rule]
      else matchedRules
  | COLLECTION => matchedRules
  end.

Definition matchRules (rules : list Rule) (cartProductIds : list string)
    : list Rule :=
  fold_left (step cartProductIds) rules [].

Definition loader (request : UpsellsRequest) : World -> Response * World :=
  fun w =>
    match qShop request with
    | None => (json (ErrorBody "Missing shop parameter") 400, w)
    | Some shop =>
        if shop =? "" then (json (ErrorBody "Missing shop parameter") 400, w)
        else if negb (Js.truthy (qProducts request))
        then (ok (OffersBody []), w)
        else
          let cartProductIds :=
            parseCart (Js.orDefault (qProducts request) "") in
          if Nat.eqb (List.length cartProductIds) 0
          then (ok (OffersBody []), w)
          else
            tryCatch
              (shopRecord <- Store.findShop shop ;;
               match shopRecord with
               | None => ret (ok (OffersBody []))
               | Some shopRecord =>
                   rules <- Store.findEnabledRules (shopId shopRecord) ;;
                   ret (ok (OffersBody
                              (formatOffers (matchRules rules cartProductIds))))
               end)
              (json (OffersBody []) 500) w
    end.

End Upsells.

(** The first app-proxy loader of unnamed/part_003 (lines 1 to 134): the
    statements of the storefront loader without the CORS headers.
    COLLECTION rules are skipped (lines 79 to 82). *)
Module ProxyUpsells.
Import Matcher.

(** The body of [for (const rule of rules)], on the array built so far. *)
Definition step (cartProductIds : list string)
    (matchedRules : list Rule) (rule : Rule) : list Rule :=
  match triggerType rule with
  | PRODUCT =>
      let matches :=
        inCart cartProductIds (extractProductId (triggerProductId rule)) in
      if matches then
        if inCart cartProductIds
                  (extractProductId (Some (upsellProductId rule)))
        then matchedRules
        else matchedRules ++ [rule]
      else matchedRules
  | COLLECTION => matchedRules
  end.

Definition matchRules (rules : list Rule) (cartProductIds : list string)
    : list Rule :=
  fold_left (step cartProductIds) rules [].

Definition loader (request : UpsellsRequest) : World -> Response * World :=
  fun w =>
    match qShop request with
    | None => (json (ErrorBody "Missing shop parameter") 400, w)
    | Some shop =>
        if shop =? "" then (json (ErrorBody "Missing shop parameter") 400, w)
        else if negb (Js.truthy (qProducts request))
        then (ok (OffersBody []), w)
        else
          let cartProductIds :=
            parseCart (Js.orDefault (qProducts request) "") in
          if Nat.eqb (List.length cartProductIds) 0
          then (ok (OffersBody []), w)
          else
            tryCatch
              (shopRecord <- Store.findShop shop ;;
               match shopRecord with
               | None => ret (ok (OffersBody []))
               | Some shopRecord =>
                   rules <- Store.findEnabledRules (shopId shopRecord) ;;
                   ret (ok (OffersBody
                              (formatOffers (matchRules rules cartProductIds))))
               end)
              (json (OffersBody []) 500) w
    end.

End ProxyUpsells.

(** The storefront loader of unnamed/part_001, which evaluates COLLECTION
    rules through [getProductCollections] (lines 80 to 138). *)
Module UpsellsCollections.
Import Matcher.

Section Platform.

(** [getProductCollections(productId)]: the collection ids the platform
    answers for a product of this shop, [[]] when the request fails. *)
Variable getProductCollections : string -> list string.

(** The inner [for (const productId of cartProductIds)], with the
    products looked up so far. *)
Fixpoint anyInCollection (collectionId : string) (cart : list string)
    (lookups : list string) : bool * list string :=
  match cart with
  | [] => (false, lookups)
  | productId :: rest =>
      let productCollections := getProductCollections productId in
      if Js.includes productCollections collectionId
      then (true, lookups ++ [productId])
      else anyInCollection collectionId rest (lookups ++ [productId])
  end.

(** The value of [matches] after the trigger test of one rule. *)
Definition ruleMatches (cartProductIds : list string) (rule : Rule)
    (lookups : list string) : bool * list string :=
  match triggerType rule with
  | PRODUCT =>
      (inCart cartProductIds (extractProductId (triggerProductId rule)),
       lookups)
  | COLLECTION =>
      anyInCollection (Js.orDefault (triggerCollectionId rule) "")
                      cartProductIds lookups
  end.

Definition step (cartProductIds : list string)
    (st : list Rule * list string) (rule : Rule) : list Rule * list string :=
  let (matchedRules, lookups) := st in
  let (matches, lookups') := ruleMatches cartProductIds rule lookups in
  if matches then
    if inCart cartProductIds
              (extractProductId (Some (upsellProductId rule)))
    then (matchedRules, lookups')
    else (matchedRules ++ [rule], lookups')
  else (matchedRules, lookups').

(** The matched rules and the platform lookups made, in order. *)
Definition matchRules (rules : list Rule) (cartProductIds : list string)
    : list Rule * list string :=
  fold_left (step cartProductIds) rules ([], []).

Definition loader (request : UpsellsRequest) : World -> Response * World :=
  fun w =>
    match qShop request with
    | None => (json (ErrorBody "Missing shop parameter") 400, w)
    | Some shop =>
        if shop =? "" then (json (ErrorBody "Missing shop parameter") 400, w)
        else if negb (Js.truthy (qProducts request))
        then (ok (OffersBody []), w)
        else
          let cartProductIds :=
            parseCart (Js.orDefault (qProducts request) "") in
          if Nat.eqb (List.length cartProductIds) 0
          then (ok (OffersBody []), w)
          else
            tryCatch
              (shopRecord <- Store.findShop shop ;;
               match shopRecord with
               | None => ret (ok (OffersBody []))
               | Some shopRecord =>
                   rules <- Store.findEnabledRules (shopId shopRecord) ;;
                   ret (ok (OffersBody
                          (formatOffers
                             (fst (matchRules rules cartProductIds)))))
               end)
              (json (OffersBody []) 500) w
    end.

End Platform.

End UpsellsCollections.

(** The second app-proxy loader of unnamed/part_003 (lines 135 to 333):
    the statements of unnamed/part_001 with console logging and without the
    CORS headers.  COLLECTION rules are evaluated through
    [getProductCollections] (lines 263 to 281). *)
Module ProxyUpsellsCollections.
Import Matcher.

Section Platform.

(** [getProductCollections(productId)]: the collection ids the platform
    answers for a product of this shop, [[]] when the request fails. *)
Variable getProductCollections : string -> list string.

(** The inner [for (const productId of cartProductIds)], with the
    products looked up so far. *)
Fixpoint anyInCollection (collectionId : string) (cart : list string)
    (lookups : list string) : bool * list string :=
  match cart with
  | [] => (false, lookups)
  | productId :: rest =>
      let productCollections := getProductCollections productId in
      if Js.includes productCollections collectionId
      then (true, lookups ++ [productId])
      else anyInCollection collectionId rest (lookups ++ [productId])
  end.

(** The value of [matches] after the trigger test of one rule. *)
Definition ruleMatches (cartProductIds : list string) (rule : Rule)
    (lookups : list string) : bool * list string :=
  match triggerType rule with
  | PRODUCT =>
      (inCart cartProductIds (extractProductId (triggerProductId rule)),
       lookups)
  | COLLECTION =>
      anyInCollection (Js.orDefault (triggerCollectionId rule) "")
                      cartProductIds lookups
  end.

Definition step (cartProductIds : list string)
    (st : list Rule * list string) (rule : Rule) : list Rule * list string :=
  let (matchedRules, lookups) := st in
  let (matches, lookups') := ruleMatches cartProductIds rule lookups in
  if matches then
    if inCart cartProductIds
              (extractProductId (Some (upsellProductId rule)))
    then (matchedRules, lookups')
    else (matchedRules ++ [rule], lookups')
  else (matchedRules, lookups').

(** The matched rules and the platform lookups made, in order. *)
Definition matchRules (rules : list Rule) (cartProductIds : list string)
    : list Rule * list string :=
  fold_left (step cartProductIds) rules ([], []).

Definition loader (request : UpsellsRequest) : World -> Response * World :=
  fun w =>
    match qShop request with
    | None => (json (ErrorBody "Missing shop parameter") 400, w)
    | Some shop =>
        if shop =? "" then (json (ErrorBody "Missing shop parameter") 400, w)
        else if negb (Js.truthy (qProducts request))
        then (ok (OffersBody []), w)
        else
          let cartProductIds :=
            parseCart (Js.orDefault (qProducts request) "") in
          if Nat.eqb (List.length cartProductIds) 0
          then (ok (OffersBody []), w)
          else
            tryCatch
              (shopRecord <- Store.findShop shop ;;
               match shopRecord with
               | None => ret (ok (OffersBody []))
               | Some shopRecord =>
                   rules <- Store.findEnabledRules (shopId shopRecord) ;;
                   ret (ok (OffersBody
                          (formatOffers
                             (fst (matchRules rules cartProductIds)))))
               end)
              (json (OffersBody []) 500) w
    end.

End Platform.

End ProxyUpsellsCollections.

(** The free-shipping settings loader ([GET /shipping]). *)
Module Shipping.

Definition loader (shop : option string) : World -> Response * World :=
  fun w =>
    if negb (Js.truthy shop)
    then (json (ErrorBody "Missing shop parameter") 400, w)
    else
      tryCatch
        (shopRecord <- Store.findShop (Js.orDefault shop "") ;;
         match shopRecord with
         | None => ret (ok (ShippingBody false 0%float (Some "USD")))
         | Some shopRecord =>
             ret (ok (ShippingBody (freeShippingEnabled shopRecord)
                                   (freeShippingThreshold shopRecord)
                                   (Some (currencyCode shopRecord))))
         end)
        (json (ShippingBody false 0%float None) 500) w.

End Shipping.

(** ** Analytics ingestion: [POST /track] *)

(** The JSON body.  The fields the handler hands to Prisma as strings are
    strings or absent; [productPrice] is any scalar (the widget sends a
    number or null). *)
Record TrackRequest := mkTrackRequest {
  tEventType : option string;
  tRuleId : option string;
  tShopDomain : option string;
  tCartToken : option string;
  tSessionId : option string;
  tProductPrice : Js.value
}.

Module Track.

Definition throw {A} : Prisma A := fun w => (Threw, w).

(** [["IMPRESSION", "CONVERSION"].includes(eventType)], with the enum
    value Prisma stores for the accepted string. *)
Definition eventTypeOf (s : string) : option EventType :=
  if s =? "IMPRESSION" then Some IMPRESSION
  else if s =? "CONVERSION" then Some CONVERSION
  else None.

Definition tracked : Response := ok (TrackedBody true true None).
Definition duplicate : Response :=
  ok (TrackedBody true false (Some "duplicate")).

Section ParseFloat.

(** The built-in [parseFloat], applied to a body field. *)
Variable parseFloat : Js.value -> float.

(** The DECIMAL(10,2) column of the event table. *)
Variable decimal : float -> option float.

(** The [productPrice] given to [create]. *)
Definition priceToStore (ty : EventType) (productPrice : Js.value)
    : option float :=
  if EventType_eqb ty CONVERSION && Js.truthyValue productPrice
  then Some (parseFloat productPrice)
  else None.

(** The statements after the rule has been found. *)
Definition record (shopRecord : Shop) (ruleId : string) (ty : EventType)
    (b : TrackRequest) : Prisma Response :=
  let create :=
    _ <- Store.createEvent decimal (shopId shopRecord) ruleId ty
           (Js.orNull (tCartToken b)) (Js.orNull (tSessionId b))
           (priceToStore ty (tProductPrice b)) ;;
    ret tracked in
  if EventType_eqb ty IMPRESSION && Js.truthy (tSessionId b)
  then
    existingImpression <-
      Store.findImpression ruleId (Js.orDefault (tSessionId b) "") ;;
    match existingImpression with
    | Some _ => ret duplicate
    | None => create
    end
  else create.

(** [action]; [b] is [None] when [request.json()] rejects. *)
Definition action (method : string) (b : option TrackRequest)
    : World -> Response * World :=
  fun w =>
    if negb (method =? "POST")
    then (json (ErrorBody "Method not allowed") 405, w)
    else
      tryCatch
        (match b with
         | None => throw
         | Some b =>
             if negb (Js.truthy (tEventType b))
                || negb (Js.truthy (tRuleId b))
                || negb (Js.truthy (tShopDomain b))
             then ret (json (ErrorBody "Missing required fields") 400)
             else
               match eventTypeOf (Js.orDefault (tEventType b) "") with
               | None => ret (json (ErrorBody "Invalid event type") 400)
               | Some ty =>
                   let ruleId := Js.orDefault (tRuleId b) "" in
                   shopRecord <-
                     Store.findShop (Js.orDefault (tShopDomain b) "") ;;
                   match shopRecord with
                   | None => ret (json (ErrorBody "Shop not found") 404)
                   | Some shopRecord =>
                       rule <- Store.findRule ruleId (shopId shopRecord) ;;
                       match rule with
                       | None =>
                           ret (json (ErrorBody "Rule not found") 404)
                       | Some _ => record shopRecord ruleId ty b
                       end
                   end
               end
         end)
        (json (ErrorBody "Internal server error") 500) w.

(** A sequence of requests, each at its own time and with its own
    failures of the store. *)
Fixpoint serve (reqs : list (string * option TrackRequest * list bool * nat))
    (d : Db) : list Response * Db :=
  match reqs with
  | [] => ([], d)
  | (method, b, fs, t) :: rest =>
      let (r, w) := action method b (mkWorld d fs t) in
      let (rs, d') := serve rest (db w) in
      (r :: rs, d')
  end.

End ParseFloat.

End Track.

(** ** Analytics rollup *)

Record Summary := mkSummary {
  totalImpressions : nat;
  totalConversions : nat;
  conversionRate : float;
  totalRevenue : float
}.

Module Analytics.

(** [Number(event.productPrice || 0)]: a stored decimal is an object, so
    only [null] takes the default. *)
Definition priceNumber (event : AnalyticsEvent) : float :=
  match productPrice event with
  | Some p => p
  | None => 0%float
  end.

(** The summary block of the loader, on the events read for the shop. *)
Definition computeSummary (events : list AnalyticsEvent) : Summary :=
  let impressionEvents :=
    filter (fun e => EventType_eqb (eventType e) IMPRESSION) events in
  let conversionEvents :=
    filter (fun e => EventType_eqb (eventType e) CONVERSION) events in
  let totalImpressions := List.length impressionEvents in
  let totalConversions := List.length conversionEvents in
  let conversionRate :=
    if Nat.ltb 0 totalImpressions
    then (Js.numberOfNat totalConversions / Js.numberOfNat totalImpressions
          * 100)%float
    else 0%float in
  let totalRevenue :=
    fold_left (fun sum event => (sum + priceNumber event)%float)
              conversionEvents 0%float in
  mkSummary totalImpressions totalConversions conversionRate totalRevenue.

(** The summary the loader returns for the shop of the session. *)
Definition summaryFor (shop : string) (d : Db) : Summary :=
  match find (fun s => shopifyDomain s =? shop) (shops d) with
  | None => mkSummary 0 0 0%float 0%float
  | Some shopRecord =>
      computeSummary
        (filter (fun e => evShopId e =? shopId shopRecord) (events d))
  end.

End Analytics.

(** ** Billing plans (app/billing.ts) *)

Record PlanConfig := mkPlanConfig {
  planName : string;
  planPrice : float;
  maxRules : Z;
  features : list string
}.

Record LineItem := mkLineItem {
  (** [item.plan?.pricingDetails?.price?.amount] *)
  amount : Js.value
}.

Record Subscription := mkSubscription {
  subStatus : string;
  lineItems : option (list LineItem)
}.

Inductive Action := createRule.

Record Permission := mkPermission {
  allowed : bool;
  reason : option string
}.

Module Billing.

(** The binary64 value of the literal 9.99. *)
Definition proPrice : float := 0x1.3fae147ae147bp+3%float.

(** The object has the keys FREE and PRO; any other key reads
    [undefined]. *)
Definition BILLING_PLANS (p : Plan) : option PlanConfig :=
  match p with
  | FREE =>
      Some (mkPlanConfig "Free" 0%float 1
              ["1 active upsell rule"; "Basic analytics";
               "Cart page upsells"; "Email support"])
  | PRO =>
      Some (mkPlanConfig "Pro" proPrice 999
              ["Unlimited upsell rules"; "Advanced analytics";
               "Cart page upsells"; "Discount badges"; "Priority support"])
  | STARTER => None
  end.

(** A number inside a template literal. *)
Definition show (n : Z) : string := NilZero.string_of_int (Z.to_int n).

Section ParseFloat.

Variable parseFloat : Js.value -> float.

(** The result as a condition reads it ([undefined] from a missing
    [lineItems] is false). *)
Definition hasActivePaidSubscription (subscription : option Subscription)
    : bool :=
  match subscription with
  | None => false
  | Some subscription =>
      (subStatus subscription =? "ACTIVE")
      && match lineItems subscription with
         | Some items =>
             existsb
               (fun item =>
                  let price := amount item in
                  Js.truthyValue price
                  && PrimFloat.ltb 0%float (parseFloat price))
               items
         | None => false
         end
  end.

Definition getCurrentPlan (subscription : option Subscription) : Plan :=
  if hasActivePaidSubscription subscription then PRO else FREE.

End ParseFloat.

(** Reading [plan.maxRules] of an absent plan throws a TypeError; the
    count is tested first, so a call without a count returns. *)
Definition canPerformAction (currentPlan : Plan) (action : Action)
    (currentCount : option Z) : Outcome Permission :=
  let plan := BILLING_PLANS currentPlan in
  match action, currentCount with
  | createRule, Some count =>
      match plan with
      | None => Threw
      | Some plan =>
          if (maxRules plan <=? count)%Z
          then Returned
                 (mkPermission false
                    (Some ("You've reached the maximum of "
                           ++ show (maxRules plan)
                           ++ " rule(s) on the " ++ planName plan
                           ++ " plan. Upgrade to Pro for unlimited rules.")%string))
          else Returned (mkPermission true None)
      end
  | createRule, None => Returned (mkPermission true None)
  end.

End Billing.

(** ** The plan checks of rule creation (app/routes/app.rules.new.tsx) *)

(** What an admin request can read: the store, and the subscription the
    billing API reports for the shop at that moment. *)
Record AdminContext := mkAdminContext {
  store : Db;
  liveSubscription : option Subscription
}.

Module RulesNew.

(** [prisma.shop.findUnique({ where: { shopifyDomain },
    include: { rules: { where: { isEnabled: true } } } })]. *)
Definition findShopWithRules (shop : string) (d : Db)
    : option (Shop * list Rule) :=
  match find (fun s => shopifyDomain s =? shop) (shops d) with
  | Some shopRecord =>
      Some (shopRecord,
            filter (fun r => (ruleShopId r =? shopId shopRecord)
                             && isEnabled r) (rules d))
  | None => None
  end.

(** [canCreateRule] of the loader; [None] when the shop is not found. *)
Definition canCreateRule (ctx : AdminContext) (shop : string) : option bool :=
  match findShopWithRules shop (store ctx) with
  | Some (shopRecord, rules) =>
      Some (negb (Plan_eqb (currentPlan shopRecord) FREE)
            || Nat.ltb (List.length rules) 1)
  | None => None
  end.

(** [errors.plan] of the action, for the submitted [isEnabled]; the outer
    [None] is the 404 of an unknown shop. *)
Definition planError (ctx : AdminContext) (shop : string) (isEnabled : bool)
    : option (option string) :=
  match findShopWithRules shop (store ctx) with
  | Some (shopRecord, rules) =>
      Some (if Plan_eqb (currentPlan shopRecord) FREE
               && Nat.leb 1 (List.length rules)
               && isEnabled
            then Some "Free plan allows only 1 active rule. Upgrade to create more."
            else None)
  | None => None
  end.

(** The stored plan of a shop replaced, everything else kept. *)
Definition withPlan (p : Plan) (s : Shop) : Shop :=
  mkShop (shopId s) (shopifyDomain s) (accessToken s) p
         (freeShippingEnabled s) (freeShippingThreshold s) (currencyCode s).

Definition withStoredPlan (shop : string) (p : Plan) (ctx : AdminContext)
    : AdminContext :=
  mkAdminContext
    (mkDb (map (fun s => if shopifyDomain s =? shop then withPlan p s else s)
               (shops (store ctx)))
          (rules (store ctx)) (events (store ctx)))
    (liveSubscription ctx).

End RulesNew.

(** ** The properties, in the specification's words *)

Module Spec.
Import Matcher.

Definition isProductRule (r : Rule) : bool :=
  match triggerType r with
  | PRODUCT => true
  | COLLECTION => false
  end.

(** The upsell product of the rule is already in the cart. *)
Definition upsellInCart (cart : list string) (r : Rule) : bool :=
  inCart cart (extractProductId (Some (upsellProductId r))).

(** A PRODUCT rule whose trigger is in the cart and whose upsell is not. *)
Definition productOffer (cart : list string) (r : Rule) : bool :=
  isProductRule r
  && inCart cart (extractProductId (triggerProductId r))
  && negb (upsellInCart cart r).

(** Every character of [s] passes the test. *)
Fixpoint allChars (f : ascii -> bool) (s : string) : bool :=
  match s with
  | String c r => f c && allChars f r
  | EmptyString => true
  end.

(** The characters 0 to 9. *)
Definition digit (c : ascii) : bool :=
  existsb (Ascii.eqb c) (list_ascii_of_string "0123456789").

(** [id] is the numeric id of the identifier [gid]: the digits that
    follow the first place where [gid://shopify/Product/] stands before
    a digit, up to the first character that is not a digit. *)
Definition numericId (gid id : string) : Prop :=
  exists before after,
    gid = (before ++ "gid://shopify/Product/" ++ id ++ after)%string
    /\ id <> ""
    /\ allChars digit id = true
    /\ (forall c rest, after = String c rest -> digit c = false)
    /\ (forall p c rest,
          gid = (p ++ "gid://shopify/Product/" ++ String c rest)%string ->
          digit c = true -> String.length before <= String.length p).

(** The normalisation as the specification words it: the identifier with
    the prefix [gid://shopify/Product/] taken off, an identifier without
    the prefix as it is. *)
Definition stripped (gid : string) : string :=
  let p := "gid://shopify/Product/" in
  if String.prefix p gid
  then String.substring (String.length p)
                        (String.length gid - String.length p) gid
  else gid.

(** The test of the specification's words: a PRODUCT rule whose stripped
    trigger identifier is in the cart and whose stripped upsell
    identifier is not. *)
Definition strippedOffer (cart : list string) (r : Rule) : bool :=
  isProductRule r
  && match triggerProductId r with
     | Some gid => Js.includes cart (stripped gid)
     | None => false
     end
  && negb (Js.includes cart (stripped (upsellProductId r))).

(** Ascending priority. *)
Definition byPriority (a b : Rule) : Prop := (priority a <= priority b)%Z.

(** Some cart product belongs to the collection, by the platform's
    answers. *)
Definition cartInCollection (platform : string -> list string)
    (collectionId : string) (cart : list string) : bool :=
  existsb (fun p => Js.includes (platform p) collectionId) cart.

(** The rules the collection-aware matcher keeps. *)
Definition offered (platform : string -> list string) (cart : list string)
    (r : Rule) : bool :=
  match triggerType r with
  | PRODUCT => productOffer cart r
  | COLLECTION =>
      cartInCollection platform (Js.orDefault (triggerCollectionId r) "") cart
      && negb (upsellInCart cart r)
  end.

(** The code points [trim] takes for white space: tab, line feed,
    vertical tab, form feed, carriage return, space, no-break space,
    ogham space mark, en quad to hair space, line and paragraph
    separator, narrow no-break space, medium mathematical space,
    ideographic space and the byte order mark. *)
Definition whiteSpaceCodePoints : list N :=
  [9; 10; 11; 12; 13; 32; 160; 5760;
   8192; 8193; 8194; 8195; 8196; 8197; 8198; 8199; 8200; 8201; 8202;
   8232; 8233; 8239; 8287; 12288; 65279]%N.

(** The UTF-8 bytes of a code point. *)
Definition utf8 (cp : N) : string :=
  let byte n := String (ascii_of_N n) in
  if (cp <? 128)%N then byte cp ""
  else if (cp <? 2048)%N
  then byte (192 + cp / 64)%N (byte (128 + cp mod 64)%N "")
  else if (cp <? 65536)%N
  then byte (224 + cp / 4096)%N
         (byte (128 + (cp / 64) mod 64)%N (byte (128 + cp mod 64)%N ""))
  else byte (240 + cp / 262144)%N
         (byte (128 + (cp / 4096) mod 64)%N
            (byte (128 + (cp / 64) mod 64)%N (byte (128 + cp mod 64)%N ""))).

(** A blank string: white-space characters only. *)
Inductive blank : string -> Prop :=
| blank_empty : blank ""
| blank_space cp s :
    In cp whiteSpaceCodePoints -> blank s -> blank (utf8 cp ++ s).

(** A [products] parameter that names no product: absent, empty, or
    blank ids between its commas. *)
Definition noProducts (p : option string) : Prop :=
  match p with
  | None => True
  | Some s => exists ids, Forall blank ids /\ s = String.concat "," ids
  end.

(** Number of events of one type. *)
Fixpoint countType (ty : EventType) (es : list AnalyticsEvent) : nat :=
  match es with
  | [] => 0
  | e :: rest =>
      (if EventType_eqb (eventType e) ty then 1 else 0) + countType ty rest
  end.

(** Revenue added up event by event: a conversion adds its price, zero
    when it has none; an impression adds nothing. *)
Fixpoint revenueFrom (acc : float) (es : list AnalyticsEvent) : float :=
  match es with
  | [] => acc
  | e :: rest =>
      match eventType e with
      | CONVERSION =>
          revenueFrom (acc + match productPrice e with
                             | Some p => p
                             | None => 0
                             end)%float rest
      | IMPRESSION => revenueFrom acc rest
      end
  end.

(** The shop of [domain] is in the store and owns the rule [rid]. *)
Definition knownRule (d : Db) (domain rid : string) : Prop :=
  exists shopRecord rule,
    find (fun s => shopifyDomain s =? domain) (shops d) = Some shopRecord
    /\ find (fun r => (ruleId r =? rid) && (ruleShopId r =? shopId shopRecord))
            (rules d) = Some rule.

(** The store holds an IMPRESSION row for the rule and the session. *)
Definition hasImpression (d : Db) (rid sid : string) : Prop :=
  exists e,
    In e (events d)
    /\ evRuleId e = rid /\ eventType e = IMPRESSION /\ sessionId e = Some sid.

(** The store of [w] with one more event row. *)
Definition appended (w : World) (row : AnalyticsEvent) : Db :=
  mkDb (shops (db w)) (rules (db w)) (events (db w) ++ [row]).

(** A well-formed IMPRESSION request with a session. *)
Definition impression (domain rid sid : string) (cart : option string)
    (price : Js.value) : TrackRequest :=
  mkTrackRequest (Some "IMPRESSION") (Some rid) (Some domain) cart (Some sid)
                 price.

(** A well-formed CONVERSION request. *)
Definition conversion (domain rid : string) (cart session : option string)
    (price : Js.value) : TrackRequest :=
  mkTrackRequest (Some "CONVERSION") (Some rid) (Some domain) cart session
                 price.

(** Conversion requests, one per time of arrival, against a store that
    answers. *)
Definition conversions (domain rid : string) (cart session : option string)
    (price : Js.value) (times : list nat)
    : list (string * option TrackRequest * list bool * nat) :=
  map (fun t => ("POST", Some (conversion domain rid cart session price),
                 @nil bool, t)) times.

(** A price is given: the field holds something other than undefined,
    null, false, a zero, NaN or the empty string. *)
Definition givenPrice (v : Js.value) : bool :=
  match v with
  | Js.Undefined | Js.Null => false
  | Js.Bool b => b
  | Js.Number f => negb (PrimFloat.eqb f 0) && PrimFloat.eqb f f
  | Js.Str s => negb (Nat.eqb (String.length s) 0)
  end.

(** The field is in the body with a value: anything but undefined and
    null. *)
Definition supplied (v : Js.value) : bool :=
  match v with
  | Js.Undefined | Js.Null => false
  | _ => true
  end.

(** [needle] occurs in [s]. *)
Definition names (s needle : string) : Prop :=
  exists before after, s = (before ++ needle ++ after)%string.

End Spec.


(** ** The storefront widget (extensions/cart-upsell-block/assets/cart-upsell.js) *)

Module Widget.

(** The query [fetchUpsells] sends for the product ids of the cart, or
    [None] when it answers [[]] without a request.  Encoding the
    parameters and decoding them on the server gives the strings back. *)
Definition upsellsQuery (shopDomain : string) (productIds : list string)
    (cartToken : option string) : option UpsellsRequest :=
  if Nat.eqb (List.length productIds) 0 || (shopDomain =? "")
  then None
  else Some (mkUpsellsRequest (Some shopDomain)
                              (Some (String.concat "," productIds))
                              (Some (Js.orDefault cartToken ""))).

End Widget.

(** ** Further properties *)

Module Props.

Definition commaFree (s : string) : bool :=
  Spec.allChars (fun c => negb (Ascii.eqb c ",")) s.

Definition firstChar (s : string) : option ascii :=
  match s with
  | String c _ => Some c
  | EmptyString => None
  end.

(** A string without surrounding white space: no white-space character
    at its head and none at its end. *)
Definition trimmed (s : string) : Prop :=
  forall cp rest,
    In cp Spec.whiteSpaceCodePoints ->
    s <> (Spec.utf8 cp ++ rest)%string /\ s <> (rest ++ Spec.utf8 cp)%string.

(** A product id that survives the journey through the [products]
    parameter: not empty, without comma, without surrounding white
    space.  The ids the widget sends are numbers written in decimal. *)
Definition plainId (id : string) : Prop :=
  id <> "" /\ commaFree id = true /\ trimmed id.


(** Number of COLLECTION rules. *)
Definition collectionRules (rs : list Rule) : nat :=
  List.length (filter (fun r => negb (Spec.isProductRule r)) rs).

(** The (rule, session) pairs of the IMPRESSION rows that carry a
    session. *)
Fixpoint impressionKeys (es : list AnalyticsEvent) : list (string * string) :=
  match es with
  | [] => []
  | e :: rest =>
      match eventType e, sessionId e with
      | IMPRESSION, Some sid => (evRuleId e, sid) :: impressionKeys rest
      | _, _ => impressionKeys rest
      end
  end.

(** An IMPRESSION request without a usable session id. *)
Definition anonymousImpression (domain rid : string) (cart : option string)
    (session : option string) (price : Js.value) : TrackRequest :=
  mkTrackRequest (Some "IMPRESSION") (Some rid) (Some domain) cart session
                 price.

(** The same anonymous impression, once per time of arrival, against a
    store that answers. *)
Definition anonymousImpressions (domain rid : string) (cart : option string)
    (session : option string) (price : Js.value) (times : list nat)
    : list (string * option TrackRequest * list bool * nat) :=
  map (fun t => ("POST",
                 Some (anonymousImpression domain rid cart session price),
                 @nil bool, t)) times.

(** The enabled rules of a shop, as the plan checks count them. *)
Definition enabledOf (sid : string) (d : Db) : list Rule :=
  filter (fun r => (ruleShopId r =? sid) && isEnabled r) (rules d).

(** The trigger of a stored rule agrees with its type: the field of the
    type is set, the other one is null, and a PRODUCT trigger is not the
    upsell product. *)
Definition wellTriggered (r : Rule) : Prop :=
  match triggerType r with
  | PRODUCT =>
      (exists p, triggerProductId r = Some p /\ p <> ""
                 /\ p <> upsellProductId r)
      /\ triggerCollectionId r = None
  | COLLECTION =>
      (exists c, triggerCollectionId r = Some c /\ c <> "")
      /\ triggerProductId r = None
  end.

(** How many answers are [{success: true, tracked: true}]. *)
Fixpoint trackedAnswers (rs : list Response) : nat :=
  match rs with
  | [] => 0
  | r :: rest =>
      match body r with
      | TrackedBody true true None =>
          (if Nat.eqb (status r) 200 then 1 else 0) + trackedAnswers rest
      | _ => trackedAnswers rest
      end
  end.

End Props.

(** ** Per-rule analytics (app/routes/app.analytics.tsx) *)

Record RulePerformance := mkRulePerformance {
  rpRuleId : string;
  rpRuleName : string;
  rpImpressions : nat;
  rpConversions : nat;
  rpConversionRate : float;
  rpRevenue : float;
  rpIsEnabled : bool
}.

Module AnalyticsRules.

(** [[...new Set(ids)]]: each id once, in order of first appearance. *)
Definition unique (ids : list string) : list string :=
  fold_left (fun seen id => if Js.includes seen id then seen else seen ++ [id])
            ids [].

(** The events of one rule and one type. *)
Definition ofRule (ruleId : string) (ty : EventType) (e : AnalyticsEvent)
    : bool :=
  (evRuleId e =? ruleId) && EventType_eqb (eventType e) ty.

(** The callback of [ruleIds.map]: [None] is the [null] of a rule that is
    not found. *)
Definition performanceOf (d : Db) (events : list AnalyticsEvent)
    (id : string) : option RulePerformance :=
  match find (fun r => ruleId r =? id) (rules d) with
  | None => None
  | Some rule =>
      let ruleImpressions :=
        List.length (filter (ofRule id IMPRESSION) events) in
      let ruleConversions :=
        List.length (filter (ofRule id CONVERSION) events) in
      let ruleConversionRate :=
        if Nat.ltb 0 ruleImpressions
        then (Js.numberOfNat ruleConversions / Js.numberOfNat ruleImpressions
              * 100)%float
        else 0%float in
      let ruleRevenue :=
        fold_left (fun sum event => (sum + Analytics.priceNumber event)%float)
                  (filter (ofRule id CONVERSION) events) 0%float in
      Some (mkRulePerformance (ruleId rule) (ruleName rule) ruleImpressions
                              ruleConversions ruleConversionRate ruleRevenue
                              (isEnabled rule))
  end.

(** [xs.filter(Boolean)] on an array of objects and nulls. *)
Fixpoint somes {A} (xs : list (option A)) : list A :=
  match xs with
  | [] => []
  | Some x :: rest => x :: somes rest
  | None :: rest => somes rest
  end.

(** [rulePerformance] of the loader, on the events read for the shop and
    a store that answers every rule look-up. *)
Definition rulePerformance (d : Db) (events : list AnalyticsEvent)
    : list RulePerformance :=
  let ruleIds := unique (map evRuleId events) in
  somes (map (performanceOf d events) ruleIds).

End AnalyticsRules.

(** ** Admin routes *)

(** The validation messages of the rule form, by field. *)
Record RuleErrors := mkRuleErrors {
  errName : option string;
  errTriggerType : option string;
  errTriggerProductId : option string;
  errTriggerCollectionId : option string;
  errUpsellProductId : option string;
  errPlan : option string
}.

Inductive AdminResponse : Type :=
| Redirect (url : string)
| Success
| Failure (status : nat) (error : string)
| Invalid (errors : RuleErrors).

Definition withEnabled (v : bool) (r : Rule) : Rule :=
  mkRule (ruleId r) (ruleShopId r) (ruleName r) v (triggerType r)
         (triggerProductId r) (triggerCollectionId r) (upsellProductId r)
         (upsellProductData r) (priority r).

(** The action of the rule list: delete and toggle. *)
Module RulesIndex.

(** [prisma.rule.delete({ where: { id } })]; the events of the rule go
    with it (ON DELETE CASCADE). *)
Definition deleteRule (id : option string) : Prisma unit :=
  callOrThrow (fun w =>
    let d := db w in
    match id with
    | None => None
    | Some id =>
        if existsb (fun r => ruleId r =? id) (rules d)
        then Some (tt, mkDb (shops d)
                            (filter (fun r => negb (ruleId r =? id)) (rules d))
                            (filter (fun e => negb (evRuleId e =? id))
                                    (events d)))
        else None
    end).

(** [prisma.rule.update({ where: { id }, data: { isEnabled } })]. *)
Definition setEnabled (id : option string) (v : bool) : Prisma unit :=
  callOrThrow (fun w =>
    let d := db w in
    match id with
    | None => None
    | Some id =>
        if existsb (fun r => ruleId r =? id) (rules d)
        then Some (tt, mkDb (shops d)
                            (map (fun r => if ruleId r =? id
                                           then withEnabled v r else r)
                                 (rules d))
                            (events d))
        else None
    end).

(** [action], for the shop of the session and the fields [intent],
    [ruleId] and [isEnabled] of the form. *)
Definition action (shop : string) (intent ruleId isEnabled : option string)
    : Prisma AdminResponse :=
  shopRecord <- Store.findShop shop ;;
  match shopRecord with
  | None => ret (Failure 404 "Shop not found")
  | Some _ =>
      match intent with
      | Some "delete" =>
          _ <- deleteRule ruleId ;;
          ret Success
      | Some "toggle" =>
          let isEnabled := match isEnabled with
                           | Some v => v =? "true"
                           | None => false
                           end in
          _ <- setEnabled ruleId isEnabled ;;
          ret Success
      | _ => ret (Failure 400 "Invalid intent")
      end
  end.

End RulesIndex.

(** The fields of the rule form, as [formData.get] returns them. *)
Record RuleForm := mkRuleForm {
  fName : option string;
  fTriggerType : option string;
  fTriggerProductId : option string;
  fTriggerCollectionId : option string;
  fUpsellProductId : option string;
  fIsEnabled : option string
}.

(** The action of app/routes/app.rules.new.tsx. *)
Module RuleCreate.

Definition option_eqb (a b : option string) : bool :=
  match a, b with
  | Some x, Some y => x =? y
  | None, None => true
  | _, _ => false
  end.

Definition isType (t : option string) (name : string) : bool :=
  match t with
  | Some s => s =? name
  | None => false
  end.

Definition submittedEnabled (form : RuleForm) : bool :=
  isType (fIsEnabled form) "true".

(** The [errors] object after the checks, in their order. *)
Definition validate (shopRecord : Shop) (rules : list Rule) (form : RuleForm)
    : RuleErrors :=
  let name := fName form in
  let triggerType := fTriggerType form in
  let errName :=
    if negb (Js.truthy name)
       || Nat.eqb (String.length (Js.trim (Js.orDefault name ""))) 0
    then Some "Rule name is required" else None in
  let errTriggerType :=
    if negb (Js.truthy triggerType)
    then Some "Trigger type is required" else None in
  let errTriggerProductId :=
    if isType triggerType "PRODUCT"
       && negb (Js.truthy (fTriggerProductId form))
    then Some "Trigger product is required" else None in
  let errTriggerCollectionId :=
    if isType triggerType "COLLECTION"
       && negb (Js.truthy (fTriggerCollectionId form))
    then Some "Trigger collection is required" else None in
  let errUpsell1 :=
    if negb (Js.truthy (fUpsellProductId form))
    then Some "Upsell product is required" else None in
  let errUpsell2 :=
    if isType triggerType "PRODUCT"
       && option_eqb (fTriggerProductId form) (fUpsellProductId form)
    then Some "Trigger and upsell must be different products"
    else errUpsell1 in
  let errPlan :=
    if Plan_eqb (currentPlan shopRecord) FREE
       && Nat.leb 1 (List.length rules)
       && submittedEnabled form
    then Some "Free plan allows only 1 active rule. Upgrade to create more."
    else None in
  mkRuleErrors errName errTriggerType errTriggerProductId
               errTriggerCollectionId errUpsell2 errPlan.

(** [Object.keys(errors).length > 0]. *)
Definition anyError (e : RuleErrors) : bool :=
  match e with
  | mkRuleErrors None None None None None None => false
  | _ => true
  end.

(** The value Prisma takes for the [triggerType] column. *)
Definition triggerTypeOf (s : string) : option TriggerType :=
  if s =? "PRODUCT" then Some PRODUCT
  else if s =? "COLLECTION" then Some COLLECTION
  else None.

Section Platform.

(** The snapshot built from the platform's answer for the upsell
    product: [Threw] when the request fails, [None] when the platform
    has no such product. *)
Variable upsellSnapshot : string -> Outcome (option ProductData).

(** The id Prisma gives the new row. *)
Variable newRuleId : Db -> string.

(** [prisma.rule.create({ data })]; the priority takes its default. *)
Definition createRule (shopRecord : Shop) (form : RuleForm)
    (upsellProductData : option ProductData) : Prisma unit :=
  callOrThrow (fun w =>
    let d := db w in
    match triggerTypeOf (Js.orDefault (fTriggerType form) "") with
    | None => None
    | Some ty =>
        let rule :=
          mkRule (newRuleId d) (shopId shopRecord)
                 (Js.trim (Js.orDefault (fName form) ""))
                 (submittedEnabled form) ty
                 (match ty with
                  | PRODUCT => fTriggerProductId form
                  | COLLECTION => None
                  end)
                 (match ty with
                  | COLLECTION => fTriggerCollectionId form
                  | PRODUCT => None
                  end)
                 (Js.orDefault (fUpsellProductId form) "")
                 upsellProductData 0 in
        Some (tt, mkDb (shops d) (rules d ++ [rule]) (events d))
    end).

(** [action], for the shop of the authenticated session.  The look-up
    of the trigger product only fills [triggerProductData], a column
    the [Rule] record does not carry; its failure is caught and changes
    nothing else, so it is left out. *)
Definition action (shop : string) (form : RuleForm) : Prisma AdminResponse :=
  found <- query (RulesNew.findShopWithRules shop) ;;
  match found with
  | None => ret (Failure 404 "Shop not found")
  | Some (shopRecord, rules) =>
      let errors := validate shopRecord rules form in
      if anyError errors then ret (Invalid errors)
      else
        match upsellSnapshot (Js.orDefault (fUpsellProductId form) "") with
        | Threw =>
            ret (Invalid (mkRuleErrors None None None None
                            (Some "Failed to fetch product data") None))
        | Returned upsellProductData =>
            _ <- createRule shopRecord form upsellProductData ;;
            ret (Redirect "/app/rules")
        end
  end.

End Platform.

End RuleCreate.

(** The [errors] object with no key. *)
Definition noErrors : RuleErrors := mkRuleErrors None None None None None None.
(** ** Sample data *)

Definition ruleA : Rule :=
  mkRule "rule-a" "shop-1" "Socks with shoes" true PRODUCT
         (Some "gid://shopify/Product/101") None
         "gid://shopify/Product/202" None 0.

Definition ruleB : Rule :=
  mkRule "rule-b" "shop-1" "Summer collection" true COLLECTION
         None (Some "gid://shopify/Collection/7")
         "gid://shopify/Product/303" None 1.

Definition summerPlatform (productId : string) : list string :=
  if productId =? "101" then ["gid://shopify/Collection/7"] else [].


Definition sampleShop : Shop :=
  mkShop "shop-1" "demo.myshopify.com" "token" FREE false 0%float "USD".

Definition sampleDb : Db := mkDb [sampleShop] [ruleA; ruleB] [].

Definition sampleWorld : World := mkWorld sampleDb [] 0.

(** A cart of a space, a no-break space and nothing:
    [products=%20,%C2%A0,]. *)
Definition blankCartRequest : UpsellsRequest :=
  mkUpsellsRequest (Some "demo.myshopify.com")
                   (Some (" ," ++ Js.bytes [194; 160] ++ ",")%string) None.


(** A stand-in for [parseFloat] on the values the widget sends: numbers
    parse to themselves. *)
Definition sampleParseFloat (v : Js.value) : float :=
  match v with
  | Js.Number f => f
  | _ => PrimFloat.nan
  end.

Definition sampleEvent (ty : EventType) (price : option float) : AnalyticsEvent :=
  mkEvent 0 "shop-1" "rule-a" ty None (Some "s1") price 0.

Definition tenImpressionsTwoConversions : list AnalyticsEvent :=
  sampleEvent CONVERSION (Some 500%float)
  :: repeat (sampleEvent IMPRESSION None) 10
  ++ [sampleEvent CONVERSION None].

Definition storedFreeContext : AdminContext := mkAdminContext sampleDb None.

Definition storedProContext : AdminContext :=
  RulesNew.withStoredPlan "demo.myshopify.com" PRO storedFreeContext.

(** The scenario of two rules: A sells product 202 with product 101, B
    sells product 303 with the collection 7, which product 303 is in. *)
Definition scenarioPlatform (productId : string) : list string :=
  if productId =? "303" then ["gid://shopify/Collection/7"] else [].

Definition scenarioWorld : World := mkWorld sampleDb [] 0.

Definition scenarioRequest : UpsellsRequest :=
  mkUpsellsRequest (Some "demo.myshopify.com") (Some "101, 303") None.

(** A stand-in for the DECIMAL(10,2) column on prices written with at most
    two decimals: kept as they are below 10^8, refused from there on. *)
Definition sampleDecimal (price : float) : option float :=
  if PrimFloat.ltb (PrimFloat.abs price) 100000000%float
  then Some price else None.

(** Rules whose identifiers are bare numbers. *)
Definition bareTriggerRule : Rule :=
  mkRule "rule-d" "shop-1" "Bare trigger" true PRODUCT
         (Some "101") None "gid://shopify/Product/202" None 0.

Definition bareUpsellRule : Rule :=
  mkRule "rule-e" "shop-1" "Bare upsell" true PRODUCT
         (Some "gid://shopify/Product/101") None "202" None 0.

(** ** More sample data *)

Definition otherShop : Shop :=
  mkShop "shop-2" "other.myshopify.com" "token-2" FREE false 0%float "USD".

(** Two shops; both rules belong to the first one. *)
Definition twoShopsDb : Db := mkDb [sampleShop; otherShop] [ruleA; ruleB] [].

(** A platform without the product, and the id of the next rule. *)
Definition noSnapshot (productId : string) : Outcome (option ProductData) :=
  Returned None.

Definition nextRuleId (d : Db) : string := "rule-new".

(** A form for a disabled collection rule. *)
Definition sampleForm : RuleForm :=
  mkRuleForm (Some " Hats with scarves ") (Some "COLLECTION") None
             (Some "gid://shopify/Collection/9")
             (Some "gid://shopify/Product/404") None.

Definition disabledRule : Rule :=
  mkRule "rule-c" "shop-1" "Gloves" false PRODUCT
         (Some "gid://shopify/Product/505") None
         "gid://shopify/Product/606" None 2.

(** A Free shop with two enabled rules and a disabled one. *)
Definition threeRulesDb : Db :=
  mkDb [sampleShop; otherShop] [ruleA; ruleB; disabledRule] [].

(** Rules that all match a cart with product 101, by priority. *)
Definition fourMatching (p : Z) : Rule :=
  mkRule "rule-p" "shop-1" "By priority" true PRODUCT
         (Some "gid://shopify/Product/101") None
         "gid://shopify/Product/202" None p.
(** * Theorems *)

(** ** Identifiers *)

Section Identifiers.
Import Matcher.

Lemma takeDigits_all (d : string) :
  Spec.allChars isDigit d = true -> takeDigits d = d.
Proof.
  induction d as [|c d IH]; simpl; [reflexivity|].
  intros H. apply andb_prop in H as [Hc Hd].
  rewrite Hc, (IH Hd). reflexivity.
Qed.

Lemma matchHere_nonempty (s d : string) :
  matchHere s = Some d -> d <> "".
Proof.
  unfold matchHere. destruct (stripPrefix gidPrefix s) as [rest|]; [|discriminate].
  destruct (takeDigits rest) eqn:E; [discriminate|].
  intros H. inversion H. discriminate.
Qed.

Lemma matchGid_nonempty (s d : string) :
  matchGid s = Some d -> d <> "".
Proof.
  induction s as [|c s IH]; cbn [matchGid].
  - discriminate.
  - destruct (matchHere (String c s)) eqn:E.
    + intros H. inversion H. subst. eapply matchHere_nonempty, E.
    + exact IH.
Qed.

Lemma extractProductId_nonempty (gid : option string) (d : string) :
  extractProductId gid = Some d -> d <> "".
Proof.
  destruct gid as [g|]; simpl; [|discriminate].
  destruct (g =? ""); [discriminate|]. apply matchGid_nonempty.
Qed.

Lemma includes_In (xs : list string) (x : string) :
  Js.includes xs x = true <-> In x xs.
Proof.
  unfold Js.includes. rewrite existsb_exists. split.
  - intros [y [Hy E]]. apply String.eqb_eq in E. subst. exact Hy.
  - intros H. exists x. split; [exact H | apply String.eqb_refl].
Qed.

Lemma inCart_spec (cart : list string) (gid : option string) :
  inCart cart (extractProductId gid) = true
  <-> exists d, extractProductId gid = Some d /\ In d cart.
Proof.
  unfold inCart. destruct (extractProductId gid) as [d|] eqn:E.
  - pose proof (extractProductId_nonempty _ _ E) as Hne.
    apply String.eqb_neq in Hne. rewrite Hne. simpl.
    rewrite includes_In. split.
    + intros H. exists d. split; [reflexivity | exact H].
    + intros [d' [H1 H2]]. inversion H1. subst. exact H2.
  - split; [discriminate|]. intros [d [H _]]. discriminate.
Qed.

Lemma extractProductId_gid (digits : string) :
  digits <> "" -> Spec.allChars isDigit digits = true ->
  extractProductId (Some (gidPrefix ++ digits)%string) = Some digits.
Proof.
  intros Hne Hall. unfold extractProductId.
  destruct digits as [|c digits]; [congruence|].
  change ((gidPrefix ++ String c digits)%string =? "") with false.
  change (matchGid (gidPrefix ++ String c digits)%string)
    with (match matchHere (gidPrefix ++ String c digits)%string with
          | Some d => Some d
          | None => matchGid (String.substring 1 21 gidPrefix ++ String c digits)%string
          end).
  change (matchHere (gidPrefix ++ String c digits)%string)
    with (match takeDigits (String c digits) with
          | EmptyString => None
          | d => Some d
          end).
  rewrite (takeDigits_all _ Hall). reflexivity.
Qed.

Lemma isDigit_digit (c : ascii) : isDigit c = Spec.digit c.
Proof. destruct c as [[] [] [] [] [] [] [] []]; reflexivity. Qed.

Lemma allChars_ext (P Q : ascii -> bool) (s : string) :
  (forall c, P c = Q c) -> Spec.allChars P s = Spec.allChars Q s.
Proof.
  intros H. induction s as [|c s IH]; simpl; [reflexivity|].
  now rewrite H, IH.
Qed.

Lemma stripPrefix_app (p s r : string) :
  stripPrefix p s = Some r -> s = (p ++ r)%string.
Proof.
  revert s. induction p as [|a p IH]; intros s; simpl.
  - intros H. now inversion H.
  - destruct s as [|b s]; [discriminate|].
    destruct (Ascii.eqb_spec a b); [|discriminate].
    intros H. subst. now rewrite (IH _ H).
Qed.

Lemma stripPrefix_complete (p r : string) :
  stripPrefix p (p ++ r) = Some r.
Proof.
  induction p as [|a p IH]; simpl; [reflexivity|].
  now rewrite Ascii.eqb_refl.
Qed.

Lemma takeDigits_split (s : string) :
  exists rest,
    s = (takeDigits s ++ rest)%string
    /\ Spec.allChars isDigit (takeDigits s) = true
    /\ (forall c, Props.firstChar rest = Some c -> isDigit c = false).
Proof.
  induction s as [|a s (rest & Hs & Hd & Hr)]; simpl.
  - exists "". repeat split. discriminate.
  - destruct (isDigit a) eqn:E.
    + exists rest. simpl. rewrite E, Hd.
      repeat split; [now rewrite <- Hs | exact Hr].
    + exists (String a s). repeat split. simpl. intros c H.
      now inversion H; subst.
Qed.

Lemma takeDigits_app (d after : string) :
  Spec.allChars isDigit d = true ->
  (forall c rest, after = String c rest -> isDigit c = false) ->
  takeDigits (d ++ after) = d.
Proof.
  intros Hd Hafter. induction d as [|c d IH]; simpl.
  - destruct after as [|a rest]; [reflexivity|]. simpl.
    now rewrite (Hafter a rest eq_refl).
  - simpl in Hd. apply andb_prop in Hd as [Hc Hd].
    now rewrite Hc, (IH Hd).
Qed.

Lemma matchHere_sound (s d : string) :
  matchHere s = Some d ->
  exists rest,
    s = (gidPrefix ++ d ++ rest)%string
    /\ d <> "" /\ Spec.allChars isDigit d = true
    /\ (forall c, Props.firstChar rest = Some c -> isDigit c = false).
Proof.
  intros H. pose proof (matchHere_nonempty _ _ H) as Hne.
  unfold matchHere in H.
  destruct (stripPrefix gidPrefix s) as [r|] eqn:Hp; [|discriminate].
  apply stripPrefix_app in Hp.
  destruct (takeDigits_split r) as (rest & Hr & Hd & Hrest).
  destruct (takeDigits r) eqn:E; [discriminate|].
  inversion H; subst d. exists rest. rewrite <- Hr. auto.
Qed.

Lemma matchHere_complete (d after : string) :
  d <> "" -> Spec.allChars isDigit d = true ->
  (forall c rest, after = String c rest -> isDigit c = false) ->
  matchHere (gidPrefix ++ d ++ after) = Some d.
Proof.
  intros Hne Hd Hafter. unfold matchHere.
  rewrite stripPrefix_complete, (takeDigits_app _ _ Hd Hafter).
  destruct d; [congruence | reflexivity].
Qed.

(** Where the pattern fails, the prefix does not stand before a digit. *)
Lemma matchHere_none (s : string) (c : ascii) (rest : string) :
  matchHere s = None -> s = (gidPrefix ++ String c rest)%string ->
  isDigit c = false.
Proof.
  intros H ->. unfold matchHere in H. rewrite stripPrefix_complete in H.
  cbn [takeDigits] in H. destruct (isDigit c); [discriminate | reflexivity].
Qed.

Lemma matchGid_here (s d : string) :
  matchHere s = Some d -> matchGid s = Some d.
Proof. intros H. destruct s; cbn [matchGid]; now rewrite H. Qed.

Lemma matchGid_next (a : ascii) (s : string) :
  matchHere (String a s) = None -> matchGid (String a s) = matchGid s.
Proof. intros H. cbn [matchGid]. now rewrite H. Qed.

(** The regular expression, read as a relation: the group is the run of
    digits after the leftmost place where the prefix stands before a
    digit. *)
Lemma matchGid_numericId (s d : string) :
  matchGid s = Some d <-> Spec.numericId s d.
Proof.
  split.
  - induction s as [|a s IH].
    + discriminate.
    + destruct (matchHere (String a s)) as [d'|] eqn:E.
      * rewrite (matchGid_here _ _ E). intros H. inversion H; subst d'.
        destruct (matchHere_sound _ _ E) as (rest & Hs & Hne & Hd & Hrest).
        exists "", rest. split; [exact Hs|]. split; [exact Hne|].
        split; [now rewrite <- (allChars_ext _ _ d isDigit_digit)|].
        split; [|intros; simpl; lia].
        intros c r ->. rewrite <- isDigit_digit. now apply Hrest.
      * rewrite (matchGid_next _ _ E). intros H.
        destruct (IH H) as (before & after & Hs & Hne & Hd & Hafter & Hleft).
        exists (String a before), after.
        split; [exact (f_equal (String a) Hs)|]. split; [exact Hne|].
        split; [exact Hd|]. split; [exact Hafter|].
        intros [|b p] c rest Hp Hc.
        -- rewrite <- isDigit_digit in Hc.
           rewrite (matchHere_none _ c rest E Hp) in Hc. discriminate.
        -- simpl in Hp. injection Hp as _ Hp. simpl.
           apply le_n_S. now apply (Hleft p c rest).
  - intros (before & after & Hs & Hne & Hd & Hafter & Hleft).
    rewrite (allChars_ext _ _ d (fun c => eq_sym (isDigit_digit c))) in Hd.
    assert (Hafter' : forall c rest, after = String c rest -> isDigit c = false).
    { intros c rest E. rewrite isDigit_digit. now apply (Hafter c rest). }
    revert s Hs Hleft. induction before as [|a before IH]; intros s Hs Hleft.
    + subst s. apply matchGid_here. now apply matchHere_complete.
    + subst s.
      change (matchGid (String a (before ++ gidPrefix ++ d ++ after)) = Some d).
      destruct (matchHere (String a (before ++ gidPrefix ++ d ++ after)))
        as [d'|] eqn:E.
      * exfalso.
        destruct (matchHere_sound _ _ E) as (rest & Hs & Hne' & Hd' & _).
        destruct d' as [|c d']; [congruence|].
        simpl in Hd'. apply andb_prop in Hd' as [Hc _].
        rewrite isDigit_digit in Hc.
        pose proof (Hleft "" c (d' ++ rest)%string Hs Hc) as Hlen.
        simpl in Hlen. lia.
      * rewrite (matchGid_next _ _ E). apply IH; [reflexivity|].
        intros p c rest Hp Hc.
        assert (Hp' : (String a before ++ gidPrefix ++ d ++ after)%string
                      = (String a p ++ gidPrefix ++ String c rest)%string)
          by exact (f_equal (String a) Hp).
        pose proof (Hleft (String a p) c rest Hp' Hc) as Hlen.
        simpl in Hlen. lia.
Qed.

Lemma extractProductId_numericId (gid d : string) :
  extractProductId (Some gid) = Some d <-> Spec.numericId gid d.
Proof.
  rewrite <- matchGid_numericId. unfold extractProductId.
  destruct gid; [|reflexivity]. simpl. split; discriminate.
Qed.

(** A string of digits holds no product identifier. *)
Lemma matchGid_digits (s : string) :
  Spec.allChars Spec.digit s = true -> matchGid s = None.
Proof.
  induction s as [|c s IH]; [reflexivity|]. simpl Spec.allChars.
  intros H. apply andb_prop in H as [Hc Hs].
  rewrite matchGid_next; [now apply IH|].
  unfold matchHere. cbn [gidPrefix stripPrefix].
  destruct (Ascii.eqb_spec "g" c) as [<- | _]; [discriminate | reflexivity].
Qed.

End Identifiers.

(** ** Cart matcher *)

Section CartMatcher.
Import Matcher.

Variable cart : list string.

Lemma upsells_step_keep (acc : list Rule) (r : Rule) :
  Upsells.step cart acc r
  = acc ++ (if Spec.productOffer cart r then [r] else []).
Proof.
  unfold Upsells.step, Spec.productOffer, Spec.isProductRule, Spec.upsellInCart.
  destruct (triggerType r); simpl.
  - destruct (inCart cart (extractProductId (triggerProductId r))); simpl.
    + destruct (inCart cart _); simpl; [now rewrite app_nil_r | reflexivity].
    + now rewrite app_nil_r.
  - now rewrite app_nil_r.
Qed.

Lemma upsells_loop (rules acc : list Rule) :
  fold_left (Upsells.step cart) rules acc
  = acc ++ filter (Spec.productOffer cart) rules.
Proof.
  revert acc. induction rules as [|r rules IH]; intros acc; simpl.
  - now rewrite app_nil_r.
  - rewrite IH, upsells_step_keep, <- app_assoc.
    destruct (Spec.productOffer cart r); reflexivity.
Qed.

Variable platform : string -> list string.

Lemma anyInCollection_fst (cid : string) (products lookups : list string) :
  fst (UpsellsCollections.anyInCollection platform cid products lookups)
  = Spec.cartInCollection platform cid products.
Proof.
  revert lookups. induction products as [|p products IH]; intros lookups; simpl.
  - reflexivity.
  - destruct (Js.includes (platform p) cid); simpl; [reflexivity | apply IH].
Qed.



Lemma cartInCollection_spec (cid : string) (products : list string) :
  Spec.cartInCollection platform cid products = true
  <-> exists p, In p products /\ In cid (platform p).
Proof.
  unfold Spec.cartInCollection. rewrite existsb_exists.
  split; intros [p [H1 H2]]; exists p; split; auto; now apply includes_In.
Qed.

Lemma collections_step_keep (acc : list Rule) (lookups : list string) (r : Rule) :
  fst (UpsellsCollections.step platform cart (acc, lookups) r)
  = acc ++ (if Spec.offered platform cart r then [r] else []).
Proof.
  unfold UpsellsCollections.step, UpsellsCollections.ruleMatches, Spec.offered,
    Spec.productOffer, Spec.isProductRule, Spec.upsellInCart.
  destruct (triggerType r); simpl.
  - destruct (inCart cart (extractProductId (triggerProductId r))); simpl.
    + destruct (inCart cart _); simpl; [now rewrite app_nil_r | reflexivity].
    + now rewrite app_nil_r.
  - pose proof (anyInCollection_fst
                  (Js.orDefault (triggerCollectionId r) "") cart lookups) as E.
    destruct (UpsellsCollections.anyInCollection _ _ _ _) as [m l].
    simpl in E. rewrite <- E. destruct m; simpl.
    + destruct (inCart cart _); simpl; [now rewrite app_nil_r | reflexivity].
    + now rewrite app_nil_r.
Qed.

Lemma collections_loop (rules : list Rule) (st : list Rule * list string) :
  fst (fold_left (UpsellsCollections.step platform cart) rules st)
  = fst st ++ filter (Spec.offered platform cart) rules.
Proof.
  revert st. induction rules as [|r rules IH]; intros [acc lookups];
    cbn [fold_left].
  - simpl. now rewrite app_nil_r.
  - rewrite IH, collections_step_keep, <- app_assoc. simpl.
    destruct (Spec.offered platform cart r); reflexivity.
Qed.

Lemma offered_product (r : Rule) :
  Spec.offered platform cart r && Spec.isProductRule r
  = Spec.productOffer cart r.
Proof.
  unfold Spec.offered, Spec.productOffer, Spec.isProductRule.
  destruct (triggerType r); simpl.
  - now rewrite andb_true_r.
  - now rewrite andb_false_r.
Qed.

Lemma filter_filter {A} (f g : A -> bool) (l : list A) :
  filter f (filter g l) = filter (fun x => g x && f x) l.
Proof.
  induction l as [|x l IH]; simpl; [reflexivity|].
  destruct (g x); simpl; [destruct (f x)|]; now rewrite IH.
Qed.

Lemma productOffer_spec (r : Rule) :
  Spec.productOffer cart r = true
  <-> triggerType r = PRODUCT
      /\ (exists t, extractProductId (triggerProductId r) = Some t /\ In t cart)
      /\ ~ (exists u, extractProductId (Some (upsellProductId r)) = Some u
                      /\ In u cart).
Proof.
  unfold Spec.productOffer, Spec.upsellInCart, Spec.isProductRule.
  rewrite !andb_true_iff, negb_true_iff, <- !inCart_spec.
  destruct (triggerType r);
    destruct (inCart cart (extractProductId (Some (upsellProductId r))));
    intuition congruence.
Qed.

Lemma filter_sorted (f : Rule -> bool) (l : list Rule) :
StronglySorted Spec.byPriority l ->
StronglySorted Spec.byPriority (filter f l).
Proof.
induction 1 as [|r l Hs IH Hall]; simpl; [constructor|].
destruct (f r); [|exact IH]. constructor; [exact IH|].
apply Forall_forall. intros x Hx. apply filter_In in Hx as [Hx _].
revert x Hx. now apply Forall_forall.
Qed.




End CartMatcher.

(** The app-proxy loaders are the statements of the storefront loaders. *)
Lemma proxy_matchRules : ProxyUpsells.matchRules = Upsells.matchRules.
Proof. reflexivity. Qed.

Lemma proxy_loader : ProxyUpsells.loader = Upsells.loader.
Proof. reflexivity. Qed.


Lemma proxy_collections_matchRules :
  ProxyUpsellsCollections.matchRules = UpsellsCollections.matchRules.
Proof. reflexivity. Qed.

Lemma proxy_collections_loader :
  ProxyUpsellsCollections.loader = UpsellsCollections.loader.
Proof. reflexivity. Qed.

Lemma productOffer_numericId (cart : list string) (r : Rule) :
  Spec.productOffer cart r = true
  <-> triggerType r = PRODUCT
      /\ (exists gid t,
            triggerProductId r = Some gid /\ Spec.numericId gid t /\ In t cart)
      /\ ~ (exists u, Spec.numericId (upsellProductId r) u /\ In u cart).
Proof.
  rewrite productOffer_spec. split.
  - intros (Hty & (t & Ht & Hin) & Hu). split; [exact Hty|]. split.
    + destruct (triggerProductId r) as [gid|]; [|discriminate].
      exists gid, t. split; [reflexivity|].
      split; [now apply extractProductId_numericId | exact Hin].
    + intros (u & Hid & Huin). apply Hu. exists u.
      split; [now apply extractProductId_numericId | exact Huin].
  - intros (Hty & (gid & t & Hg & Ht & Hin) & Hu). split; [exact Hty|]. split.
    + exists t. rewrite Hg.
      split; [now apply extractProductId_numericId | exact Hin].
    + intros (u & Hid & Huin). apply Hu. exists u.
      split; [now apply extractProductId_numericId | exact Huin].
Qed.

(** C1 (as amended). Each of the four copies of the matcher keeps, in the
    order of the input, the PRODUCT rules whose trigger identifier has a
    numeric id that is in the cart and whose upsell identifier has no
    numeric id that is in the cart: the two copies that skip COLLECTION
    rules return exactly these rules, and they are exactly the PRODUCT
    rules returned by the two copies with collection lookups.  The numeric
    id of an identifier, which is what [extractProductId] returns, is the
    run of digits after the leftmost place where [gid://shopify/Product/]
    stands before a digit: for [gid://shopify/Product/] followed by digits
    it is these digits; an absent identifier and a bare number have none,
    so such a trigger never matches and such an upsell never excludes.
    Rules given in ascending priority come out in ascending priority. *)
Theorem C1_product_rules_in_order :
  forall (rules : list Rule) (cart : list string),
    Upsells.matchRules rules cart = filter (Spec.productOffer cart) rules
    /\ ProxyUpsells.matchRules rules cart = filter (Spec.productOffer cart) rules
    /\ (forall platform,
          filter Spec.isProductRule
                 (fst (UpsellsCollections.matchRules platform rules cart))
          = filter (Spec.productOffer cart) rules
          /\ filter Spec.isProductRule
                    (fst (ProxyUpsellsCollections.matchRules platform rules cart))
             = filter (Spec.productOffer cart) rules)
    /\ (forall r,
          Spec.productOffer cart r = true
          <-> triggerType r = PRODUCT
              /\ (exists gid t,
                    triggerProductId r = Some gid
                    /\ Spec.numericId gid t /\ In t cart)
              /\ ~ (exists u,
                      Spec.numericId (upsellProductId r) u /\ In u cart))
    /\ (forall gid id,
          Matcher.extractProductId (Some gid) = Some id
          <-> Spec.numericId gid id)
    /\ Matcher.extractProductId None = None
    /\ (forall digits,
          digits <> "" -> Spec.allChars Spec.digit digits = true ->
          Matcher.extractProductId
            (Some ("gid://shopify/Product/" ++ digits)%string) = Some digits
          /\ Matcher.extractProductId (Some digits) = None)
    /\ (StronglySorted Spec.byPriority rules ->
        StronglySorted Spec.byPriority (Upsells.matchRules rules cart)
        /\ StronglySorted Spec.byPriority (ProxyUpsells.matchRules rules cart)
        /\ forall platform,
             StronglySorted Spec.byPriority
               (fst (UpsellsCollections.matchRules platform rules cart))
             /\ StronglySorted Spec.byPriority
                  (fst (ProxyUpsellsCollections.matchRules platform rules cart))).
Proof.
  intros rules cart. rewrite proxy_matchRules, proxy_collections_matchRules.
  assert (Hskip : Upsells.matchRules rules cart
                  = filter (Spec.productOffer cart) rules).
  { unfold Upsells.matchRules. now rewrite upsells_loop. }
  assert (Hlook : forall platform,
             filter Spec.isProductRule
                    (fst (UpsellsCollections.matchRules platform rules cart))
             = filter (Spec.productOffer cart) rules).
  { intros platform. unfold UpsellsCollections.matchRules.
    rewrite collections_loop. simpl. rewrite filter_filter.
    apply filter_ext. intros r. apply offered_product. }
  split; [exact Hskip|]. split; [exact Hskip|].
  split; [intros platform; split; apply Hlook|].
  split; [intros r; apply productOffer_numericId|].
  split; [intros gid id; apply extractProductId_numericId|].
  split; [reflexivity|]. split.
  - intros digits Hne Hd. split.
    + apply extractProductId_gid; [exact Hne|].
      now rewrite (allChars_ext _ _ digits isDigit_digit).
    + unfold Matcher.extractProductId.
      destruct (digits =? ""); [reflexivity | now apply matchGid_digits].
  - intros Hs.
    assert (Hs1 : StronglySorted Spec.byPriority (Upsells.matchRules rules cart)).
    { rewrite Hskip. now apply filter_sorted. }
    assert (Hs2 : forall platform,
               StronglySorted Spec.byPriority
                 (fst (UpsellsCollections.matchRules platform rules cart))).
    { intros platform. unfold UpsellsCollections.matchRules.
      rewrite collections_loop. simpl. now apply filter_sorted. }
    split; [exact Hs1|]. split; [exact Hs1|].
    intros platform. split; apply Hs2.
Qed.

Lemma C1_witness :
  Upsells.matchRules [ruleB; ruleA] ["101"] = [ruleA]
  /\ Matcher.extractProductId (Some "gid://shopify/Product/101") = Some "101"
  /\ Matcher.extractProductId (Some "101") = None.
Proof.
  assert (Hne : "101" <> "") by discriminate.
  split.
  - exact (proj1 (C1_product_rules_in_order [ruleB; ruleA] ["101"])).
  - exact (proj1 (proj2 (proj2 (proj2 (proj2 (proj2 (proj2
             (C1_product_rules_in_order [] []))))))) "101" Hne eq_refl).
Defined.

(** C1, as stated, fails for identifiers without the prefix.  With the
    prefix stripped, the trigger [101] of [bareTriggerRule] is in the cart
    and its upsell is not, and the matcher does not return the rule; the
    upsell [202] of [bareUpsellRule] is in the cart, and the matcher
    returns the rule. *)
Lemma C1_counterexample :
  (filter (Spec.strippedOffer ["101"]) [bareTriggerRule] = [bareTriggerRule]
   /\ Upsells.matchRules [bareTriggerRule] ["101"] = [])
  /\ (filter (Spec.strippedOffer ["101"; "202"]) [bareUpsellRule] = []
      /\ Upsells.matchRules [bareUpsellRule] ["101"; "202"] = [bareUpsellRule]).
Proof. repeat split. Qed.




(** ** Offer formatter *)

(** C5. The offers are the images of the first three matched rules, in
    match order; each offer is read from the rule and its snapshot, with
    the upsell product id for a missing variant id, "Product" for a
    missing title, "0.00" for a missing price, null for a missing image or
    compare-at price, and [available] true. *)
Theorem C5_first_three_offers :
  forall matched : list Rule,
    List.length (Matcher.formatOffers matched) = Nat.min 3 (List.length matched)
    /\ (forall i, i < 3 ->
          nth_error (Matcher.formatOffers matched) i
          = option_map Matcher.formatOffer (nth_error matched i))
    /\ (forall i, 3 <= i -> nth_error (Matcher.formatOffers matched) i = None)
    /\ (forall rule,
          let o := Matcher.formatOffer rule in
          let snapshot f :=
            match upsellProductData rule with
            | Some d => f d
            | None => None
            end in
          offerRuleId o = ruleId rule
          /\ opId (offerProduct o) = upsellProductId rule
          /\ opVariantId (offerProduct o)
             = (if Js.truthy (snapshot pdVariantId)
                then Js.orDefault (snapshot pdVariantId) ""
                else upsellProductId rule)
          /\ opTitle (offerProduct o)
             = (if Js.truthy (snapshot pdTitle)
                then Js.orDefault (snapshot pdTitle) ""
                else "Product")
          /\ opPrice (offerProduct o)
             = (if Js.truthy (snapshot pdPrice)
                then Js.orDefault (snapshot pdPrice) ""
                else "0.00")
          /\ opImage (offerProduct o)
             = (if Js.truthy (snapshot pdImage) then snapshot pdImage else None)
          /\ opCompareAtPrice (offerProduct o)
             = (if Js.truthy (snapshot pdCompareAtPrice)
                then snapshot pdCompareAtPrice else None)
          /\ opAvailable (offerProduct o) = true).
Proof.
  intros matched. unfold Matcher.formatOffers, Matcher.maxOffers.
  split; [|split; [|split]].
  - rewrite length_map, length_firstn. reflexivity.
  - intros i Hi. rewrite nth_error_map, nth_error_firstn.
    destruct (Nat.ltb_spec i 3); [reflexivity | lia].
  - intros i Hi. rewrite nth_error_map, nth_error_firstn.
    destruct (Nat.ltb_spec i 3); [lia | reflexivity].
  - intros rule. unfold Matcher.formatOffer, Js.orNull, Js.orDefault, Js.truthy.
    simpl. destruct (upsellProductData rule) as [[t i p c v]|]; simpl.
    + destruct t as [t|], i as [i|], p as [p|], c as [c|], v as [v|]; simpl;
        repeat match goal with
               | |- context [?s =? ""] => destruct (s =? "")
               end; simpl; repeat split.
    + repeat split.
Qed.

Lemma C5_witness :
  nth_error (Matcher.formatOffers [ruleA; ruleB; ruleA; ruleB; ruleA]) 2
  = Some (Matcher.formatOffer ruleA)
  /\ nth_error (Matcher.formatOffers [ruleA; ruleB; ruleA; ruleB; ruleA]) 3 = None.
Proof.
  split.
  - apply (proj1 (proj2 (C5_first_three_offers [ruleA; ruleB; ruleA; ruleB; ruleA])) 2).
    lia.
  - apply (proj1 (proj2 (proj2 (C5_first_three_offers [ruleA; ruleB; ruleA; ruleB; ruleA]))) 3).
    lia.
Defined.

(** ** Storefront loaders *)

Section Loaders.

(** The white-space table of [trim] is the UTF-8 encoding of the
  white-space code points. *)
Lemma whiteSpace_utf8 : Js.whiteSpace = map Spec.utf8 Spec.whiteSpaceCodePoints.
Proof. reflexivity. Qed.

Lemma spaceLength_app (w s : string) :
In w Js.whiteSpace -> Js.spaceLength (w ++ s) = String.length w.
Proof.
intros H. unfold Js.whiteSpace in H. simpl in H.
repeat (destruct H as [<- | H]; [reflexivity|]). destruct H.
Qed.

Lemma append_assoc (a b c : string) :
((a ++ b) ++ c)%string = (a ++ (b ++ c))%string.
Proof. induction a as [|x a IH]; simpl; [reflexivity | now rewrite IH]. Qed.

Lemma append_empty_r (a : string) : (a ++ "")%string = a.
Proof. induction a as [|x a IH]; simpl; [reflexivity | now rewrite IH]. Qed.

Lemma length_append (a b : string) :
String.length (a ++ b) = String.length a + String.length b.
Proof. induction a as [|x a IH]; simpl; [reflexivity | now rewrite IH]. Qed.

Lemma whiteSpace_In (w : string) :
In w Js.whiteSpace
<-> exists cp, In cp Spec.whiteSpaceCodePoints /\ w = Spec.utf8 cp.
Proof.
rewrite whiteSpace_utf8, in_map_iff.
split; intros [cp [H1 H2]]; exists cp; auto.
Qed.

Lemma whiteSpace_nonempty (w : string) :
In w Js.whiteSpace -> exists c w', w = String c w'.
Proof.
intros H. unfold Js.whiteSpace in H. simpl in H.
repeat (destruct H as [<- | H]; [eexists _, _; reflexivity|]). destruct H.
Qed.

Lemma startsWith_app (s p : string) :
Js.startsWith s p = true -> exists rest, s = (p ++ rest)%string.
Proof.
revert s. induction p as [|a p IH]; intros s; simpl.
- intros _. now exists s.
- destruct s as [|b s]; [discriminate|].
  intros H. apply andb_prop in H as [Hab Hs].
  apply Ascii.eqb_eq in Hab. subst b.
  destruct (IH _ Hs) as [rest ->]. now exists rest.
Qed.

Lemma spaceLength_some (s : string) (k : nat) :
Js.spaceLength s = S k ->
exists w rest,
  In w Js.whiteSpace /\ s = (w ++ rest)%string /\ String.length w = S k.
Proof.
unfold Js.spaceLength.
destruct (find (Js.startsWith s) Js.whiteSpace) as [w|] eqn:E; [|discriminate].
apply find_some in E as [Hin Hs]. apply startsWith_app in Hs as [rest ->].
intros H. now exists w, rest.
Qed.

Lemma spaceLength_none (s : string) :
Js.spaceLength s = 0 ->
forall w rest, In w Js.whiteSpace -> s <> (w ++ rest)%string.
Proof.
intros H w rest Hin ->. rewrite (spaceLength_app _ _ Hin) in H.
destruct (whiteSpace_nonempty _ Hin) as (c & w' & ->). discriminate.
Qed.

Lemma trimStartFrom_skip (x rest : string) :
Js.trimStartFrom (String.length x) (x ++ rest) = Js.trimStart rest.
Proof.
induction x as [|a x IH]; simpl; [reflexivity | exact IH].
Qed.

Lemma trimStart_space (w rest : string) :
In w Js.whiteSpace -> Js.trimStart (w ++ rest) = Js.trimStart rest.
Proof.
intros Hin. pose proof (spaceLength_app w rest Hin) as Hl.
destruct (whiteSpace_nonempty _ Hin) as (c & w' & ->).
unfold Js.trimStart at 1. cbn [append Js.trimStartFrom].
cbn [append] in Hl. rewrite Hl. cbn [String.length].
apply trimStartFrom_skip.
Qed.

Lemma trimStart_fixed (s : string) :
Js.spaceLength s = 0 -> Js.trimStart s = s.
Proof.
intros H. destruct s as [|c r]; [reflexivity|].
unfold Js.trimStart. cbn [Js.trimStartFrom]. now rewrite H.
Qed.

(** [trimStart] removes a blank prefix and stops at the first character
  that is not white space. *)
Lemma trimStart_spec (s : string) :
exists ws,
  Spec.blank ws /\ s = (ws ++ Js.trimStart s)%string
  /\ Js.spaceLength (Js.trimStart s) = 0.
Proof.
remember (String.length s) as n eqn:Hn. revert s Hn.
induction n as [n IH] using lt_wf_ind. intros s Hn.
destruct (Js.spaceLength s) as [|k] eqn:E.
- exists "". rewrite (trimStart_fixed _ E). repeat split; [constructor | exact E].
- destruct (spaceLength_some _ _ E) as (w & rest & Hin & -> & Hl).
  rewrite (trimStart_space _ _ Hin).
  destruct (IH (String.length rest)) with (s := rest) as (ws & Hb & Hs & Hz);
    [rewrite Hn, length_append; lia | reflexivity |].
  apply whiteSpace_In in Hin as (cp & Hcp & ->).
  exists (Spec.utf8 cp ++ ws)%string. split; [now constructor|].
  split; [|exact Hz]. rewrite append_assoc. now rewrite <- Hs.
Qed.

Lemma blank_trimStart (s : string) : Spec.blank s -> Js.trimStart s = "".
Proof.
induction 1 as [|cp s Hcp _ IH]; [reflexivity|].
rewrite trimStart_space; [exact IH|].
apply whiteSpace_In. now exists cp.
Qed.

Lemma trimStart_blank (s : string) : Js.trimStart s = "" -> Spec.blank s.
Proof.
intros H. destruct (trimStart_spec s) as (ws & Hb & Hs & _).
rewrite H, append_empty_r in Hs. now subst.
Qed.

Lemma trim_blank (s : string) : Spec.blank s -> Js.trim s = "".
Proof. intros H. unfold Js.trim. now rewrite (blank_trimStart _ H). Qed.

(** [trimEnd] cuts at the first point from which only white space
  follows. *)
Lemma trimEnd_spec (s : string) :
exists t,
  s = (Js.trimEnd s ++ t)%string /\ Spec.blank t
  /\ (forall r1 r2, Js.trimEnd s = (r1 ++ r2)%string -> r2 <> "" ->
                    ~ Spec.blank (r2 ++ t)).
Proof.
induction s as [|c s (t & Hs & Hb & Hcut)].
- exists "". repeat split; [constructor|].
  intros [|a r1] r2 H Hne; simpl in H; [|discriminate]. congruence.
- cbn [Js.trimEnd]. destruct (Js.trimStart (String c s) =? "") eqn:E.
  + apply String.eqb_eq, trimStart_blank in E.
    exists (String c s). repeat split; [exact E|].
    intros [|a r1] r2 H Hne; simpl in H; [|discriminate]. congruence.
  + exists t. split; [simpl; now rewrite <- Hs|]. split; [exact Hb|].
    intros [|a r1] r2 H Hne.
    * simpl in H. subst r2. simpl. rewrite <- Hs. intros Hbl.
      apply blank_trimStart in Hbl. rewrite Hbl in E. discriminate.
    * simpl in H. injection H as _ H. now apply (Hcut r1 r2).
Qed.

Lemma blank_ends (s : string) :
Spec.blank s -> s <> "" ->
exists rest cp,
  In cp Spec.whiteSpaceCodePoints /\ s = (rest ++ Spec.utf8 cp)%string.
Proof.
induction 1 as [|cp s Hcp Hb IH]; [congruence|]. intros _.
destruct s as [|a s].
- exists "", cp. split; [exact Hcp|]. now rewrite append_empty_r.
- destruct IH as (rest & cp' & Hcp' & Hs); [discriminate|].
  exists (Spec.utf8 cp ++ rest)%string, cp'. split; [exact Hcp'|].
  now rewrite Hs, append_assoc.
Qed.

Lemma trim_trimmed (s : string) : Props.trimmed (Js.trim s).
Proof.
unfold Js.trim. intros cp rest Hcp.
destruct (trimStart_spec s) as (ws & _ & _ & Hz).
destruct (trimEnd_spec (Js.trimStart s)) as (t & Hs & Hb & Hcut).
assert (Hw : In (Spec.utf8 cp) Js.whiteSpace)
  by (apply whiteSpace_In; now exists cp).
split; intros E.
- apply (spaceLength_none _ Hz (Spec.utf8 cp) (rest ++ t)%string Hw).
  rewrite Hs at 1. now rewrite E, append_assoc.
- apply (Hcut rest (Spec.utf8 cp) E).
  + destruct (whiteSpace_nonempty _ Hw) as (c & w' & ->). discriminate.
  + now constructor.
Qed.

Lemma spaceLength_zero (s : string) :
(forall w rest, In w Js.whiteSpace -> s <> (w ++ rest)%string) ->
Js.spaceLength s = 0.
Proof.
intros H. destruct (Js.spaceLength s) as [|k] eqn:E; [reflexivity|].
destruct (spaceLength_some _ _ E) as (w & rest & Hin & Hs & _).
now destruct (H w rest Hin).
Qed.

Lemma trimEnd_fixed (s : string) :
(forall r1 r2, s = (r1 ++ r2)%string -> r2 <> "" -> ~ Spec.blank r2) ->
Js.trimEnd s = s.
Proof.
induction s as [|c s IH]; intros H; [reflexivity|].
cbn [Js.trimEnd]. destruct (Js.trimStart (String c s) =? "") eqn:E.
- apply String.eqb_eq, trimStart_blank in E.
  now destruct (H "" (String c s) eq_refl).
- rewrite IH; [reflexivity|].
  intros r1 r2 Hs. apply (H (String c r1) r2). simpl. now rewrite Hs.
Qed.

Lemma trimmed_trim (s : string) : Props.trimmed s -> Js.trim s = s.
Proof.
intros H. unfold Js.trim.
assert (Hs : Js.trimStart s = s).
{ apply trimStart_fixed, spaceLength_zero. intros w rest Hin.
  apply whiteSpace_In in Hin as (cp & Hcp & ->). apply (H cp rest Hcp). }
rewrite Hs. apply trimEnd_fixed. intros r1 r2 E Hne Hb.
destruct (blank_ends _ Hb Hne) as (rest & cp & Hcp & ->).
apply (proj2 (H cp (r1 ++ rest)%string Hcp)). now rewrite append_assoc.
Qed.

Lemma allChars_app (P : ascii -> bool) (a b : string) :
Spec.allChars P (a ++ b) = Spec.allChars P a && Spec.allChars P b.
Proof.
induction a as [|c a IH]; simpl; [reflexivity|].
now rewrite IH, andb_assoc.
Qed.

(** What [trim] returns is a piece of its argument. *)
Lemma trim_allChars (P : ascii -> bool) (s : string) :
Spec.allChars P s = true -> Spec.allChars P (Js.trim s) = true.
Proof.
unfold Js.trim. intros H.
destruct (trimStart_spec s) as (ws & _ & Hs & _).
destruct (trimEnd_spec (Js.trimStart s)) as (t & Ht & _ & _).
rewrite Hs, allChars_app in H. apply andb_prop in H as [_ H].
rewrite Ht, allChars_app in H. now apply andb_prop in H as [H _].
Qed.

Lemma blank_commaFree (s : string) :
Spec.blank s -> Props.commaFree s = true.
Proof.
unfold Props.commaFree. induction 1 as [|cp s Hcp _ IH]; [reflexivity|].
rewrite allChars_app, IH, andb_true_r.
unfold Spec.whiteSpaceCodePoints in Hcp. simpl in Hcp.
repeat (destruct Hcp as [<- | Hcp]; [reflexivity|]). destruct Hcp.
Qed.

Lemma split_commaFree (x : string) :
Props.commaFree x = true -> Js.split "," x = [x].
Proof.
unfold Props.commaFree. induction x as [|c x IH]; simpl; [reflexivity|].
intros H. apply andb_prop in H as [Hc Hx]. apply negb_true_iff in Hc.
rewrite Hc, (IH Hx). reflexivity.
Qed.

Lemma split_app_comma (x rest : string) :
Props.commaFree x = true ->
Js.split "," (x ++ String "," rest) = x :: Js.split "," rest.
Proof.
unfold Props.commaFree. induction x as [|c x IH]; simpl; [reflexivity|].
intros H. apply andb_prop in H as [Hc Hx]. apply negb_true_iff in Hc.
rewrite Hc, (IH Hx). reflexivity.
Qed.

Lemma split_concat (id : string) (ids : list string) :
Forall (fun x => Props.commaFree x = true) (id :: ids) ->
Js.split "," (String.concat "," (id :: ids)) = id :: ids.
Proof.
revert id. induction ids as [|y ids IH]; intros id H.
- inversion H; subst. simpl. now apply split_commaFree.
- inversion H as [|? ? Hid Hrest]; subst.
  change (String.concat "," (id :: y :: ids))
    with (id ++ String "," (String.concat "," (y :: ids)))%string.
  rewrite (split_app_comma _ _ Hid), (IH y Hrest). reflexivity.
Qed.

(** Blank ids between commas leave no product. *)
Lemma parseCart_blank (ids : list string) :
Forall Spec.blank ids -> Matcher.parseCart (String.concat "," ids) = [].
Proof.
intros H. destruct ids as [|id ids]; [reflexivity|].
unfold Matcher.parseCart. rewrite split_concat.
- induction H as [|x xs Hx _ IH]; [reflexivity|].
  cbn [map filter]. rewrite (trim_blank x Hx). exact IH.
- eapply Forall_impl; [|exact H]. intros x. apply blank_commaFree.
Qed.

Lemma noProducts_cases (p : option string) :
Spec.noProducts p ->
Js.truthy p = false \/ Matcher.parseCart (Js.orDefault p "") = [].
Proof.
destruct p as [p|]; simpl; [|now left].
intros (ids & Hb & ->). right.
destruct (String.concat "," ids =? ""); [reflexivity|].
now apply parseCart_blank.
Qed.

Lemma falsy_parseCart (p : option string) :
Js.truthy p = false -> Matcher.parseCart (Js.orDefault p "") = [].
Proof.
destruct p as [p|]; simpl; [|reflexivity].
destruct (p =? ""); [reflexivity | discriminate].
Qed.

Lemma truthy_some (s : option string) :
Js.truthy s = true -> exists v, s = Some v /\ (v =? "") = false.
Proof.
destruct s as [v|]; simpl; [|discriminate].
intros H. exists v. split; [reflexivity | now apply negb_true_iff].
Qed.

End Loaders.

Ltac loader_open :=
  unfold Upsells.loader, UpsellsCollections.loader, Shipping.loader,
    tryCatch, bind, ret, Store.findShop, Store.findEnabledRules, query, call,
    json, ok.

Lemma upsells_shape :
  forall (platform : string -> list string) (req : UpsellsRequest) (w : World)
         (loader : UpsellsRequest -> World -> Response * World),
    loader = Upsells.loader \/ loader = UpsellsCollections.loader platform ->
    Js.truthy (qShop req) = true ->
    (exists offers, fst (loader req w) = mkResponse 200 (OffersBody offers))
    \/ fst (loader req w) = mkResponse 500 (OffersBody []).
Proof.
  intros platform req w loader Hl Hshop.
  destruct (truthy_some _ Hshop) as [shop [Hq Hne]].
  destruct Hl as [-> | ->]; loader_open; rewrite Hq; simpl; rewrite ?Hne;
    (destruct (Js.truthy (qProducts req)); simpl;
     [ destruct (Matcher.parseCart (Js.orDefault (qProducts req) "")); simpl;
       [ | destruct (faults w) as [|[|] fs]; simpl;
           try (destruct (find (fun s => shopifyDomain s =? shop) (shops (db w)));
                simpl; try (destruct fs as [|[|] fs']; simpl)) ]
     | ]);
    first [ left; eexists; reflexivity | right; reflexivity ].
Qed.

(** C9. For a request that names its shop, [GET /upsells], in each of its
    four copies, answers [{offers: []}] with status 200 when [products] is
    absent, empty or made of blank ids (white space only, in the sense of
    [trim]) and when the shop is unknown, and [{offers: []}] with status
    500 when a call to the store rejects; the body is never an error
    body. *)
Theorem C9_upsells_degrade_to_empty :
  forall (platform : string -> list string) (req : UpsellsRequest) (w : World)
         (loader : UpsellsRequest -> World -> Response * World),
    loader = Upsells.loader \/ loader = ProxyUpsells.loader
    \/ loader = UpsellsCollections.loader platform
    \/ loader = ProxyUpsellsCollections.loader platform ->
    Js.truthy (qShop req) = true ->
    let resp := fst (loader req w) in
    ((exists offers, resp = mkResponse 200 (OffersBody offers))
     \/ resp = mkResponse 500 (OffersBody []))
    /\ (Spec.noProducts (qProducts req) ->
        loader req w = (mkResponse 200 (OffersBody []), w))
    /\ (find (fun s => shopifyDomain s =? Js.orDefault (qShop req) "")
             (shops (db w)) = None ->
        hd false (faults w) = false ->
        resp = mkResponse 200 (OffersBody []))
    /\ (Matcher.parseCart (Js.orDefault (qProducts req) "") <> [] ->
        hd false (faults w) = true ->
        resp = mkResponse 500 (OffersBody []))
    /\ (Matcher.parseCart (Js.orDefault (qProducts req) "") <> [] ->
        find (fun s => shopifyDomain s =? Js.orDefault (qShop req) "")
             (shops (db w)) <> None ->
        (exists fs, faults w = false :: true :: fs) ->
        resp = mkResponse 500 (OffersBody []))
    /\ (status resp = 500 ->
        hd false (faults w) = true \/ exists fs, faults w = false :: true :: fs).
Proof.
  intros platform req w loader Hcopy Hshop. cbv zeta.
  assert (Hl : loader = Upsells.loader
               \/ loader = UpsellsCollections.loader platform).
  { destruct Hcopy as [-> | [-> | [-> | ->]]];
      [ now left | left; apply proxy_loader | now right
      | right; now rewrite proxy_collections_loader ]. }
  clear Hcopy.
  destruct (truthy_some _ Hshop) as [shop [Hq Hne]].
  pose proof (noProducts_cases (qProducts req)) as Hblank.
  destruct Hl as [-> | ->]; loader_open; rewrite Hq; simpl; rewrite ?Hne;
    (destruct (Js.truthy (qProducts req)) eqn:Hp; simpl;
     [ destruct (Matcher.parseCart (Js.orDefault (qProducts req) "")) as [|id ids]
         eqn:Hc; simpl;
       [ | destruct (faults w) as [|[|] fs] eqn:Hf; simpl;
           try (destruct (find (fun s => shopifyDomain s =? shop) (shops (db w)))
                  as [shopRecord|] eqn:Hs; simpl;
                try (destruct fs as [|[|] fs']; simpl)) ]
     | pose proof (falsy_parseCart _ Hp) as Hc ]).
  all: (split; [ try (left; eexists; reflexivity); try (right; reflexivity) |]).
  all: (split; [ try reflexivity;
                 try (intros Hb; destruct (Hblank Hb); congruence) |]).
  all: (split; [ try solve [reflexivity | discriminate | congruence] |]).
  all: (split; [ try solve [reflexivity | discriminate | congruence] |]).
  all: (split; [ try solve [reflexivity | congruence
                           | intros _ _ [fs0 Hfs]; congruence] |]).
  all: try discriminate.
  all: try (intros _; left; reflexivity).
  all: try (intros _; right; eexists; reflexivity).
Qed.

Lemma blank_one (cp : N) :
  In cp Spec.whiteSpaceCodePoints -> Spec.blank (Spec.utf8 cp).
Proof.
  intros H. rewrite <- (append_empty_r (Spec.utf8 cp)).
  apply Spec.blank_space; [exact H | apply Spec.blank_empty].
Defined.

Lemma C9_witness :
  ProxyUpsells.loader blankCartRequest sampleWorld
  = (mkResponse 200 (OffersBody []), sampleWorld).
Proof.
  apply (proj1 (proj2 (C9_upsells_degrade_to_empty
                         summerPlatform blankCartRequest sampleWorld
                         ProxyUpsells.loader (or_intror (or_introl eq_refl))
                         eq_refl))).
  exists [" "; Js.bytes [194; 160]; ""]. split; [|reflexivity].
  apply Forall_cons; [apply (blank_one 32); simpl; tauto|].
  apply Forall_cons; [apply (blank_one 160); simpl; tauto|].
  apply Forall_cons; [apply Spec.blank_empty | apply Forall_nil].
Defined.



(** ** Analytics ingestion *)

Section Ingestion.

Variable parseFloat : Js.value -> float.
Variable decimal : float -> option float.

Lemma findImpression_none (d : Db) (rid sid : string) :
find (Store.isImpressionOf rid sid) (events d) = None
<-> ~ Spec.hasImpression d rid sid.
Proof.
split.
- intros H [e (Hin & Hr & Ht & Hs)].
  pose proof (find_none _ _ H e Hin) as F.
  unfold Store.isImpressionOf in F.
  rewrite Hr, Ht, Hs, !String.eqb_refl in F. discriminate.
- intros H. destruct (find _ (events d)) as [e|] eqn:E; [|reflexivity].
  exfalso. apply H. apply find_some in E as [Hin F]. exists e.
  unfold Store.isImpressionOf in F.
  apply andb_prop in F as [F Hs]. apply andb_prop in F as [Hr Ht].
  apply String.eqb_eq in Hr.
  destruct (eventType e); [|discriminate].
  destruct (sessionId e) as [s|]; [|discriminate].
  apply String.eqb_eq in Hs. subst. auto.
Qed.

(** What [action] does with a well-formed request for a known rule when
  the store answers. *)
Lemma action_known (d : Db) (t : nat) (b : TrackRequest)
    (name domain rid : string) (ty : EventType) :
tEventType b = Some name -> Track.eventTypeOf name = Some ty ->
tRuleId b = Some rid -> rid <> "" ->
tShopDomain b = Some domain -> domain <> "" ->
Spec.knownRule d domain rid ->
exists shopRecord,
  find (fun s => shopifyDomain s =? domain) (shops d) = Some shopRecord
  /\ Track.action parseFloat decimal "POST" (Some b) (mkWorld d [] t)
     = tryCatch (Track.record parseFloat decimal shopRecord rid ty b)
                (json (ErrorBody "Internal server error") 500)
                (mkWorld d [] t).
Proof.
intros He Hty Hr Hrn Hd Hdn (shopRecord & rule & Hs & Hrule).
exists shopRecord. split; [exact Hs|].
apply String.eqb_neq in Hrn, Hdn.
assert (Hnn : (name =? "") = false).
{ destruct (name =? "") eqn:E; [|reflexivity].
  apply String.eqb_eq in E. subst. discriminate. }
unfold Track.action. simpl. unfold tryCatch at 1.
rewrite He, Hr, Hd. simpl. rewrite Hnn, Hrn, Hdn. simpl. rewrite Hty.
unfold bind at 1, Store.findShop, query, call. simpl. rewrite Hs.
unfold bind at 1, Store.findRule, query, call. simpl. rewrite Hrule.
reflexivity.
Qed.

(** The truthiness test of the handler is the test that a price is
  given. *)
Lemma truthyValue_givenPrice (v : Js.value) :
Js.truthyValue v = Spec.givenPrice v.
Proof.
destruct v as [| |b|f|s]; try reflexivity.
- unfold Js.truthyValue, Spec.givenPrice, PrimFloat.is_zero, PrimFloat.is_nan,
    PrimFloat.zero.
  destruct (PrimFloat.eqb f 0), (PrimFloat.eqb f f); reflexivity.
- destruct s; reflexivity.
Qed.

(** What [create] is asked to keep as the price, and what the column
  keeps. *)
Lemma priceToStore_cases (ty : EventType) (price : Js.value) :
Track.priceToStore parseFloat ty price
= match ty with
  | CONVERSION =>
      if Spec.givenPrice price then Some (parseFloat price) else None
  | IMPRESSION => None
  end.
Proof.
unfold Track.priceToStore. rewrite truthyValue_givenPrice.
destruct ty; reflexivity.
Qed.

Ltac step_handler :=
match goal with
| |- context [match faults ?w with _ => _ end] =>
    let fs := fresh "fs" in destruct (faults w) as [|[|] fs]
| |- context [match ?l with [] => _ | _ :: _ => _ end] =>
    is_var l; let fs := fresh "fs" in destruct l as [|[|] fs]
| |- context [match find ?f ?l with _ => _ end] =>
    let E := fresh "E" in destruct (find f l) eqn:E
| |- context [match Track.eventTypeOf ?s with _ => _ end] =>
    let E := fresh "Ety" in destruct (Track.eventTypeOf s) as [[|]|] eqn:E
| |- context [match Store.toColumn ?c ?p with _ => _ end] =>
    let E := fresh "Ecol" in destruct (Store.toColumn c p) eqn:E
| |- context [if ?c then _ else _] =>
    let E := fresh "E" in destruct c eqn:E
end;
cbn -[Store.toColumn Track.priceToStore].

(** Every request either is tracked and adds exactly one row, built from
  the request and holding the price as the column keeps it, at the end
  of the event table, or leaves the store as it was. *)
Lemma action_effect (method : string) (b : option TrackRequest) (w : World) :
(fst (Track.action parseFloat decimal method b w) = Track.tracked
 /\ exists req ty shopRecord kept,
      b = Some req
      /\ Track.eventTypeOf (Js.orDefault (tEventType req) "") = Some ty
      /\ Store.toColumn decimal
           (Track.priceToStore parseFloat ty (tProductPrice req)) = Some kept
      /\ db (snd (Track.action parseFloat decimal method b w))
         = Spec.appended w
             (mkEvent (List.length (events (db w))) (shopId shopRecord)
                      (Js.orDefault (tRuleId req) "") ty
                      (Js.orNull (tCartToken req)) (Js.orNull (tSessionId req))
                      kept (clock w)))
\/ (fst (Track.action parseFloat decimal method b w) <> Track.tracked
    /\ db (snd (Track.action parseFloat decimal method b w)) = db w).
Proof.
unfold Track.action, Track.record, tryCatch, bind, ret, Track.throw,
  Store.findShop, Store.findRule, Store.findImpression, Store.createEvent,
  query, call, callOrThrow, Spec.appended.
destruct (negb (method =? "POST")); cbn -[Store.toColumn Track.priceToStore].
{ right. split; [discriminate | reflexivity]. }
destruct b as [req|]; cbn -[Store.toColumn Track.priceToStore].
2: { right. split; [discriminate | reflexivity]. }
repeat step_handler;
  try (right; split; [discriminate | reflexivity]);
  left; (split; [reflexivity|]); eexists req, _, _, _;
  (split; [reflexivity|]); (split; [eassumption|]);
  (split; [eassumption|]); reflexivity.
Qed.

Lemma track_impression_new (d : Db) (t : nat) (domain rid sid : string)
    (cart : option string) (price : Js.value) :
rid <> "" -> domain <> "" -> sid <> "" ->
Spec.knownRule d domain rid -> ~ Spec.hasImpression d rid sid ->
exists shopRecord,
  find (fun s => shopifyDomain s =? domain) (shops d) = Some shopRecord
  /\ Track.action parseFloat decimal "POST"
       (Some (Spec.impression domain rid sid cart price)) (mkWorld d [] t)
     = (Track.tracked,
        mkWorld (mkDb (shops d) (rules d)
                      (events d
                       ++ [mkEvent (List.length (events d)) (shopId shopRecord)
                                   rid IMPRESSION (Js.orNull cart) (Some sid)
                                   None t]))
                [] t).
Proof.
intros Hr Hd Hs Hk Hnew.
destruct (action_known d t (Spec.impression domain rid sid cart price)
            "IMPRESSION" domain rid IMPRESSION
            eq_refl eq_refl eq_refl Hr eq_refl Hd Hk) as (shopRecord & Hf & ->).
exists shopRecord. split; [exact Hf|].
apply String.eqb_neq in Hs. apply findImpression_none in Hnew.
unfold Track.record, tryCatch, bind, ret, Store.findImpression,
  Store.createEvent, query, call, callOrThrow, Js.orNull at 2. simpl.
rewrite Hs. simpl. rewrite Hnew. reflexivity.
Qed.

Lemma track_impression_seen (d : Db) (t : nat) (domain rid sid : string)
    (cart : option string) (price : Js.value) :
rid <> "" -> domain <> "" -> sid <> "" ->
Spec.knownRule d domain rid -> Spec.hasImpression d rid sid ->
Track.action parseFloat decimal "POST"
  (Some (Spec.impression domain rid sid cart price)) (mkWorld d [] t)
= (Track.duplicate, mkWorld d [] t).
Proof.
intros Hr Hd Hs Hk Hseen.
destruct (action_known d t (Spec.impression domain rid sid cart price)
            "IMPRESSION" domain rid IMPRESSION
            eq_refl eq_refl eq_refl Hr eq_refl Hd Hk) as (shopRecord & Hf & ->).
apply String.eqb_neq in Hs.
destruct (find (Store.isImpressionOf rid sid) (events d)) as [e|] eqn:E.
- unfold Track.record, tryCatch, bind, ret, Store.findImpression, query, call.
  simpl. rewrite Hs. simpl. rewrite E. reflexivity.
- apply findImpression_none in E. contradiction.
Qed.

(** A CONVERSION for a known rule is tracked when the column takes the
  price, and adds the row with the price as the column keeps it. *)
Lemma track_conversion (d : Db) (t : nat) (domain rid : string)
    (cart session : option string) (price : Js.value)
    (kept : option float) :
rid <> "" -> domain <> "" -> Spec.knownRule d domain rid ->
Store.toColumn decimal (Track.priceToStore parseFloat CONVERSION price)
= Some kept ->
exists shopRecord,
  find (fun s => shopifyDomain s =? domain) (shops d) = Some shopRecord
  /\ Track.action parseFloat decimal "POST"
       (Some (Spec.conversion domain rid cart session price)) (mkWorld d [] t)
     = (Track.tracked,
        mkWorld (mkDb (shops d) (rules d)
                      (events d
                       ++ [mkEvent (List.length (events d)) (shopId shopRecord)
                                   rid CONVERSION (Js.orNull cart)
                                   (Js.orNull session) kept t]))
                [] t).
Proof.
intros Hr Hd Hk Hcol.
destruct (action_known d t (Spec.conversion domain rid cart session price)
            "CONVERSION" domain rid CONVERSION
            eq_refl eq_refl eq_refl Hr eq_refl Hd Hk) as (shopRecord & Hf & ->).
exists shopRecord. split; [exact Hf|].
unfold Track.record, tryCatch, bind, ret, Store.createEvent, callOrThrow.
cbn -[Store.toColumn Track.priceToStore]. rewrite Hcol. reflexivity.
Qed.

(** When the column refuses the price the request answers 500 and the
  store stays as it was. *)
Lemma track_conversion_refused (d : Db) (t : nat) (domain rid : string)
    (cart session : option string) (price : Js.value) :
rid <> "" -> domain <> "" -> Spec.knownRule d domain rid ->
Store.toColumn decimal (Track.priceToStore parseFloat CONVERSION price)
= None ->
Track.action parseFloat decimal "POST"
  (Some (Spec.conversion domain rid cart session price)) (mkWorld d [] t)
= (mkResponse 500 (ErrorBody "Internal server error"), mkWorld d [] t).
Proof.
intros Hr Hd Hk Hcol.
destruct (action_known d t (Spec.conversion domain rid cart session price)
            "CONVERSION" domain rid CONVERSION
            eq_refl eq_refl eq_refl Hr eq_refl Hd Hk) as (shopRecord & Hf & ->).
unfold Track.record, tryCatch, bind, ret, Store.createEvent, callOrThrow.
cbn -[Store.toColumn Track.priceToStore]. rewrite Hcol. reflexivity.
Qed.

(** The store only grows: a request keeps the shops, the rules and every
  event row already there. *)
Lemma action_grows (method : string) (b : option TrackRequest) (w : World) :
exists rows,
  db (snd (Track.action parseFloat decimal method b w))
  = mkDb (shops (db w)) (rules (db w)) (events (db w) ++ rows).
Proof.
destruct (action_effect method b w)
  as [[_ (req & ty & s & kept & _ & _ & _ & H)] | [_ H]].
- eexists. exact H.
- exists []. rewrite H, app_nil_r. destruct (db w); reflexivity.
Qed.

Lemma serve_grows (reqs : list (string * option TrackRequest * list bool * nat))
    (d : Db) :
exists rows,
  snd (Track.serve parseFloat decimal reqs d)
  = mkDb (shops d) (rules d) (events d ++ rows).
Proof.
revert d. induction reqs as [|[[[method b] fs] t] reqs IH]; intros d; simpl.
- exists []. rewrite app_nil_r. destruct d; reflexivity.
- destruct (action_grows method b (mkWorld d fs t)) as [rows1 H1].
  destruct (Track.action parseFloat decimal method b (mkWorld d fs t)) as [r w].
  simpl in H1. destruct (IH (db w)) as [rows2 H2].
  destruct (Track.serve parseFloat decimal reqs (db w)) as [rs d'].
  simpl in *. exists (rows1 ++ rows2). rewrite H2, H1. simpl.
  now rewrite app_assoc.
Qed.

Lemma knownRule_grows (d : Db) (rows : list AnalyticsEvent) (domain rid : string) :
Spec.knownRule d domain rid ->
Spec.knownRule (mkDb (shops d) (rules d) (events d ++ rows)) domain rid.
Proof. intros H. exact H. Qed.

Lemma hasImpression_grows (d : Db) (rows : list AnalyticsEvent) (rid sid : string) :
Spec.hasImpression d rid sid ->
Spec.hasImpression (mkDb (shops d) (rules d) (events d ++ rows)) rid sid.
Proof.
intros [e (Hin & H)]. exists e. split; [|exact H].
simpl. apply in_or_app. now left.
Qed.

End Ingestion.

(** C3. For a known rule and a session without an impression yet, the first
    IMPRESSION request is tracked and adds its row; the second one for the
    same rule and session answers [{success: true, tracked: false,
    reason: "duplicate"}] and leaves the store as it was; a request of
    another session for the rule is tracked and adds a row.  The first row
    keeps winning: after any further requests, at any later time, the same
    rule and session are a duplicate again. *)
Theorem C3_impression_dedup :
  forall (parseFloat : Js.value -> float) (decimal : float -> option float)
         (d : Db)
         (domain rid sid sid' : string) (cart1 cart2 cart3 : option string)
         (price1 price2 price3 : Js.value) (t1 t2 t3 : nat),
    rid <> "" -> domain <> "" -> sid <> "" -> sid' <> "" -> sid' <> sid ->
    Spec.knownRule d domain rid ->
    ~ Spec.hasImpression d rid sid -> ~ Spec.hasImpression d rid sid' ->
    let c1 := Track.action parseFloat decimal "POST"
                (Some (Spec.impression domain rid sid cart1 price1))
                (mkWorld d [] t1) in
    let c2 := Track.action parseFloat decimal "POST"
                (Some (Spec.impression domain rid sid cart2 price2))
                (mkWorld (db (snd c1)) [] t2) in
    let c3 := Track.action parseFloat decimal "POST"
                (Some (Spec.impression domain rid sid' cart3 price3))
                (mkWorld (db (snd c2)) [] t3) in
    fst c1 = mkResponse 200 (TrackedBody true true None)
    /\ (exists row,
          events (db (snd c1)) = events d ++ [row]
          /\ evRuleId row = rid /\ eventType row = IMPRESSION
          /\ sessionId row = Some sid /\ productPrice row = None)
    /\ fst c2 = mkResponse 200 (TrackedBody true false (Some "duplicate"))
    /\ db (snd c2) = db (snd c1)
    /\ fst c3 = mkResponse 200 (TrackedBody true true None)
    /\ (exists row,
          events (db (snd c3)) = events (db (snd c2)) ++ [row]
          /\ evRuleId row = rid /\ eventType row = IMPRESSION
          /\ sessionId row = Some sid')
    /\ (forall reqs t cart price,
          let d' := snd (Track.serve parseFloat decimal reqs (db (snd c1))) in
          Track.action parseFloat decimal "POST"
            (Some (Spec.impression domain rid sid cart price)) (mkWorld d' [] t)
          = (mkResponse 200 (TrackedBody true false (Some "duplicate")),
             mkWorld d' [] t)).
Proof.
  intros parseFloat decimal d domain rid sid sid' cart1 cart2 cart3
         price1 price2 price3
         t1 t2 t3 Hr Hd Hs Hs' Hdiff Hk Hnew Hnew' c1 c2 c3.
  destruct (track_impression_new parseFloat decimal d t1 domain rid sid cart1
              price1 Hr Hd Hs Hk Hnew) as (shopRecord & Hf & E1).
  set (row := mkEvent (List.length (events d)) (shopId shopRecord) rid IMPRESSION
                      (Js.orNull cart1) (Some sid) None t1) in *.
  set (d1 := mkDb (shops d) (rules d) (events d ++ [row])) in *.
  assert (Hk1 : Spec.knownRule d1 domain rid) by exact Hk.
  assert (Hseen : Spec.hasImpression d1 rid sid).
  { exists row. simpl. split; [apply in_or_app; right; now left | auto]. }
  assert (Hnew1 : ~ Spec.hasImpression d1 rid sid').
  { intros [e (Hin & He1 & He2 & He3)]. simpl in Hin.
    apply in_app_or in Hin as [Hin | [<- | []]].
    - apply Hnew'. exists e. auto.
    - simpl in He3. congruence. }
  assert (E2 : c2 = (Track.duplicate, mkWorld d1 [] t2)).
  { unfold c2, c1. rewrite E1. simpl.
    now apply track_impression_seen. }
  destruct (track_impression_new parseFloat decimal d1 t3 domain rid sid' cart3
              price3 Hr Hd Hs' Hk1 Hnew1) as (shopRecord' & Hf' & E3).
  assert (E3' : c3 = (Track.tracked,
                      mkWorld (mkDb (shops d1) (rules d1)
                                 (events d1
                                  ++ [mkEvent (List.length (events d1))
                                        (shopId shopRecord') rid IMPRESSION
                                        (Js.orNull cart3) (Some sid') None t3]))
                              [] t3)).
  { unfold c3. rewrite E2. simpl. exact E3. }
  fold c1 in E1. rewrite E1, E2, E3'. simpl.
  split; [reflexivity|]. split; [exists row; auto|].
  split; [reflexivity|]. split; [reflexivity|]. split; [reflexivity|].
  split; [eexists; split; [reflexivity | auto]|].
  intros reqs t cart price.
  destruct (serve_grows parseFloat decimal reqs d1) as [rows ->].
  apply track_impression_seen; auto.
  now apply hasImpression_grows.
Qed.

Lemma sample_knownRule : Spec.knownRule sampleDb "demo.myshopify.com" "rule-a".
Proof. exists sampleShop, ruleA. split; reflexivity. Defined.

Lemma sample_no_impression (sid : string) :
  ~ Spec.hasImpression sampleDb "rule-a" sid.
Proof. intros [e [[] _]]. Defined.

Lemma C3_witness :
  fst (Track.action sampleParseFloat sampleDecimal "POST"
         (Some (Spec.impression "demo.myshopify.com" "rule-a" "s1" None Js.Null))
         (mkWorld sampleDb [] 0))
  = mkResponse 200 (TrackedBody true true None).
Proof.
  assert (Hr : "rule-a" <> "") by discriminate.
  assert (Hd : "demo.myshopify.com" <> "") by discriminate.
  assert (Hs : "s1" <> "") by discriminate.
  assert (Hs' : "s2" <> "") by discriminate.
  assert (Hdiff : "s2" <> "s1") by discriminate.
  exact (proj1 (C3_impression_dedup sampleParseFloat sampleDecimal sampleDb
                  "demo.myshopify.com" "rule-a" "s1" "s2" None None None
                  Js.Null Js.Null Js.Null 0 1 2 Hr Hd Hs Hs' Hdiff
                  sample_knownRule (sample_no_impression "s1")
                  (sample_no_impression "s2"))).
Defined.

Section Conversions.

Variable parseFloat : Js.value -> float.
Variable decimal : float -> option float.

Lemma conversions_all_tracked (domain rid : string) (cart session : option string)
    (price : Js.value) (kept : option float) (times : list nat) (d : Db) :
rid <> "" -> domain <> "" -> Spec.knownRule d domain rid ->
Store.toColumn decimal (Track.priceToStore parseFloat CONVERSION price)
= Some kept ->
let run := Track.serve parseFloat decimal
             (Spec.conversions domain rid cart session price times) d in
fst run = repeat Track.tracked (List.length times)
/\ exists rows,
     snd run = mkDb (shops d) (rules d) (events d ++ rows)
     /\ List.length rows = List.length times
     /\ Forall (fun row =>
                  eventType row = CONVERSION /\ evRuleId row = rid
                  /\ sessionId row = Js.orNull session
                  /\ productPrice row = kept) rows.
Proof.
intros Hr Hd Hk Hcol. revert d Hk.
induction times as [|t times IH]; intros d Hk; simpl.
- split; [reflexivity|]. exists []. rewrite app_nil_r.
  destruct d; repeat split; constructor.
- destruct (track_conversion parseFloat decimal d t domain rid cart session
              price kept Hr Hd Hk Hcol) as (shopRecord & _ & ->).
  match goal with
  | |- context [Track.serve _ _ _ (db (mkWorld ?d1 _ _))] =>
      destruct (IH d1 Hk) as [Hresp (rows & Hdb & Hlen & Hall)]
  end.
  simpl in *.
  destruct (Track.serve parseFloat decimal
              (Spec.conversions domain rid cart session price times) _) as [rs d'].
  simpl in *. split; [now rewrite Hresp|].
  eexists (_ :: rows). split; [|split].
  + rewrite Hdb, <- app_assoc. reflexivity.
  + simpl. now rewrite Hlen.
  + constructor; [repeat split | exact Hall].
Qed.

(** The column's answer, case by case. *)
Lemma toColumn_cases (price : Js.value) :
Store.toColumn decimal (Track.priceToStore parseFloat CONVERSION price)
= if Spec.givenPrice price
  then match decimal (parseFloat price) with
       | Some kept => Some (Some kept)
       | None => None
       end
  else Some None.
Proof.
rewrite priceToStore_cases. destruct (Spec.givenPrice price); reflexivity.
Qed.

End Conversions.

(** C8 (as amended). A tracked request adds one row.  The row of a
    CONVERSION holds a price when one is given, that is when the field is
    not undefined, null, false, zero, NaN or the empty string: the price is
    parsed with [parseFloat] and kept as the DECIMAL(10,2) column keeps
    it.  Otherwise the price of the row is null; an IMPRESSION row never
    has a price, and neither has a CONVERSION sent with the price 0.  A
    CONVERSION for a known rule whose given price the column takes is
    tracked and stores that price; one whose price the column refuses
    answers 500 and stores nothing.  Conversions are not de-duplicated:
    the same CONVERSION request sent any number of times for a known rule
    is tracked every time and adds a row every time. *)
Theorem C8_conversion_price_no_dedup :
  forall (parseFloat : Js.value -> float) (decimal : float -> option float),
    (forall method b w,
       fst (Track.action parseFloat decimal method b w)
       = mkResponse 200 (TrackedBody true true None) ->
       exists req ty row,
         b = Some req
         /\ Track.eventTypeOf (Js.orDefault (tEventType req) "") = Some ty
         /\ events (db (snd (Track.action parseFloat decimal method b w)))
            = events (db w) ++ [row]
         /\ eventType row = ty
         /\ match ty with
            | CONVERSION =>
                if Spec.givenPrice (tProductPrice req)
                then exists kept,
                       decimal (parseFloat (tProductPrice req)) = Some kept
                       /\ productPrice row = Some kept
                else productPrice row = None
            | IMPRESSION => productPrice row = None
            end)
    /\ (forall d t domain rid cart session price kept,
          rid <> "" -> domain <> "" -> Spec.knownRule d domain rid ->
          Spec.givenPrice price = true ->
          decimal (parseFloat price) = Some kept ->
          let run := Track.action parseFloat decimal "POST"
                       (Some (Spec.conversion domain rid cart session price))
                       (mkWorld d [] t) in
          fst run = mkResponse 200 (TrackedBody true true None)
          /\ exists row,
               events (db (snd run)) = events d ++ [row]
               /\ eventType row = CONVERSION /\ evRuleId row = rid
               /\ productPrice row = Some kept)
    /\ (forall d t domain rid cart session price,
          rid <> "" -> domain <> "" -> Spec.knownRule d domain rid ->
          Spec.givenPrice price = true ->
          decimal (parseFloat price) = None ->
          Track.action parseFloat decimal "POST"
            (Some (Spec.conversion domain rid cart session price))
            (mkWorld d [] t)
          = (mkResponse 500 (ErrorBody "Internal server error"),
             mkWorld d [] t))
    /\ (forall d t domain rid cart session price,
          rid <> "" -> domain <> "" -> Spec.knownRule d domain rid ->
          Spec.givenPrice price = false ->
          let run := Track.action parseFloat decimal "POST"
                       (Some (Spec.conversion domain rid cart session price))
                       (mkWorld d [] t) in
          fst run = mkResponse 200 (TrackedBody true true None)
          /\ exists row,
               events (db (snd run)) = events d ++ [row]
               /\ eventType row = CONVERSION /\ evRuleId row = rid
               /\ productPrice row = None)
    /\ Spec.givenPrice (Js.Number 0) = false
    /\ (forall d domain rid cart session price times,
          rid <> "" -> domain <> "" -> Spec.knownRule d domain rid ->
          Spec.givenPrice price = false
          \/ decimal (parseFloat price) <> None ->
          let run := Track.serve parseFloat decimal
                       (Spec.conversions domain rid cart session price times) d in
          fst run = repeat (mkResponse 200 (TrackedBody true true None))
                           (List.length times)
          /\ exists rows,
               events (snd run) = events d ++ rows
               /\ List.length rows = List.length times
               /\ Forall (fun row =>
                            eventType row = CONVERSION /\ evRuleId row = rid
                            /\ sessionId row = Js.orNull session
                            /\ productPrice row
                               = (if Spec.givenPrice price
                                  then decimal (parseFloat price)
                                  else None))
                         rows).
Proof.
  intros parseFloat decimal.
  split; [|split; [|split; [|split; [|split]]]].
  - intros method b w H.
    destruct (action_effect parseFloat decimal method b w)
      as [[_ (req & ty & s & kept & Hb & Hty & Hcol & Hdb)] | [Hn _]];
      [|contradiction].
    exists req, ty. eexists. split; [exact Hb|]. split; [exact Hty|].
    rewrite Hdb. simpl. split; [reflexivity|]. split; [reflexivity|].
    destruct ty; cbn [productPrice].
    + rewrite priceToStore_cases in Hcol. simpl in Hcol. congruence.
    + rewrite toColumn_cases in Hcol.
      destruct (Spec.givenPrice (tProductPrice req)).
      * destruct (decimal (parseFloat (tProductPrice req))) as [v|];
          [|discriminate].
        exists v. split; [reflexivity | congruence].
      * congruence.
  - intros d t domain rid cart session price kept Hr Hd Hk Hg Hdec run.
    assert (Hcol : Store.toColumn decimal
                     (Track.priceToStore parseFloat CONVERSION price)
                   = Some (Some kept))
      by now rewrite toColumn_cases, Hg, Hdec.
    destruct (track_conversion parseFloat decimal d t domain rid cart session
                price _ Hr Hd Hk Hcol) as (shopRecord & _ & E).
    unfold run. rewrite E. split; [reflexivity|].
    eexists. simpl. repeat split.
  - intros d t domain rid cart session price Hr Hd Hk Hg Hdec.
    apply track_conversion_refused; auto.
    now rewrite toColumn_cases, Hg, Hdec.
  - intros d t domain rid cart session price Hr Hd Hk Hg run.
    assert (Hcol : Store.toColumn decimal
                     (Track.priceToStore parseFloat CONVERSION price)
                   = Some None)
      by now rewrite toColumn_cases, Hg.
    destruct (track_conversion parseFloat decimal d t domain rid cart session
                price _ Hr Hd Hk Hcol) as (shopRecord & _ & E).
    unfold run. rewrite E. split; [reflexivity|].
    eexists. simpl. repeat split.
  - reflexivity.
  - intros d domain rid cart session price times Hr Hd Hk Hprice run.
    assert (Hcol : Store.toColumn decimal
                     (Track.priceToStore parseFloat CONVERSION price)
                   = Some (if Spec.givenPrice price
                           then decimal (parseFloat price) else None)).
    { rewrite toColumn_cases. destruct (Spec.givenPrice price); [|reflexivity].
      destruct Hprice as [Hg | Hdec]; [discriminate|].
      destruct (decimal (parseFloat price)); [reflexivity | congruence]. }
    destruct (conversions_all_tracked parseFloat decimal domain rid cart session
                price _ times d Hr Hd Hk Hcol)
      as [Hresp (rows & Hdb & Hlen & Hall)].
    fold run in Hresp, Hdb. split; [exact Hresp|].
    exists rows. rewrite Hdb. auto.
Qed.

Lemma C8_witness :
  exists row,
    events (db (snd (Track.action sampleParseFloat sampleDecimal "POST"
                       (Some (Spec.conversion "demo.myshopify.com" "rule-a"
                                              None (Some "s1") (Js.Number 1500)))
                       (mkWorld sampleDb [] 0))))
    = events sampleDb ++ [row]
    /\ eventType row = CONVERSION /\ evRuleId row = "rule-a"
    /\ productPrice row = Some 1500%float.
Proof.
  assert (Hr : "rule-a" <> "") by discriminate.
  assert (Hd : "demo.myshopify.com" <> "") by discriminate.
  exact (proj2 (proj1 (proj2 (C8_conversion_price_no_dedup
                                sampleParseFloat sampleDecimal))
                  sampleDb 0 "demo.myshopify.com" "rule-a" None (Some "s1")
                  (Js.Number 1500) 1500%float Hr Hd sample_knownRule
                  eq_refl eq_refl)).
Defined.

(** C8, as stated, fails for the price 0: the CONVERSION request carries
    the price, the column would take it, the request is tracked, and the
    row is stored with a null price. *)
Lemma C8_counterexample :
  Spec.supplied (Js.Number 0) = true
  /\ sampleDecimal (sampleParseFloat (Js.Number 0)) = Some 0%float
  /\ Track.action sampleParseFloat sampleDecimal "POST"
       (Some (Spec.conversion "demo.myshopify.com" "rule-a" None (Some "s1")
                              (Js.Number 0)))
       (mkWorld sampleDb [] 0)
     = (mkResponse 200 (TrackedBody true true None),
        mkWorld (mkDb [sampleShop] [ruleA; ruleB]
                      [mkEvent 0 "shop-1" "rule-a" CONVERSION None (Some "s1")
                               None 0])
                [] 0).
Proof. repeat split. Qed.

(** ** Analytics rollup *)

Lemma length_filter_type (ty : EventType) (es : list AnalyticsEvent) :
  List.length (filter (fun e => EventType_eqb (eventType e) ty) es)
  = Spec.countType ty es.
Proof.
  induction es as [|e es IH]; simpl; [reflexivity|].
  destruct (EventType_eqb (eventType e) ty); simpl; now rewrite IH.
Qed.

Lemma revenue_fold (es : list AnalyticsEvent) (acc : float) :
  fold_left (fun sum event => (sum + Analytics.priceNumber event)%float)
            (filter (fun e => EventType_eqb (eventType e) CONVERSION) es) acc
  = Spec.revenueFrom acc es.
Proof.
  revert acc. induction es as [|e es IH]; intros acc; simpl; [reflexivity|].
  destruct (eventType e); simpl; apply IH.
Qed.

(** C4. The summary counts the IMPRESSION and the CONVERSION events; the
    conversion rate is conversions / impressions * 100 when there is an
    impression and the number 0 (not NaN) when there is none; the revenue
    adds the prices of the CONVERSION events, a missing price counting as
    0.  Ten impressions and two conversions give 20; no impression and one
    conversion give 0. *)
Theorem C4_summary_rollup :
  forall es : list AnalyticsEvent,
    let s := Analytics.computeSummary es in
    totalImpressions s = Spec.countType IMPRESSION es
    /\ totalConversions s = Spec.countType CONVERSION es
    /\ (0 < totalImpressions s ->
        conversionRate s
        = (Js.numberOfNat (totalConversions s)
           / Js.numberOfNat (totalImpressions s) * 100)%float)
    /\ (totalImpressions s = 0 ->
        conversionRate s = 0%float
        /\ PrimFloat.is_nan (conversionRate s) = false)
    /\ totalRevenue s = Spec.revenueFrom 0%float es
    /\ (Spec.countType IMPRESSION es = 10 ->
        Spec.countType CONVERSION es = 2 -> conversionRate s = 20%float)
    /\ (Spec.countType IMPRESSION es = 0 ->
        Spec.countType CONVERSION es = 1 -> conversionRate s = 0%float).
Proof.
  intros es. unfold Analytics.computeSummary. cbv zeta. simpl.
  rewrite !length_filter_type, revenue_fold.
  split; [reflexivity|]. split; [reflexivity|]. split; [|split; [|split; [|split]]].
  - intros H. destruct (Nat.ltb_spec 0 (Spec.countType IMPRESSION es));
      [reflexivity | lia].
  - intros H. rewrite H. split; reflexivity.
  - reflexivity.
  - intros Hi Hc. rewrite Hi, Hc. reflexivity.
  - intros Hi Hc. rewrite Hi. reflexivity.
Qed.

Lemma C4_witness :
  conversionRate (Analytics.computeSummary tenImpressionsTwoConversions)
  = 20%float.
Proof.
  exact (proj1 (proj2 (proj2 (proj2 (proj2 (proj2
           (C4_summary_rollup tenImpressionsTwoConversions))))))
           eq_refl eq_refl).
Defined.

(** ** Plan gate *)

(** C6 (as amended). For the plans of [BILLING_PLANS], FREE with
    [maxRules] 1 and PRO with the sentinel 999, [canPerformAction] with a
    count answers [allowed: false] exactly when the count has reached
    [maxRules], and the reason then names the plan and the limit; without
    a count it allows.  FREE with count 1 is refused with a reason naming
    "Free" and "1"; PRO with count 1 is allowed.  STARTER is not a key of
    [BILLING_PLANS]: with a count the call throws. *)
Theorem C6_plan_gate :
  (forall plan cfg count,
     Billing.BILLING_PLANS plan = Some cfg ->
     exists p,
       Billing.canPerformAction plan createRule (Some count) = Returned p
       /\ (allowed p = false <-> (maxRules cfg <= count)%Z)
       /\ (allowed p = false ->
           exists r, reason p = Some r
                     /\ Spec.names r (planName cfg)
                     /\ Spec.names r (Billing.show (maxRules cfg)))
       /\ (allowed p = true -> reason p = None))
  /\ (forall plan,
        Billing.canPerformAction plan createRule None
        = Returned (mkPermission true None))
  /\ (exists free pro,
        Billing.BILLING_PLANS FREE = Some free /\ maxRules free = 1%Z
        /\ planName free = "Free"
        /\ Billing.BILLING_PLANS PRO = Some pro /\ maxRules pro = 999%Z)
  /\ (exists r,
        Billing.canPerformAction FREE createRule (Some 1%Z)
        = Returned (mkPermission false (Some r))
        /\ Spec.names r "Free" /\ Spec.names r "1")
  /\ Billing.canPerformAction PRO createRule (Some 1%Z)
     = Returned (mkPermission true None)
  /\ Billing.BILLING_PLANS STARTER = None
  /\ Billing.canPerformAction STARTER createRule (Some 1%Z) = Threw.
Proof.
  split; [|split; [|split; [|split; [|split; [|split]]]]].
  - intros plan cfg count H. unfold Billing.canPerformAction. rewrite H.
    destruct (Z.leb_spec (maxRules cfg) count) as [Hle | Hlt]; eexists;
      (split; [reflexivity|]); simpl.
    + split; [tauto|]. split; [|discriminate].
      intros _. eexists. split; [reflexivity|]. split.
      * exists ("You've reached the maximum of " ++ Billing.show (maxRules cfg)
                ++ " rule(s) on the ")%string,
          " plan. Upgrade to Pro for unlimited rules.".
        rewrite !append_assoc. reflexivity.
      * exists "You've reached the maximum of ",
          (" rule(s) on the " ++ planName cfg
           ++ " plan. Upgrade to Pro for unlimited rules.")%string.
        reflexivity.
    + split; [split; [discriminate | lia]|]. split; [discriminate | reflexivity].
  - intros []; reflexivity.
  - eexists _, _. repeat split.
  - eexists. split; [reflexivity|]. split.
    + exists "You've reached the maximum of 1 rule(s) on the ",
        " plan. Upgrade to Pro for unlimited rules.". reflexivity.
    + exists "You've reached the maximum of ",
        " rule(s) on the Free plan. Upgrade to Pro for unlimited rules.".
      reflexivity.
  - reflexivity.
  - reflexivity.
  - reflexivity.
Qed.

Lemma C6_witness :
  exists p,
    Billing.canPerformAction PRO createRule (Some 1000%Z) = Returned p
    /\ (allowed p = false <-> (999 <= 1000)%Z).
Proof.
  destruct (proj1 C6_plan_gate PRO _ 1000%Z eq_refl) as [p [H1 [H2 _]]].
  exists p. split; [exact H1 | exact H2].
Defined.

(** C6, as stated, fails for STARTER: with count 1 the call does not
    return [allowed: true]. *)
Lemma C6_counterexample :
  ~ exists p,
      Billing.canPerformAction STARTER createRule (Some 1%Z) = Returned p
      /\ allowed p = true.
Proof. intros [p [H _]]. discriminate. Qed.

(** C7 (as amended). [getCurrentPlan] answers PRO exactly for a
    subscription whose status is ACTIVE and one of whose line items has a
    price that parses to a positive number, and FREE otherwise.  The plan
    checks of rule creation do not consult it: they read the plan stored in
    the shop record, give the same answer whatever the live subscription
    is, and block exactly a FREE stored plan with an enabled rule already
    there. *)
Theorem C7_plan_sources :
  forall parseFloat : Js.value -> float,
    (forall subscription,
       Billing.getCurrentPlan parseFloat subscription = PRO
       <-> exists s items item,
             subscription = Some s
             /\ subStatus s = "ACTIVE"
             /\ lineItems s = Some items /\ In item items
             /\ Js.truthyValue (amount item) = true
             /\ PrimFloat.ltb 0%float (parseFloat (amount item)) = true)
    /\ (forall subscription,
          Billing.getCurrentPlan parseFloat subscription <> PRO ->
          Billing.getCurrentPlan parseFloat subscription = FREE)
    /\ (forall d live live' shop enabled,
          RulesNew.canCreateRule (mkAdminContext d live) shop
          = RulesNew.canCreateRule (mkAdminContext d live') shop
          /\ RulesNew.planError (mkAdminContext d live) shop enabled
             = RulesNew.planError (mkAdminContext d live') shop enabled)
    /\ (forall ctx shop shopRecord rules enabled,
          RulesNew.findShopWithRules shop (store ctx) = Some (shopRecord, rules) ->
          (RulesNew.canCreateRule ctx shop = Some false
           <-> currentPlan shopRecord = FREE /\ 1 <= List.length rules)
          /\ (RulesNew.planError ctx shop enabled <> Some None
              <-> currentPlan shopRecord = FREE /\ 1 <= List.length rules
                  /\ enabled = true)).
Proof.
  intros parseFloat. split; [|split; [|split]].
  - intros subscription. unfold Billing.getCurrentPlan.
    destruct (Billing.hasActivePaidSubscription parseFloat subscription) eqn:E.
    + split; [intros _ | reflexivity].
      unfold Billing.hasActivePaidSubscription in E.
      destruct subscription as [s|]; [|discriminate].
      apply andb_prop in E as [Hst Hit]. apply String.eqb_eq in Hst.
      destruct (lineItems s) as [items|] eqn:Hi; [|discriminate].
      apply existsb_exists in Hit as [item [Hin Hp]].
      apply andb_prop in Hp as [Hp1 Hp2].
      exists s, items, item. auto 10.
    + split; [discriminate|].
      intros (s & items & item & -> & Hst & Hi & Hin & Hp1 & Hp2).
      unfold Billing.hasActivePaidSubscription in E.
      rewrite Hst, Hi in E. simpl in E.
      assert (existsb (fun item0 =>
                Js.truthyValue (amount item0)
                && PrimFloat.ltb 0%float (parseFloat (amount item0))) items = true).
      { apply existsb_exists. exists item. split; [exact Hin|].
        now rewrite Hp1, Hp2. }
      congruence.
  - intros subscription. unfold Billing.getCurrentPlan.
    destruct (Billing.hasActivePaidSubscription parseFloat subscription);
      [congruence | reflexivity].
  - intros d live live' shop enabled. split; reflexivity.
  - intros ctx shop shopRecord rules enabled H.
    unfold RulesNew.canCreateRule, RulesNew.planError. rewrite H.
    destruct (currentPlan shopRecord); simpl;
      destruct rules as [|r rules]; simpl; destruct enabled; simpl;
      (split; split; intros K;
       try solve [ discriminate | congruence | lia
                 | repeat split; solve [reflexivity | lia]
                 | destruct K as [? ?]; solve [discriminate | lia]
                 | destruct K as [? [? ?]]; solve [discriminate | lia] ]).
Qed.

Lemma C7_witness :
  RulesNew.canCreateRule (mkAdminContext sampleDb None) "demo.myshopify.com"
  = Some false
  <-> currentPlan sampleShop = FREE /\ 1 <= List.length [ruleA; ruleB].
Proof.
  exact (proj1 (proj2 (proj2 (proj2 (C7_plan_sources sampleParseFloat)))
                  (mkAdminContext sampleDb None) "demo.myshopify.com"
                  sampleShop [ruleA; ruleB] true eq_refl)).
Defined.

(** C7, as stated, fails for the plan checks of rule creation: two
    contexts that differ only in the stored plan of the shop, both with no
    live subscription (so FREE by [getCurrentPlan]), get different
    decisions. *)
Lemma C7_counterexample :
  liveSubscription storedProContext = liveSubscription storedFreeContext
  /\ Billing.getCurrentPlan sampleParseFloat (liveSubscription storedFreeContext)
     = FREE
  /\ RulesNew.planError storedFreeContext "demo.myshopify.com" true
     = Some (Some "Free plan allows only 1 active rule. Upgrade to create more.")
  /\ RulesNew.planError storedProContext "demo.myshopify.com" true = Some None
  /\ RulesNew.canCreateRule storedFreeContext "demo.myshopify.com" = Some false
  /\ RulesNew.canCreateRule storedProContext "demo.myshopify.com" = Some true.
Proof. repeat split. Qed.

(** ** The handlers on sample requests *)

Example extractProductId_unanchored :
  Matcher.extractProductId (Some "id=gid://shopify/Product/12ab") = Some "12".
Proof. reflexivity. Qed.

Example extractProductId_bare_number :
  Matcher.extractProductId (Some "101") = None.
Proof. reflexivity. Qed.

Example parseCart_trims :
  Matcher.parseCart " 101, ,303 " = ["101"; "303"].
Proof. reflexivity. Qed.

Example trim_unicode :
  Js.trim (Js.bytes [239; 187; 191] ++ " a b" ++ Js.bytes [226; 128; 169; 9])
  = "a b".
Proof. reflexivity. Qed.

Example parseCart_no_break_space :
  Matcher.parseCart (Js.bytes [194; 160] ++ "101") = ["101"].
Proof. reflexivity. Qed.

Example blank_cart_before_failing_store :
  Upsells.loader
    (mkUpsellsRequest (Some "demo.myshopify.com") (Some (Js.bytes [194; 160]))
                      None)
    (mkWorld sampleDb [true] 0)
  = (mkResponse 200 (OffersBody []), mkWorld sampleDb [true] 0).
Proof. reflexivity. Qed.

Example scenario_with_lookups :
  fst (UpsellsCollections.loader scenarioPlatform scenarioRequest scenarioWorld)
  = mkResponse 200 (OffersBody [Matcher.formatOffer ruleA]).
Proof. reflexivity. Qed.

Example scenario_lookups_made :
  snd (UpsellsCollections.matchRules scenarioPlatform [ruleA; ruleB] ["101"; "303"])
  = ["101"; "303"].
Proof. reflexivity. Qed.

Example scenario_offer :
  Matcher.formatOffer ruleA
  = mkOffer "rule-a"
      (mkOfferProduct "gid://shopify/Product/202" "gid://shopify/Product/202"
                      "Product" None "0.00" None true).
Proof. reflexivity. Qed.

Example priorities_2_0_1 :
  map priority
      (Store.orderByPriority
         [mkRule "a" "s" "a" true PRODUCT None None "p" None 2;
          mkRule "b" "s" "b" true PRODUCT None None "p" None 0;
          mkRule "c" "s" "c" true PRODUCT None None "p" None 1])
  = [0; 1; 2]%Z.
Proof. reflexivity. Qed.

Example revenue_500_1500_null :
  totalRevenue
    (Analytics.computeSummary
       [sampleEvent CONVERSION (Some 500%float);
        sampleEvent CONVERSION (Some 1500%float);
        sampleEvent CONVERSION None])
  = 2000%float.
Proof. reflexivity. Qed.

Example free_plan_reason :
  Billing.canPerformAction FREE createRule (Some 1%Z)
  = Returned
      (mkPermission false
         (Some "You've reached the maximum of 1 rule(s) on the Free plan. Upgrade to Pro for unlimited rules.")).
Proof. reflexivity. Qed.

Example conversion_refused_by_column :
  Track.action sampleParseFloat sampleDecimal "POST"
    (Some (Spec.conversion "demo.myshopify.com" "rule-a" None None
                           (Js.Number 1000000000)))
    sampleWorld
  = (mkResponse 500 (ErrorBody "Internal server error"), sampleWorld).
Proof. reflexivity. Qed.

Example price_zero_is_not_stored :
  Track.priceToStore sampleParseFloat CONVERSION (Js.Number 0) = None
  /\ Track.priceToStore sampleParseFloat CONVERSION (Js.Number 1500)
     = Some 1500%float
  /\ Track.priceToStore sampleParseFloat IMPRESSION (Js.Number 1500) = None.
Proof. repeat split. Qed.

(** * Further properties of the handlers *)

(** ** Cart parameter *)

Section CartParameter.

Lemma split_segments_commaFree (s : string) :
Forall (fun x => Props.commaFree x = true) (Js.split "," s).
Proof.
unfold Props.commaFree. induction s as [|c s IH]; simpl.
- constructor; [reflexivity | constructor].
- destruct (Ascii.eqb c ",") eqn:E.
  + constructor; [reflexivity | exact IH].
  + destruct (Js.split "," s) as [|h t].
    * constructor; [simpl; now rewrite E | constructor].
    * inversion IH as [|? ? Hh Ht]; subst.
      constructor; [simpl; now rewrite E, Hh | exact Ht].
Qed.

(** A string that [trim] leaves as it is has no surrounding white
  space. *)
Lemma trim_fixed_trimmed (s : string) : Js.trim s = s -> Props.trimmed s.
Proof. intros H. rewrite <- H. apply trim_trimmed. Qed.

Lemma parseCart_concat (ids : list string) :
Forall Props.plainId ids ->
Matcher.parseCart (String.concat "," ids) = ids.
Proof.
intros H. destruct ids as [|id ids]; [reflexivity|].
unfold Matcher.parseCart. rewrite split_concat.
- induction H as [|x xs (Hne & _ & Ht) _ IH]; [reflexivity|].
  cbn [map filter]. rewrite (trimmed_trim x Ht).
  apply String.eqb_neq in Hne. rewrite Hne. cbn [negb]. now rewrite IH.
- eapply Forall_impl; [|exact H]. intros x (_ & Hc & _). exact Hc.
Qed.

(** X1. The server reads back the cart the widget sent: product ids that
  are not empty, contain no comma and have no white space at either end
  (the decimal numbers the widget sends are such ids), joined with
  commas as [fetchUpsells] does, are parsed to the same list. *)
Theorem X1_cart_round_trip :
forall ids : list string,
  Forall Props.plainId ids ->
  Matcher.parseCart (String.concat "," ids) = ids.
Proof. exact parseCart_concat. Qed.

Lemma plain_sample (id : string) :
id <> "" -> Props.commaFree id = true -> Js.trim id = id -> Props.plainId id.
Proof.
intros Hne Hc Ht. split; [exact Hne|]. split; [exact Hc|].
now apply trim_fixed_trimmed.
Defined.

Lemma X1_witness :
Matcher.parseCart (String.concat "," ["101"; "303"; "7"]) = ["101"; "303"; "7"].
Proof.
apply X1_cart_round_trip.
repeat (apply Forall_cons;
        [apply plain_sample; [discriminate | reflexivity | reflexivity]|]).
apply Forall_nil.
Defined.

(** X2. Every id the loader takes from the [products] parameter is not
  empty, contains no comma, and neither starts nor ends with a
  white-space character, whatever the parameter is. *)
Theorem X2_cart_ids_clean :
forall productsParam : string,
  Forall (fun id =>
            id <> "" /\ Props.trimmed id
            /\ Spec.allChars (fun c => negb (Ascii.eqb c ",")) id = true)
         (Matcher.parseCart productsParam).
Proof.
intros s. unfold Matcher.parseCart.
induction (split_segments_commaFree s) as [|x xs Hx _ IH]; simpl;
  [constructor|].
destruct (Js.trim x =? "") eqn:E; simpl; [exact IH|].
constructor; [|exact IH]. split; [|split].
- now apply String.eqb_neq.
- apply trim_trimmed.
- now apply trim_allChars.
Qed.

End CartParameter.

(** ** Product identifiers *)

Section ProductIdentifiers.
Import Matcher.

(** X3. A product id is extracted only from a string that contains
  [gid://shopify/Product/] followed by a digit; the id is the whole run
  of digits that follows (it is not empty, all digits, and what comes
  after it does not start with a digit). *)
Theorem X3_extractProductId_sound :
forall (gid : option string) (d : string),
  Matcher.extractProductId gid = Some d ->
  exists before after,
    gid = Some (before ++ Matcher.gidPrefix ++ d ++ after)%string
    /\ d <> "" /\ Spec.allChars Matcher.isDigit d = true
    /\ (forall c, Props.firstChar after = Some c -> Matcher.isDigit c = false).
Proof.
intros [g|] d; simpl; [|discriminate].
destruct (g =? ""); [discriminate|].
induction g as [|a g IH]; cbn [matchGid].
- discriminate.
- destruct (matchHere (String a g)) as [d'|] eqn:E.
  + intros H. inversion H; subst d'.
    destruct (matchHere_sound _ _ E) as (rest & Hs & Hrest).
    exists "", rest. rewrite Hs. auto.
  + intros H. destruct g as [|b g'].
    * discriminate.
    * destruct (IH H) as (before & after & Hg & Hrest).
      inversion Hg as [Hg']. exists (String a before), after.
      simpl. rewrite <- Hg'. auto.
Qed.

Lemma X3_witness :
exists before after,
  Some "id=gid://shopify/Product/12ab"
  = Some (before ++ Matcher.gidPrefix ++ "12" ++ after)%string
  /\ "12" <> "" /\ Spec.allChars Matcher.isDigit "12" = true
  /\ (forall c, Props.firstChar after = Some c -> Matcher.isDigit c = false).
Proof.
apply (X3_extractProductId_sound (Some "id=gid://shopify/Product/12ab") "12").
reflexivity.
Defined.

End ProductIdentifiers.

(** ** The loaders of [GET /upsells], end to end *)

Section UpsellsEndToEnd.

Variable platform : string -> list string.

Lemma anyInCollection_cost (cid : string) (cart lookups : list string) :
List.length (snd (UpsellsCollections.anyInCollection platform cid cart lookups))
<= List.length lookups + List.length cart.
Proof.
revert lookups. induction cart as [|p cart IH]; intros lookups; simpl.
- lia.
- destruct (Js.includes (platform p) cid); simpl.
  + rewrite length_app. simpl. lia.
  + specialize (IH (lookups ++ [p])). rewrite length_app in IH. simpl in IH. lia.
Qed.

Lemma step_cost (cart : list string) (st : list Rule * list string) (r : Rule) :
List.length (snd (UpsellsCollections.step platform cart st r))
<= List.length (snd st)
   + (if Spec.isProductRule r then 0 else List.length cart).
Proof.
destruct st as [acc lookups]. unfold UpsellsCollections.step,
  UpsellsCollections.ruleMatches, Spec.isProductRule.
destruct (triggerType r).
- simpl. destruct (Matcher.inCart cart _); [destruct (Matcher.inCart cart _)|];
    simpl; lia.
- pose proof (anyInCollection_cost
                (Js.orDefault (triggerCollectionId r) "") cart lookups) as H.
  destruct (UpsellsCollections.anyInCollection _ _ _ _) as [m l]. simpl in *.
  destruct m; [destruct (Matcher.inCart cart _)|]; simpl; lia.
Qed.

Lemma loop_cost (cart : list string) (rules : list Rule)
    (st : list Rule * list string) :
List.length (snd (fold_left (UpsellsCollections.step platform cart) rules st))
<= List.length (snd st) + Props.collectionRules rules * List.length cart.
Proof.
revert st. induction rules as [|r rules IH]; intros st; cbn [fold_left].
- unfold Props.collectionRules. simpl. lia.
- specialize (IH (UpsellsCollections.step platform cart st r)).
  pose proof (step_cost cart st r) as Hs.
  unfold Props.collectionRules in *. simpl.
  destruct (Spec.isProductRule r); simpl in *; lia.
Qed.

(** X4. The loader with platform lookups makes at most one lookup per
  COLLECTION rule and cart product, and none when every rule is a
  PRODUCT rule. *)
Theorem X4_lookup_cost :
forall (rules : list Rule) (cart : list string),
  List.length (snd (UpsellsCollections.matchRules platform rules cart))
  <= Props.collectionRules rules * List.length cart
  /\ (Props.collectionRules rules = 0 ->
      snd (UpsellsCollections.matchRules platform rules cart) = []).
Proof.
intros rules cart.
pose proof (loop_cost cart rules ([], [])) as H. simpl in H.
split; [exact H|].
intros H0. rewrite H0 in H. simpl in H.
unfold UpsellsCollections.matchRules.
destruct (snd (fold_left _ rules ([], []))); [reflexivity | simpl in H; lia].
Qed.

End UpsellsEndToEnd.

Lemma X4_witness :
  snd (UpsellsCollections.matchRules summerPlatform [ruleA; ruleA] ["101"; "303"])
  = [].
Proof.
  apply (proj2 (X4_lookup_cost summerPlatform [ruleA; ruleA] ["101"; "303"])).
  reflexivity.
Defined.

Lemma offered_silent (cart : list string) (r : Rule) :
  Spec.offered (fun _ => []) cart r = Spec.productOffer cart r.
Proof.
  assert (E : forall cid, Spec.cartInCollection (fun _ => []) cid cart = false).
  { intros cid. unfold Spec.cartInCollection.
    induction cart as [|p cart IH]; [reflexivity | exact IH]. }
  unfold Spec.offered, Spec.productOffer, Spec.isProductRule.
  destruct (triggerType r); [reflexivity|]. now rewrite E.
Qed.

(** X5. When every platform lookup fails or answers no collection, the
    loader with lookups answers every request exactly as the storefront
    loader does. *)
Theorem X5_silent_platform :
  forall (req : UpsellsRequest) (w : World) (rules : list Rule)
         (cart : list string),
    fst (UpsellsCollections.matchRules (fun _ => []) rules cart)
    = Upsells.matchRules rules cart
    /\ UpsellsCollections.loader (fun _ => []) req w = Upsells.loader req w.
Proof.
  assert (M : forall rules cart,
             fst (UpsellsCollections.matchRules (fun _ => []) rules cart)
             = Upsells.matchRules rules cart).
  { intros rules cart.
    unfold UpsellsCollections.matchRules, Upsells.matchRules.
    rewrite collections_loop, upsells_loop. simpl.
    apply filter_ext. intros r. apply offered_silent. }
  intros req w rules cart. split; [apply M|].
  unfold UpsellsCollections.loader, Upsells.loader.
  destruct (qShop req) as [shop|]; [|reflexivity].
  destruct (shop =? ""); [reflexivity|].
  destruct (negb (Js.truthy (qProducts req))); [reflexivity|].
  cbv zeta. destruct (Nat.eqb _ 0); [reflexivity|].
  unfold tryCatch, bind, ret.
  destruct (Store.findShop shop w) as [[[shopRecord|]|] w1]; try reflexivity.
  destruct (Store.findEnabledRules (shopId shopRecord) w1) as [[rs|] w2];
    [|reflexivity].
  now rewrite M.
Qed.











Ltac read_only_cases shop w :=
  destruct (faults w) as [|[|] ?fs]; simpl; try reflexivity;
  destruct (find (fun s => shopifyDomain s =? shop) (shops (db w))); simpl;
  try reflexivity;
  match goal with
  | fs : list bool |- _ => destruct fs as [|[|] ?]; reflexivity
  end.

Lemma upsells_read_only (req : UpsellsRequest) (w : World) :
  db (snd (Upsells.loader req w)) = db w.
Proof.
  loader_open. destruct (qShop req) as [shop|]; simpl; [|reflexivity].
  destruct (shop =? ""); simpl; [reflexivity|].
  destruct (negb (Js.truthy (qProducts req))); simpl; [reflexivity|].
  destruct (Nat.eqb _ 0); simpl; [reflexivity|].
  read_only_cases shop w.
Qed.

Lemma collections_read_only (platform : string -> list string)
      (req : UpsellsRequest) (w : World) :
  db (snd (UpsellsCollections.loader platform req w)) = db w.
Proof.
  loader_open. destruct (qShop req) as [shop|]; simpl; [|reflexivity].
  destruct (shop =? ""); simpl; [reflexivity|].
  destruct (negb (Js.truthy (qProducts req))); simpl; [reflexivity|].
  destruct (Nat.eqb _ 0); simpl; [reflexivity|].
  read_only_cases shop w.
Qed.

Lemma shipping_read_only (shop : option string) (w : World) :
  db (snd (Shipping.loader shop w)) = db w.
Proof.
  loader_open. destruct (negb (Js.truthy shop)); simpl; [reflexivity|].
  destruct (faults w) as [|[|] fs]; simpl; try reflexivity;
    destruct (find _ (shops (db w))); reflexivity.
Qed.

(** X8. The loaders of [GET /upsells] and [GET /shipping] only read: the
    store after a request is the store before it, whatever the request and
    whichever call fails. *)
Theorem X8_loaders_read_only :
  forall (platform : string -> list string) (req : UpsellsRequest) (w : World),
    db (snd (Upsells.loader req w)) = db w
    /\ db (snd (UpsellsCollections.loader platform req w)) = db w
    /\ db (snd (Shipping.loader (qShop req) w)) = db w.
Proof.
  intros platform req w. split; [|split].
  - apply upsells_read_only.
  - apply collections_read_only.
  - apply shipping_read_only.
Qed.

(** X9. A request the widget sends never gets the 400 of a missing shop:
    [fetchUpsells] asks only with a shop domain and a non-empty cart, the
    loader answers with status 200 or 500, and for product ids that are
    not empty, without comma and without white space at either end, it
    matches against exactly the ids of the cart. *)
Theorem X9_widget_request_is_served :
  forall (shopDomain : string) (productIds : list string)
         (cartToken : option string) (req : UpsellsRequest) (w : World),
    Widget.upsellsQuery shopDomain productIds cartToken = Some req ->
    productIds <> []
    /\ qShop req = Some shopDomain /\ shopDomain <> ""
    /\ (status (fst (Upsells.loader req w)) = 200
        \/ status (fst (Upsells.loader req w)) = 500)
    /\ (Forall Props.plainId productIds ->
        Matcher.parseCart (Js.orDefault (qProducts req) "") = productIds).
Proof.
  intros shopDomain ids token req w. unfold Widget.upsellsQuery.
  destruct ids as [|id ids]; [discriminate|].
  remember (String.concat "," (id :: ids)) as joined eqn:Hj.
  change (Nat.eqb (List.length (id :: ids)) 0) with false. cbn [orb].
  destruct (shopDomain =? "") eqn:E; [discriminate|].
  intros H. injection H as Hreq. subst req. cbn [qShop qProducts].
  split; [discriminate|]. split; [reflexivity|].
  split; [now apply String.eqb_neq|]. split.
  - match goal with
    | |- context [Upsells.loader ?r w] =>
        destruct (upsells_shape (fun _ => []) r w Upsells.loader
                    (or_introl eq_refl)) as [[o Ho] | Ho]
    end.
    + simpl. now rewrite E.
    + left. now rewrite Ho.
    + right. now rewrite Ho.
  - intros Hplain. pose proof (parseCart_concat (id :: ids) Hplain) as P.
    rewrite <- Hj in P. unfold Js.orDefault.
    destruct (joined =? "") eqn:Ec; [|exact P].
    apply String.eqb_eq in Ec. rewrite Ec in P. discriminate P.
Qed.

Lemma X9_witness :
  Matcher.parseCart "101,303" = ["101"; "303"].
Proof.
  refine (proj2 (proj2 (proj2 (proj2
            (X9_widget_request_is_served "demo.myshopify.com" ["101"; "303"]
               None _ sampleWorld eq_refl)))) _).
  repeat (apply Forall_cons;
          [apply plain_sample; [discriminate | reflexivity | reflexivity]|]).
  apply Forall_nil.
Defined.

(** ** Analytics ingestion, further *)

Ltac step_request :=
  match goal with
  | |- context [match faults ?w with _ => _ end] =>
      let fs := fresh "fs" in destruct (faults w) as [|[|] fs]
  | |- context [match ?l with [] => _ | _ :: _ => _ end] =>
      is_var l; let fs := fresh "fs" in destruct l as [|[|] fs]
  | |- context [match find ?f ?l with _ => _ end] =>
      let E := fresh "E" in destruct (find f l) eqn:E
  | |- context [match Track.eventTypeOf ?s with _ => _ end] =>
      let E := fresh "Ety" in destruct (Track.eventTypeOf s) as [[|]|] eqn:E
  | |- context [match Store.toColumn ?c ?p with _ => _ end] =>
      let E := fresh "Ecol" in destruct (Store.toColumn c p) eqn:E
  | |- context [if ?c then _ else _] =>
      let E := fresh "E" in destruct c eqn:E
  end;
  cbn -[Store.toColumn Track.priceToStore].

Section IngestionInvariants.

Variable parseFloat : Js.value -> float.
Variable decimal : float -> option float.

(** A tracked IMPRESSION with a session was preceded by a look-up that
  found no row for the rule and the session. *)
Lemma tracked_impression_fresh (method : string) (req : TrackRequest) (w : World) :
fst (Track.action parseFloat decimal method (Some req) w) = Track.tracked ->
Track.eventTypeOf (Js.orDefault (tEventType req) "") = Some IMPRESSION ->
Js.truthy (tSessionId req) = true ->
find (Store.isImpressionOf (Js.orDefault (tRuleId req) "")
                           (Js.orDefault (tSessionId req) ""))
     (events (db w)) = None.
Proof.
unfold Track.action, Track.record, tryCatch, bind, ret, Track.throw,
  Store.findShop, Store.findRule, Store.findImpression, Store.createEvent,
  query, call.
destruct (negb (method =? "POST")); simpl; [discriminate|].
intros H Hty Hs. rewrite Hty, Hs in H. simpl in H. revert H.
repeat step_request; try discriminate; intros _;
  first [assumption | reflexivity].
Qed.

Lemma impressionKeys_app (es : list AnalyticsEvent) (row : AnalyticsEvent) :
Props.impressionKeys (es ++ [row])
= Props.impressionKeys es ++ Props.impressionKeys [row].
Proof.
induction es as [|e es IH]; [reflexivity|].
simpl. destruct (eventType e); [destruct (sessionId e)|]; simpl;
  now rewrite IH.
Qed.

Lemma impressionKeys_In (es : list AnalyticsEvent) (rid sid : string) :
In (rid, sid) (Props.impressionKeys es) ->
find (Store.isImpressionOf rid sid) es <> None.
Proof.
induction es as [|e es IH]; simpl; [tauto|].
unfold Store.isImpressionOf at 1.
destruct (eventType e) eqn:Ety; [destruct (sessionId e) as [s|] eqn:Es|]; simpl.
- intros [H | H].
  + inversion H; subst. rewrite !String.eqb_refl. simpl. discriminate.
  + destruct ((evRuleId e =? rid) && true && (s =? sid)); [discriminate | auto].
- intros H. rewrite andb_false_r. auto.
- intros H. rewrite andb_false_r. simpl. auto.
Qed.

Lemma action_keeps_one_impression (method : string) (b : option TrackRequest)
    (w : World) :
NoDup (Props.impressionKeys (events (db w))) ->
NoDup (Props.impressionKeys
         (events (db (snd (Track.action parseFloat decimal method b w))))).
Proof.
intros Hnd.
destruct (action_effect parseFloat decimal method b w)
  as [[Ht (req & ty & s & kept & Hb & Hty & Hcol & Hdb)] | [_ Hdb]];
  [|now rewrite Hdb].
subst b. rewrite Hdb. unfold Spec.appended. simpl events.
rewrite impressionKeys_app. simpl.
destruct ty; [|now rewrite app_nil_r].
unfold Js.orNull. destruct (Js.truthy (tSessionId req)) eqn:Hs;
  [|now rewrite app_nil_r].
destruct (tSessionId req) as [sid|] eqn:Hsid; [|discriminate].
pose proof (tracked_impression_fresh method req w Ht Hty) as Hfresh.
rewrite Hsid in Hfresh. specialize (Hfresh Hs).
simpl in Hs. apply negb_true_iff in Hs. simpl in Hfresh. rewrite Hs in Hfresh.
apply NoDup_rev in Hnd. rewrite <- (rev_involutive (_ ++ _)).
apply NoDup_rev. rewrite rev_app_distr. simpl. constructor; [|exact Hnd].
rewrite <- in_rev. intros Hin. now apply impressionKeys_In in Hin.
Qed.

(** X10. At most one IMPRESSION row per rule and session: if no two
  IMPRESSION rows of the store share their rule and session, the same
  holds after any sequence of requests to [POST /track], whatever the
  requests are and whichever calls fail. *)
Theorem X10_one_impression_per_session :
forall (reqs : list (string * option TrackRequest * list bool * nat)) (d : Db),
  NoDup (Props.impressionKeys (events d)) ->
  NoDup (Props.impressionKeys
           (events (snd (Track.serve parseFloat decimal reqs d)))).
Proof.
induction reqs as [|[[[method b] fs] t] reqs IH]; intros d H; simpl; [exact H|].
pose proof (action_keeps_one_impression method b (mkWorld d fs t) H) as H1.
destruct (Track.action parseFloat decimal method b (mkWorld d fs t)) as [r w].
specialize (IH (db w) H1).
destruct (Track.serve parseFloat decimal reqs (db w)) as [rs d']. exact IH.
Qed.

(** X11. A request to [POST /track] never changes the shops or the rules,
  and it changes the events only by adding one row at the end, which it
  does exactly when it answers [{success: true, tracked: true}]. *)
Theorem X11_track_writes_one_row_when_tracked :
forall (method : string) (b : option TrackRequest) (w : World),
  let resp := fst (Track.action parseFloat decimal method b w) in
  let d' := db (snd (Track.action parseFloat decimal method b w)) in
  shops d' = shops (db w)
  /\ rules d' = rules (db w)
  /\ (resp = mkResponse 200 (TrackedBody true true None) ->
      exists row, events d' = events (db w) ++ [row])
  /\ (resp <> mkResponse 200 (TrackedBody true true None) ->
      events d' = events (db w)).
Proof.
intros method b w. cbv zeta.
destruct (action_effect parseFloat decimal method b w)
  as [[Ht (req & ty & s & kept & Hb & Hty & Hcol & Hdb)] | [Hn Hdb]]; rewrite Hdb.
- repeat split; try reflexivity.
  + intros _. eexists. reflexivity.
  + intros H. contradiction.
- repeat split; try reflexivity. intros H. contradiction.
Qed.

Lemma trackedAnswers_one (r : Response) :
Props.trackedAnswers [r] = if Nat.eqb (status r) 200
                           then match body r with
                                | TrackedBody true true None => 1
                                | _ => 0
                                end
                           else 0.
Proof.
destruct r as [st [e|o|[|] [|] [x|]|a b c]]; simpl;
  destruct (Nat.eqb st 200); reflexivity.
Qed.

Lemma action_row_count (method : string) (b : option TrackRequest) (w : World) :
exists rows,
  db (snd (Track.action parseFloat decimal method b w))
  = mkDb (shops (db w)) (rules (db w)) (events (db w) ++ rows)
  /\ List.length rows
     = Props.trackedAnswers [fst (Track.action parseFloat decimal method b w)].
Proof.
destruct (action_effect parseFloat decimal method b w)
  as [[Ht (req & ty & s & kept & Hb & Hty & Hcol & Hdb)] | [Hn Hdb]].
- eexists. split; [exact Hdb|]. rewrite Ht. reflexivity.
- exists []. split.
  + rewrite Hdb, app_nil_r. destruct (db w); reflexivity.
  + rewrite trackedAnswers_one.
    destruct (fst (Track.action parseFloat decimal method b w))
      as [st [e|o|[|] [|] [x|]|a c e]]; simpl;
      try (destruct (Nat.eqb st 200); reflexivity).
    destruct (Nat.eqb_spec st 200); [|reflexivity].
    subst. exfalso. apply Hn. reflexivity.
Qed.

Lemma trackedAnswers_cons (r : Response) (rs : list Response) :
Props.trackedAnswers (r :: rs)
= Props.trackedAnswers [r] + Props.trackedAnswers rs.
Proof.
simpl. destruct (body r) as [e|o|[|] [|] [x|]|a b c]; simpl; lia.
Qed.

(** X12. The event table is append-only under [POST /track]: after any
  sequence of requests the rows that were there are still there, in
  place, and the number of rows added is the number of requests answered
  [{success: true, tracked: true}]. *)
Theorem X12_rows_added_are_tracked_answers :
forall (reqs : list (string * option TrackRequest * list bool * nat)) (d : Db),
  exists rows,
    events (snd (Track.serve parseFloat decimal reqs d)) = events d ++ rows
    /\ List.length rows
       = Props.trackedAnswers (fst (Track.serve parseFloat decimal reqs d)).
Proof.
induction reqs as [|[[[method b] fs] t] reqs IH]; intros d; simpl.
- exists []. now rewrite app_nil_r.
- destruct (action_row_count method b (mkWorld d fs t)) as (rows1 & H1 & L1).
  destruct (Track.action parseFloat decimal method b (mkWorld d fs t)) as [r w].
  simpl in H1, L1. destruct (IH (db w)) as (rows2 & H2 & L2).
  destruct (Track.serve parseFloat decimal reqs (db w)) as [rs d'].
  simpl in *. exists (rows1 ++ rows2). split.
  + rewrite H2, H1. simpl. now rewrite app_assoc.
  + rewrite length_app, L1, L2.
    destruct (body r) as [e|o|[|] [|] [x|]|a c e]; simpl; lia.
Qed.

Lemma track_foreign_rule (d : Db) (t : nat) (b : TrackRequest)
    (name domain rid : string) (ty : EventType) (shopRecord : Shop) :
tEventType b = Some name -> Track.eventTypeOf name = Some ty ->
tRuleId b = Some rid -> rid <> "" ->
tShopDomain b = Some domain -> domain <> "" ->
find (fun s => shopifyDomain s =? domain) (shops d) = Some shopRecord ->
(forall r, In r (rules d) -> ruleId r = rid ->
           ruleShopId r <> shopId shopRecord) ->
Track.action parseFloat decimal "POST" (Some b) (mkWorld d [] t)
= (mkResponse 404 (ErrorBody "Rule not found"), mkWorld d [] t).
Proof.
intros He Hty Hr Hrn Hd Hdn Hs Hforeign.
apply String.eqb_neq in Hrn, Hdn.
assert (Hnn : (name =? "") = false).
{ destruct (name =? "") eqn:E; [|reflexivity].
  apply String.eqb_eq in E. subst. discriminate. }
assert (Hnone : find (fun r => (ruleId r =? rid)
                               && (ruleShopId r =? shopId shopRecord))
                     (rules d) = None).
{ destruct (find _ (rules d)) as [r|] eqn:E; [|reflexivity].
  apply find_some in E as [Hin E]. apply andb_prop in E as [E1 E2].
  apply String.eqb_eq in E1, E2. exfalso. exact (Hforeign r Hin E1 E2). }
unfold Track.action. simpl. unfold tryCatch.
rewrite He, Hr, Hd. simpl. rewrite Hnn, Hrn, Hdn. simpl. rewrite Hty.
unfold bind at 1, Store.findShop, query, call. simpl. rewrite Hs.
unfold bind at 1, Store.findRule, query, call. simpl. rewrite Hnone.
reflexivity.
Qed.

(** X13. A rule of another shop is not found: when the shop of the request
  owns no rule with the given id, [POST /track] answers 404
  [{error: "Rule not found"}] for either event type and writes nothing,
  even if the id is the id of a rule of a different shop. *)
Theorem X13_rule_of_another_shop_is_not_found :
forall (d : Db) (t : nat) (b : TrackRequest) (name domain rid : string)
       (ty : EventType) (shopRecord : Shop),
  tEventType b = Some name -> Track.eventTypeOf name = Some ty ->
  tRuleId b = Some rid -> rid <> "" ->
  tShopDomain b = Some domain -> domain <> "" ->
  find (fun s => shopifyDomain s =? domain) (shops d) = Some shopRecord ->
  (forall r, In r (rules d) -> ruleId r = rid ->
             ruleShopId r <> shopId shopRecord) ->
  Track.action parseFloat decimal "POST" (Some b) (mkWorld d [] t)
  = (mkResponse 404 (ErrorBody "Rule not found"), mkWorld d [] t).
Proof. exact track_foreign_rule. Qed.

End IngestionInvariants.

Lemma X10_witness :
  NoDup (Props.impressionKeys
           (events (snd (Track.serve sampleParseFloat sampleDecimal
                           [("POST",
                             Some (Spec.impression "demo.myshopify.com" "rule-a"
                                                   "s1" None Js.Null),
                             [], 0);
                            ("POST",
                             Some (Spec.impression "demo.myshopify.com" "rule-a"
                                                   "s1" None Js.Null),
                             [], 1)]
                           sampleDb)))).
Proof.
  apply (X10_one_impression_per_session sampleParseFloat sampleDecimal).
  constructor.
Defined.

Lemma X11_witness :
  exists row,
    events (db (snd (Track.action sampleParseFloat sampleDecimal "POST"
                       (Some (Spec.conversion "demo.myshopify.com" "rule-a"
                                              None None (Js.Number 1500)))
                       sampleWorld)))
    = events (db sampleWorld) ++ [row].
Proof.
  apply (proj1 (proj2 (proj2
           (X11_track_writes_one_row_when_tracked sampleParseFloat
              sampleDecimal "POST"
              (Some (Spec.conversion "demo.myshopify.com" "rule-a"
                                     None None (Js.Number 1500)))
              sampleWorld)))).
  reflexivity.
Defined.

Lemma X13_witness :
  Track.action sampleParseFloat sampleDecimal "POST"
    (Some (Spec.impression "other.myshopify.com" "rule-a" "s1" None Js.Null))
    (mkWorld twoShopsDb [] 0)
  = (mkResponse 404 (ErrorBody "Rule not found"), mkWorld twoShopsDb [] 0).
Proof.
  apply (X13_rule_of_another_shop_is_not_found sampleParseFloat
           sampleDecimal twoShopsDb 0
           (Spec.impression "other.myshopify.com" "rule-a" "s1" None Js.Null)
           "IMPRESSION" "other.myshopify.com" "rule-a" IMPRESSION otherShop);
    try reflexivity; try discriminate.
  intros r [<- | [<- | []]] H; simpl; discriminate.
Defined.

Section IngestionAndRollup.

Variable parseFloat : Js.value -> float.
Variable decimal : float -> option float.

Lemma track_anonymous (d : Db) (t : nat) (domain rid : string)
    (cart session : option string) (price : Js.value) :
rid <> "" -> domain <> "" -> Spec.knownRule d domain rid ->
Js.truthy session = false ->
exists shopRecord,
  find (fun s => shopifyDomain s =? domain) (shops d) = Some shopRecord
  /\ Track.action parseFloat decimal "POST"
       (Some (Props.anonymousImpression domain rid cart session price))
       (mkWorld d [] t)
     = (Track.tracked,
        mkWorld (mkDb (shops d) (rules d)
                      (events d
                       ++ [mkEvent (List.length (events d)) (shopId shopRecord)
                                   rid IMPRESSION (Js.orNull cart) None
                                   None t]))
                [] t).
Proof.
intros Hr Hd Hk Hs.
destruct (action_known parseFloat decimal d t
            (Props.anonymousImpression domain rid cart session price)
            "IMPRESSION" domain rid IMPRESSION
            eq_refl eq_refl eq_refl Hr eq_refl Hd Hk) as (shopRecord & Hf & ->).
exists shopRecord. split; [exact Hf|].
assert (Hn : Js.orNull session = None) by (unfold Js.orNull; now rewrite Hs).
unfold Track.record, tryCatch, bind, ret, Store.createEvent, call.
simpl. rewrite Hs, Hn. reflexivity.
Qed.

(** X14. Impressions without a session are not de-duplicated: the same
  IMPRESSION request with an absent or empty session id, sent any number
  of times for a known rule, is tracked every time and adds a row with a
  null session every time. *)
Theorem X14_anonymous_impressions_all_tracked :
forall (domain rid : string) (cart session : option string)
       (price : Js.value) (times : list nat) (d : Db),
  rid <> "" -> domain <> "" -> Spec.knownRule d domain rid ->
  Js.truthy session = false ->
  let run := Track.serve parseFloat decimal
               (Props.anonymousImpressions domain rid cart session price times)
               d in
  fst run = repeat (mkResponse 200 (TrackedBody true true None))
                   (List.length times)
  /\ exists rows,
       events (snd run) = events d ++ rows
       /\ List.length rows = List.length times
       /\ Forall (fun row =>
                    eventType row = IMPRESSION /\ evRuleId row = rid
                    /\ sessionId row = None /\ productPrice row = None) rows.
Proof.
intros domain rid cart session price times d Hr Hd Hk Hs. cbv zeta.
revert d Hk. induction times as [|t times IH]; intros d Hk; simpl.
- split; [reflexivity|]. exists []. rewrite app_nil_r. repeat split. constructor.
- destruct (track_anonymous d t domain rid cart session price Hr Hd Hk Hs)
    as (shopRecord & _ & ->).
  match goal with
  | |- context [Track.serve _ _ _ (db (mkWorld ?d1 _ _))] =>
      destruct (IH d1 Hk) as [Hresp (rows & Hdb & Hlen & Hall)]
  end.
  simpl in *.
  destruct (Track.serve parseFloat decimal
              (Props.anonymousImpressions domain rid cart session price times) _)
    as [rs d'].
  simpl in *. split; [now rewrite Hresp|].
  eexists (_ :: rows). split; [|split].
  + rewrite Hdb, <- app_assoc. reflexivity.
  + simpl. now rewrite Hlen.
  + constructor; [repeat split | exact Hall].
Qed.

Lemma summary_after_row (d : Db) (domain : string) (shopRecord : Shop)
    (row : AnalyticsEvent) :
find (fun s => shopifyDomain s =? domain) (shops d) = Some shopRecord ->
evShopId row = shopId shopRecord ->
let s := Analytics.summaryFor domain d in
let s' := Analytics.summaryFor domain
            (mkDb (shops d) (rules d) (events d ++ [row])) in
match eventType row with
| IMPRESSION =>
    totalImpressions s' = totalImpressions s + 1
    /\ totalConversions s' = totalConversions s
    /\ totalRevenue s' = totalRevenue s
| CONVERSION =>
    totalImpressions s' = totalImpressions s
    /\ totalConversions s' = totalConversions s + 1
    /\ totalRevenue s'
       = (totalRevenue s + Analytics.priceNumber row)%float
end.
Proof.
intros Hf Hrow. unfold Analytics.summaryFor. simpl. rewrite Hf.
rewrite filter_app. simpl. rewrite Hrow, String.eqb_refl.
unfold Analytics.computeSummary. cbv zeta. simpl.
rewrite !filter_app. simpl.
destruct (eventType row); simpl; rewrite ?app_nil_r, ?length_app; simpl.
- repeat split.
- rewrite fold_left_app. simpl. repeat split.
Qed.

(** X15. What is tracked shows in the shop's analytics summary: a tracked
  conversion raises the conversions of the shop by one and its revenue by
  the price as the DECIMAL(10,2) column keeps it (by 0 when no price is
  given); a conversion whose price the column refuses changes nothing; a
  first impression of a session raises the impressions by one; neither
  changes the other count. *)
Theorem X15_tracked_events_reach_the_summary :
forall (d : Db) (t : nat) (domain rid sid : string)
       (cart session : option string) (price : Js.value),
  rid <> "" -> domain <> "" -> Spec.knownRule d domain rid ->
  let s := Analytics.summaryFor domain d in
  let converted :=
    Analytics.summaryFor domain
      (db (snd (Track.action parseFloat decimal "POST"
                  (Some (Spec.conversion domain rid cart session price))
                  (mkWorld d [] t)))) in
  (forall kept,
     Spec.givenPrice price = true -> decimal (parseFloat price) = Some kept ->
     totalConversions converted = totalConversions s + 1
     /\ totalImpressions converted = totalImpressions s
     /\ totalRevenue converted = (totalRevenue s + kept)%float)
  /\ (Spec.givenPrice price = false ->
      totalConversions converted = totalConversions s + 1
      /\ totalImpressions converted = totalImpressions s
      /\ totalRevenue converted = (totalRevenue s + 0)%float)
  /\ (Spec.givenPrice price = true -> decimal (parseFloat price) = None ->
      converted = s)
  /\ (sid <> "" -> ~ Spec.hasImpression d rid sid ->
      let d' := db (snd (Track.action parseFloat decimal "POST"
                           (Some (Spec.impression domain rid sid cart price))
                           (mkWorld d [] t))) in
      let s' := Analytics.summaryFor domain d' in
      totalImpressions s' = totalImpressions s + 1
      /\ totalConversions s' = totalConversions s
      /\ totalRevenue s' = totalRevenue s).
Proof.
intros d t domain rid sid cart session price Hr Hd Hk. cbv zeta.
assert (Hrow : forall kept,
           Store.toColumn decimal
             (Track.priceToStore parseFloat CONVERSION price) = Some kept ->
           let converted :=
             Analytics.summaryFor domain
               (db (snd (Track.action parseFloat decimal "POST"
                           (Some (Spec.conversion domain rid cart session price))
                           (mkWorld d [] t)))) in
           totalConversions converted
           = totalConversions (Analytics.summaryFor domain d) + 1
           /\ totalImpressions converted
              = totalImpressions (Analytics.summaryFor domain d)
           /\ totalRevenue converted
              = (totalRevenue (Analytics.summaryFor domain d)
                 + match kept with
                   | Some v => v
                   | None => 0
                   end)%float).
{ intros kept Hcol. cbv zeta.
  destruct (track_conversion parseFloat decimal d t domain rid cart session
              price kept Hr Hd Hk Hcol) as (shopRecord & Hf & ->).
  simpl snd. simpl db.
  pose proof (summary_after_row d domain shopRecord
                (mkEvent (List.length (events d)) (shopId shopRecord) rid
                   CONVERSION (Js.orNull cart) (Js.orNull session) kept t)
                Hf eq_refl) as H.
  simpl in H. destruct H as (H1 & H2 & H3). rewrite H1, H2, H3.
  repeat split. }
split; [|split; [|split]].
- intros kept Hg Hdec. apply (Hrow (Some kept)).
  now rewrite toColumn_cases, Hg, Hdec.
- intros Hg. apply (Hrow None). now rewrite toColumn_cases, Hg.
- intros Hg Hdec.
  rewrite track_conversion_refused; auto.
  now rewrite toColumn_cases, Hg, Hdec.
- intros Hs Hnew.
  destruct (track_impression_new parseFloat decimal d t domain rid sid cart price
              Hr Hd Hs Hk Hnew) as (shopRecord & Hf & ->).
  simpl snd. simpl db.
  exact (summary_after_row d domain shopRecord
           (mkEvent (List.length (events d)) (shopId shopRecord) rid
              IMPRESSION (Js.orNull cart) (Some sid) None t) Hf eq_refl).
Qed.

End IngestionAndRollup.

Lemma X14_witness :
  fst (Track.serve sampleParseFloat sampleDecimal
         (Props.anonymousImpressions "demo.myshopify.com" "rule-a" None (Some "")
                                     Js.Null [0; 1; 2])
         sampleDb)
  = repeat (mkResponse 200 (TrackedBody true true None)) 3.
Proof.
  assert (Hr : "rule-a" <> "") by discriminate.
  assert (Hd : "demo.myshopify.com" <> "") by discriminate.
  exact (proj1 (X14_anonymous_impressions_all_tracked sampleParseFloat
                  sampleDecimal
                  "demo.myshopify.com" "rule-a" None (Some "") Js.Null [0; 1; 2]
                  sampleDb Hr Hd sample_knownRule eq_refl)).
Defined.

Lemma X15_witness :
  totalRevenue
    (Analytics.summaryFor "demo.myshopify.com"
       (db (snd (Track.action sampleParseFloat sampleDecimal "POST"
                   (Some (Spec.conversion "demo.myshopify.com" "rule-a" None None
                                          (Js.Number 1500)))
                   (mkWorld sampleDb [] 0)))))
  = (totalRevenue (Analytics.summaryFor "demo.myshopify.com" sampleDb)
     + 1500)%float.
Proof.
  assert (Hr : "rule-a" <> "") by discriminate.
  assert (Hd : "demo.myshopify.com" <> "") by discriminate.
  exact (proj2 (proj2 (proj1 (X15_tracked_events_reach_the_summary
                                sampleParseFloat sampleDecimal
                                sampleDb 0 "demo.myshopify.com" "rule-a" "s1"
                                None None (Js.Number 1500) Hr Hd
                                sample_knownRule)
                         1500%float eq_refl eq_refl))).
Defined.

(** ** Analytics rollup, further *)

(** X16. The summary counts every event exactly once: impressions and
    conversions add up to the number of events read. *)
Theorem X16_summary_counts_every_event :
  forall es : list AnalyticsEvent,
    totalImpressions (Analytics.computeSummary es)
    + totalConversions (Analytics.computeSummary es)
    = List.length es.
Proof.
  intros es. unfold Analytics.computeSummary. simpl.
  induction es as [|e es IH]; simpl; [reflexivity|].
  destruct (eventType e); simpl; lia.
Qed.

Section PerRule.

Lemma unique_loop (ids seen : list string) :
NoDup seen ->
let result :=
  fold_left (fun seen id => if Js.includes seen id then seen else seen ++ [id])
            ids seen in
NoDup result /\ (forall x, In x result <-> In x seen \/ In x ids).
Proof.
revert seen. induction ids as [|id ids IH]; intros seen Hnd; simpl.
- split; [exact Hnd | tauto].
- destruct (Js.includes seen id) eqn:E.
  + destruct (IH seen Hnd) as [H1 H2]. split; [exact H1|].
    intros x. rewrite H2. apply includes_In in E.
    split; [tauto|]. intros [H | [<- | H]]; auto.
  + assert (Hnot : ~ In id seen).
    { intros Hin. apply includes_In in Hin. congruence. }
    assert (Hnd' : NoDup (seen ++ [id])).
    { apply NoDup_rev in Hnd. rewrite <- (rev_involutive (_ ++ _)).
      apply NoDup_rev. rewrite rev_app_distr. simpl.
      constructor; [now rewrite <- in_rev | exact Hnd]. }
    destruct (IH _ Hnd') as [H1 H2]. split; [exact H1|].
    intros x. rewrite H2, in_app_iff. simpl. tauto.
Qed.

Lemma unique_spec (ids : list string) :
NoDup (AnalyticsRules.unique ids)
/\ (forall x, In x (AnalyticsRules.unique ids) <-> In x ids).
Proof.
destruct (unique_loop ids [] (NoDup_nil _)) as [H1 H2].
split; [exact H1|]. intros x. rewrite (H2 x). simpl. tauto.
Qed.

Lemma indicator_sum (x : string) (ids : list string) :
NoDup ids -> In x ids ->
list_sum (map (fun id => if x =? id then 1 else 0) ids) = 1.
Proof.
induction 1 as [|id ids Hnot Hnd IH]; simpl; [tauto|].
intros [-> | Hin].
- rewrite String.eqb_refl.
  assert (Z : list_sum (map (fun id => if x =? id then 1 else 0) ids) = 0).
  { clear IH Hnd. induction ids as [|y ids IHz]; [reflexivity|]. simpl.
    destruct (String.eqb_spec x y) as [-> | _].
    - exfalso. apply Hnot. now left.
    - apply IHz. intros H. apply Hnot. now right. }
  now rewrite Z.
- destruct (String.eqb_spec x id) as [-> | _]; [contradiction|].
  now apply IH.
Qed.

Lemma list_sum_add (f g : string -> nat) (ids : list string) :
list_sum (map (fun id => f id + g id) ids)
= list_sum (map f ids) + list_sum (map g ids).
Proof. induction ids as [|id ids IH]; simpl; [reflexivity | lia]. Qed.

Lemma list_sum_zero (ids : list string) :
list_sum (map (fun _ : string => 0) ids) = 0.
Proof. induction ids as [|id ids IH]; simpl; [reflexivity | exact IH]. Qed.

(** Counting per rule and adding up is counting. *)
Lemma counts_partition (ty : EventType) (ids : list string)
    (es : list AnalyticsEvent) :
NoDup ids -> (forall e, In e es -> In (evRuleId e) ids) ->
list_sum (map (fun id => List.length (filter (AnalyticsRules.ofRule id ty) es))
              ids)
= Spec.countType ty es.
Proof.
intros Hnd. induction es as [|e es IH]; intros Hcov; simpl.
- apply list_sum_zero.
- rewrite <- IH by (intros x Hx; apply Hcov; now right).
  assert (Hin : In (evRuleId e) ids) by (apply Hcov; now left).
  rewrite <- (map_ext
                (fun id => (if evRuleId e =? id
                            then if EventType_eqb (eventType e) ty then 1 else 0
                            else 0)
                           + List.length
                               (filter (AnalyticsRules.ofRule id ty) es))).
  + rewrite list_sum_add. f_equal.
    destruct (EventType_eqb (eventType e) ty).
    * now apply indicator_sum.
    * rewrite <- (map_ext (fun _ => 0)); [apply list_sum_zero|].
      intros id. now destruct (evRuleId e =? id).
  + intros id. unfold AnalyticsRules.ofRule at 2.
    destruct (evRuleId e =? id); simpl;
      [destruct (EventType_eqb (eventType e) ty)|]; reflexivity.
Qed.

Lemma performanceOf_found (d : Db) (es : list AnalyticsEvent) (id : string) :
(exists r, In r (rules d) /\ ruleId r = id) ->
exists row,
  AnalyticsRules.performanceOf d es id = Some row
  /\ rpRuleId row = id
  /\ rpImpressions row
     = List.length (filter (AnalyticsRules.ofRule id IMPRESSION) es)
  /\ rpConversions row
     = List.length (filter (AnalyticsRules.ofRule id CONVERSION) es).
Proof.
intros (r & Hr & Hid). unfold AnalyticsRules.performanceOf.
destruct (find (fun r => ruleId r =? id) (rules d)) as [rule|] eqn:E.
- apply find_some in E as [_ E]. apply String.eqb_eq in E.
  eexists. split; [reflexivity|]. simpl. auto.
- pose proof (find_none _ _ E r Hr) as F. simpl in F.
  rewrite Hid, String.eqb_refl in F. discriminate.
Qed.

Lemma performance_rows (d : Db) (es : list AnalyticsEvent) (ids : list string) :
(forall id, In id ids -> exists r, In r (rules d) /\ ruleId r = id) ->
let rows := AnalyticsRules.somes (map (AnalyticsRules.performanceOf d es) ids) in
map rpRuleId rows = ids
/\ map rpImpressions rows
   = map (fun id => List.length (filter (AnalyticsRules.ofRule id IMPRESSION) es))
         ids
/\ map rpConversions rows
   = map (fun id => List.length (filter (AnalyticsRules.ofRule id CONVERSION) es))
         ids.
Proof.
induction ids as [|id ids IH]; intros Hall; [repeat split|].
destruct IH as (I1 & I2 & I3); [intros x Hx; apply Hall; now right|].
destruct (performanceOf_found d es id (Hall id (or_introl eq_refl)))
  as (row & E & F1 & F2 & F3).
cbn [map]. rewrite E. cbn [AnalyticsRules.somes map].
rewrite I1, I2, I3, F1, F2, F3. repeat split.
Qed.

(** X17. The per-rule table splits the summary: when the rule of every
  event is in the store (the foreign key of the event table), the table
  has one row per rule with events, in order of first appearance, and
  the impressions of its rows add up to the total impressions, the
  conversions to the total conversions. *)
Theorem X17_per_rule_counts_add_up :
forall (d : Db) (es : list AnalyticsEvent),
  (forall e, In e es -> exists r, In r (rules d) /\ ruleId r = evRuleId e) ->
  let rows := AnalyticsRules.rulePerformance d es in
  map rpRuleId rows = AnalyticsRules.unique (map evRuleId es)
  /\ NoDup (map rpRuleId rows)
  /\ list_sum (map rpImpressions rows)
     = totalImpressions (Analytics.computeSummary es)
  /\ list_sum (map rpConversions rows)
     = totalConversions (Analytics.computeSummary es).
Proof.
intros d es Hfk rows. unfold rows, AnalyticsRules.rulePerformance.
destruct (unique_spec (map evRuleId es)) as [Hnd Hin].
assert (Hall : forall id, In id (AnalyticsRules.unique (map evRuleId es)) ->
                          exists r, In r (rules d) /\ ruleId r = id).
{ intros id H. apply Hin in H. apply in_map_iff in H as (e & <- & He).
  now apply Hfk. }
destruct (performance_rows d es _ Hall) as (R1 & R2 & R3).
assert (Hcov : forall e, In e es ->
                         In (evRuleId e) (AnalyticsRules.unique (map evRuleId es))).
{ intros e He. apply Hin. now apply in_map. }
split; [exact R1|]. split; [now rewrite R1|].
unfold Analytics.computeSummary. simpl.
rewrite R2, R3, !length_filter_type.
split; now apply counts_partition.
Qed.

End PerRule.

Lemma X17_witness :
  list_sum (map rpImpressions
                (AnalyticsRules.rulePerformance sampleDb tenImpressionsTwoConversions))
  = totalImpressions (Analytics.computeSummary tenImpressionsTwoConversions).
Proof.
  refine (proj1 (proj2 (proj2
            (X17_per_rule_counts_add_up sampleDb tenImpressionsTwoConversions _)))).
  intros e He. exists ruleA. split; [now left|].
  simpl in He. repeat (destruct He as [<- | He]; [reflexivity|]). destruct He.
Defined.

(** ** Rule creation *)

Ltac creation_simpl :=
  cbn -[RulesNew.findShopWithRules RuleCreate.validate RuleCreate.anyError
        RuleCreate.triggerTypeOf Js.orDefault Js.trim].

Section RuleCreation.

Variable upsellSnapshot : string -> Outcome (option ProductData).
Variable newRuleId : Db -> string.

Lemma anyError_false (e : RuleErrors) :
RuleCreate.anyError e = false -> e = noErrors.
Proof.
unfold noErrors.
destruct e as [[a|] [b|] [c|] [d|] [f|] [g|]]; simpl; congruence.
Qed.

(** What a form that passes the checks looks like. *)
Lemma validate_passes (shopRecord : Shop) (rules : list Rule) (form : RuleForm) :
RuleCreate.validate shopRecord rules form = noErrors ->
Js.trim (Js.orDefault (fName form) "") <> ""
/\ Js.truthy (fTriggerType form) = true
/\ (RuleCreate.isType (fTriggerType form) "PRODUCT" = true ->
    Js.truthy (fTriggerProductId form) = true
    /\ fTriggerProductId form <> fUpsellProductId form)
/\ (RuleCreate.isType (fTriggerType form) "COLLECTION" = true ->
    Js.truthy (fTriggerCollectionId form) = true)
/\ Js.truthy (fUpsellProductId form) = true
/\ (currentPlan shopRecord = FREE -> 1 <= List.length rules ->
    RuleCreate.submittedEnabled form = false).
Proof.
unfold RuleCreate.validate, noErrors. intros H.
pose proof (f_equal errName H) as H1.
pose proof (f_equal errTriggerType H) as H2.
pose proof (f_equal errTriggerProductId H) as H3.
pose proof (f_equal errTriggerCollectionId H) as H4.
pose proof (f_equal errUpsellProductId H) as H5.
pose proof (f_equal errPlan H) as H6.
cbv zeta in *.
cbn [errName errTriggerType errTriggerProductId errTriggerCollectionId
     errUpsellProductId errPlan] in *. clear H.
split; [|split; [|split; [|split; [|split]]]].
- destruct (negb (Js.truthy (fName form))); [discriminate|]. simpl in H1.
  destruct (Js.trim (Js.orDefault (fName form) "")); [discriminate|].
  discriminate.
- destruct (Js.truthy (fTriggerType form)); [reflexivity | discriminate].
- intros Hp. rewrite Hp in H3, H5. simpl in H3, H5. split.
  + destruct (Js.truthy (fTriggerProductId form)); [reflexivity | discriminate].
  + intros E. rewrite E in H5.
    assert (R : RuleCreate.option_eqb (fUpsellProductId form)
                                      (fUpsellProductId form) = true).
    { destruct (fUpsellProductId form) as [u|]; simpl;
        [apply String.eqb_refl | reflexivity]. }
    rewrite R in H5. discriminate.
- intros Hc. rewrite Hc in H4. simpl in H4.
  destruct (Js.truthy (fTriggerCollectionId form)); [reflexivity | discriminate].
- destruct (RuleCreate.isType (fTriggerType form) "PRODUCT"
            && RuleCreate.option_eqb (fTriggerProductId form)
                                     (fUpsellProductId form)); [discriminate|].
  destruct (Js.truthy (fUpsellProductId form)); [reflexivity | discriminate].
- intros Hfree Hlen.
  assert (L : Nat.leb 1 (List.length rules) = true) by (apply Nat.leb_le; lia).
  rewrite Hfree, L in H6. cbn [Plan_eqb andb] in H6.
  destruct (RuleCreate.submittedEnabled form); [discriminate | reflexivity].
Qed.

(** Either the rule is created, from a form that passed the checks, or the
  store stays as it was. *)
Lemma create_effect (shop : string) (form : RuleForm) (w : World) :
let run := RuleCreate.action upsellSnapshot newRuleId shop form w in
(exists shopRecord rs pd ty,
   RulesNew.findShopWithRules shop (db w) = Some (shopRecord, rs)
   /\ RuleCreate.validate shopRecord rs form = noErrors
   /\ RuleCreate.triggerTypeOf (Js.orDefault (fTriggerType form) "") = Some ty
   /\ fst run = Returned (Redirect "/app/rules")
   /\ db (snd run)
      = mkDb (shops (db w))
             (rules (db w)
              ++ [mkRule (newRuleId (db w)) (shopId shopRecord)
                         (Js.trim (Js.orDefault (fName form) ""))
                         (RuleCreate.submittedEnabled form) ty
                         (match ty with
                          | PRODUCT => fTriggerProductId form
                          | COLLECTION => None
                          end)
                         (match ty with
                          | COLLECTION => fTriggerCollectionId form
                          | PRODUCT => None
                          end)
                         (Js.orDefault (fUpsellProductId form) "") pd 0])
             (events (db w)))
\/ (fst run <> Returned (Redirect "/app/rules") /\ db (snd run) = db w).
Proof.
unfold RuleCreate.action, RuleCreate.createRule, bind, ret, query, call,
  callOrThrow. cbv zeta.
destruct (faults w) as [|[|] fs] eqn:Hf; creation_simpl;
  try (right; split; [discriminate | reflexivity]);
  (destruct (RulesNew.findShopWithRules shop (db w)) as [[shopRecord rs]|] eqn:Hs;
   creation_simpl; [|right; split; [discriminate | reflexivity]];
   destruct (RuleCreate.anyError (RuleCreate.validate shopRecord rs form)) eqn:He;
   creation_simpl; [right; split; [discriminate | reflexivity]|];
   apply anyError_false in He;
   destruct (upsellSnapshot (Js.orDefault (fUpsellProductId form) ""))
     as [pd|]; creation_simpl; [|right; split; [discriminate | reflexivity]]).
- destruct (RuleCreate.triggerTypeOf _) as [ty|] eqn:Hty; creation_simpl;
    [|right; split; [discriminate | reflexivity]].
  left. exists shopRecord, rs, pd, ty. auto.
- destruct fs as [|[|] fs']; creation_simpl;
    try (right; split; [discriminate | reflexivity]);
    (destruct (RuleCreate.triggerTypeOf _) as [ty|] eqn:Hty; creation_simpl;
     [|right; split; [discriminate | reflexivity]];
     left; exists shopRecord, rs, pd, ty; auto).
Qed.

Lemma isType_triggerTypeOf (t : option string) (ty : TriggerType) :
RuleCreate.triggerTypeOf (Js.orDefault t "") = Some ty ->
RuleCreate.isType t (match ty with
                     | PRODUCT => "PRODUCT"
                     | COLLECTION => "COLLECTION"
                     end) = true.
Proof.
unfold RuleCreate.triggerTypeOf, RuleCreate.isType, Js.orDefault.
destruct t as [s|]; [|discriminate].
destruct (s =? "") eqn:E0.
- simpl. discriminate.
- destruct (s =? "PRODUCT") eqn:E1.
  + intros H. inversion H. exact E1.
  + destruct (s =? "COLLECTION") eqn:E2; [|discriminate].
    intros H. inversion H. exact E2.
Qed.

Lemma truthy_value (s : option string) :
Js.truthy s = true -> exists v, s = Some v /\ v <> "".
Proof.
destruct s as [v|]; simpl; [|discriminate]. intros H.
exists v. split; [reflexivity|]. apply negb_true_iff in H.
now apply String.eqb_neq.
Qed.

(** X18. A rule is stored only from a form that passed every check: the
  new rule belongs to the shop of the session, has a non-empty trimmed
  name and a non-empty upsell product, and its trigger agrees with its
  type (the field of the type is set, the other is null, a PRODUCT
  trigger differs from the upsell).  Whenever the action does not
  redirect to the rule list, the store is unchanged. *)
Theorem X18_created_rule_is_well_formed :
forall (shop : string) (form : RuleForm) (w : World),
  let run := RuleCreate.action upsellSnapshot newRuleId shop form w in
  (fst run = Returned (Redirect "/app/rules") ->
   exists shopRecord r,
     find (fun s => shopifyDomain s =? shop) (shops (db w)) = Some shopRecord
     /\ db (snd run)
        = mkDb (shops (db w)) (rules (db w) ++ [r]) (events (db w))
     /\ ruleShopId r = shopId shopRecord
     /\ ruleName r <> "" /\ Props.trimmed (ruleName r)
     /\ upsellProductId r <> ""
     /\ priority r = 0%Z
     /\ Props.wellTriggered r)
  /\ (fst run <> Returned (Redirect "/app/rules") -> db (snd run) = db w).
Proof.
intros shop form w. cbv zeta.
destruct (create_effect shop form w)
  as [(shopRecord & rs & pd & ty & Hs & Hv & Hty & Hr & Hdb) | [Hn Hdb]].
- split; [|intros H; contradiction].
  intros _. apply validate_passes in Hv
    as (Hname & Htype & Hprod & Hcoll & Hups & _).
  apply isType_triggerTypeOf in Hty.
  unfold RulesNew.findShopWithRules in Hs.
  destruct (find _ (shops (db w))) as [s|] eqn:Hfind; [|discriminate].
  inversion Hs; subst s rs. exists shopRecord. eexists.
  split; [reflexivity|]. split; [exact Hdb|]. simpl.
  destruct (truthy_value _ Hups) as (u & Hu & Hune).
  assert (Hud : Js.orDefault (fUpsellProductId form) "" = u).
  { rewrite Hu. simpl. apply String.eqb_neq in Hune. now rewrite Hune. }
  split; [reflexivity|]. split; [exact Hname|].
  split; [apply trim_trimmed|]. split; [now rewrite Hud|].
  split; [reflexivity|].
  unfold Props.wellTriggered. simpl. destruct ty.
  + destruct (Hprod Hty) as [Hp Hdiff].
    destruct (truthy_value _ Hp) as (p & Hpe & Hpne).
    split; [|reflexivity]. exists p. rewrite Hud.
    split; [exact Hpe|]. split; [exact Hpne|].
    intros E. apply Hdiff. now rewrite Hpe, Hu, E.
  + destruct (truthy_value _ (Hcoll Hty)) as (c & Hce & Hcne).
    split; [|reflexivity]. exists c. auto.
- split; [intros H; contradiction | intros _; exact Hdb].
Qed.

Example name_of_no_break_space_is_refused :
errName (RuleCreate.validate sampleShop []
           (mkRuleForm (Some (Js.bytes [194; 160])) (Some "COLLECTION") None
                       (Some "gid://shopify/Collection/9")
                       (Some "gid://shopify/Product/404") None))
= Some "Rule name is required".
Proof. reflexivity. Qed.

(** X19. Creation respects the limit of the Free plan: for a shop whose
  stored plan is FREE, the number of its enabled rules after the action
  is at most one, or what it was before. *)
Theorem X19_creation_keeps_free_limit :
forall (shop : string) (form : RuleForm) (w : World) (shopRecord : Shop),
  find (fun s => shopifyDomain s =? shop) (shops (db w)) = Some shopRecord ->
  currentPlan shopRecord = FREE ->
  let d' := db (snd (RuleCreate.action upsellSnapshot newRuleId shop form w)) in
  List.length (Props.enabledOf (shopId shopRecord) d')
  <= Nat.max 1 (List.length (Props.enabledOf (shopId shopRecord) (db w))).
Proof.
intros shop form w shopRecord Hfind Hfree. cbv zeta.
destruct (create_effect shop form w)
  as [(s & rs & pd & ty & Hs & Hv & Hty & Hr & Hdb) | [Hn Hdb]];
  rewrite Hdb; [|lia].
unfold RulesNew.findShopWithRules in Hs. rewrite Hfind in Hs.
inversion Hs; subst s rs. clear Hs.
apply validate_passes in Hv as (_ & _ & _ & _ & _ & Hplan).
unfold Props.enabledOf. cbn [rules]. rewrite filter_app, length_app.
remember (List.length
            (filter (fun r => (ruleShopId r =? shopId shopRecord) && isEnabled r)
                    (rules (db w)))) as n eqn:Hn.
cbn [filter ruleShopId isEnabled]. rewrite String.eqb_refl. cbn [andb].
destruct (RuleCreate.submittedEnabled form) eqn:He; cbn [List.length]; [|lia].
destruct n as [|n]; [lia|].
assert (true = false) by (apply Hplan; [exact Hfree | lia]). discriminate.
Qed.

End RuleCreation.

Lemma X18_witness :
  exists shopRecord r,
    find (fun s => shopifyDomain s =? "demo.myshopify.com") (shops (db sampleWorld))
    = Some shopRecord
    /\ db (snd (RuleCreate.action noSnapshot nextRuleId "demo.myshopify.com"
                  sampleForm sampleWorld))
       = mkDb (shops (db sampleWorld)) (rules (db sampleWorld) ++ [r])
              (events (db sampleWorld))
    /\ ruleShopId r = shopId shopRecord
    /\ ruleName r <> "" /\ Props.trimmed (ruleName r)
    /\ upsellProductId r <> ""
    /\ priority r = 0%Z
    /\ Props.wellTriggered r.
Proof.
  apply (proj1 (X18_created_rule_is_well_formed noSnapshot nextRuleId
                  "demo.myshopify.com" sampleForm sampleWorld)).
  reflexivity.
Defined.

Lemma X19_witness :
  List.length
    (Props.enabledOf "shop-1"
       (db (snd (RuleCreate.action noSnapshot nextRuleId "demo.myshopify.com"
                   sampleForm sampleWorld))))
  <= Nat.max 1 (List.length (Props.enabledOf "shop-1" (db sampleWorld))).
Proof.
  apply (X19_creation_keeps_free_limit noSnapshot nextRuleId
           "demo.myshopify.com" sampleForm sampleWorld sampleShop);
    reflexivity.
Defined.

(** ** Rule list actions *)

Section RuleList.

Lemma action_toggle (d : Db) (t : nat) (shop rid : string) (v : option string)
    (shopRecord : Shop) :
find (fun s => shopifyDomain s =? shop) (shops d) = Some shopRecord ->
existsb (fun r => ruleId r =? rid) (rules d) = true ->
RulesIndex.action shop (Some "toggle") (Some rid) v (mkWorld d [] t)
= (Returned Success,
   mkWorld (mkDb (shops d)
                 (map (fun r => if ruleId r =? rid
                                then withEnabled
                                       (match v with
                                        | Some s => s =? "true"
                                        | None => false
                                        end) r
                                else r) (rules d))
                 (events d))
           [] t).
Proof.
intros Hs Hr. unfold RulesIndex.action, RulesIndex.setEnabled, bind, ret,
  Store.findShop, query, call, callOrThrow.
cbn -[existsb find filter map]. rewrite Hs.
cbn -[existsb find filter map]. rewrite Hr. reflexivity.
Qed.

Lemma action_delete (d : Db) (t : nat) (shop rid : string) (v : option string)
    (shopRecord : Shop) :
find (fun s => shopifyDomain s =? shop) (shops d) = Some shopRecord ->
existsb (fun r => ruleId r =? rid) (rules d) = true ->
RulesIndex.action shop (Some "delete") (Some rid) v (mkWorld d [] t)
= (Returned Success,
   mkWorld (mkDb (shops d)
                 (filter (fun r => negb (ruleId r =? rid)) (rules d))
                 (filter (fun e => negb (evRuleId e =? rid)) (events d)))
           [] t).
Proof.
intros Hs Hr. unfold RulesIndex.action, RulesIndex.deleteRule, bind, ret,
  Store.findShop, query, call, callOrThrow.
cbn -[existsb find filter map]. rewrite Hs.
cbn -[existsb find filter map]. rewrite Hr. reflexivity.
Qed.

Lemma has_rule (rs : list Rule) (r : Rule) :
In r rs -> existsb (fun x => ruleId x =? ruleId r) rs = true.
Proof.
intros H. apply existsb_exists. exists r. split; [exact H | apply String.eqb_refl].
Qed.

Lemma map_other_ids (rid : string) (f : Rule -> Rule) (rs : list Rule) :
~ In rid (map ruleId rs) ->
map (fun r => if ruleId r =? rid then f r else r) rs = rs.
Proof.
induction rs as [|x rs IH]; simpl; [reflexivity|].
intros H. destruct (String.eqb_spec (ruleId x) rid) as [E | _].
- exfalso. apply H. now left.
- rewrite IH; [reflexivity|]. intros Hin. apply H. now right.
Qed.

Lemma enabling_adds_one (sid : string) (r : Rule) (rs : list Rule) :
NoDup (map ruleId rs) -> In r rs ->
ruleShopId r = sid -> isEnabled r = false ->
List.length
  (filter (fun x => (ruleShopId x =? sid) && isEnabled x)
          (map (fun x => if ruleId x =? ruleId r then withEnabled true x else x)
               rs))
= List.length (filter (fun x => (ruleShopId x =? sid) && isEnabled x) rs) + 1.
Proof.
intros Hnd Hin Hsid Hoff. induction rs as [|x rs IH]; [destruct Hin|].
simpl in Hnd. inversion Hnd as [|? ? Hnot Hnd']; subst.
cbn [map filter]. destruct Hin as [-> | Hin].
- rewrite String.eqb_refl, (map_other_ids _ _ _ Hnot).
  cbn [withEnabled ruleShopId isEnabled]. rewrite Hoff, String.eqb_refl.
  cbn [andb List.length]. lia.
- destruct (String.eqb_spec (ruleId x) (ruleId r)) as [E | _].
  + exfalso. apply Hnot. rewrite E. now apply in_map.
  + specialize (IH Hnd' Hin).
    destruct ((ruleShopId x =? ruleShopId r) && isEnabled x);
      cbn [List.length]; lia.
Qed.

(** X20. The toggle of the rule list enables a rule without a plan check
  and without asking whose rule it is: for any shop that sends the
  request and any stored plan, enabling a disabled rule succeeds and
  gives the owner of the rule one more enabled rule. *)
Theorem X20_toggle_enables_without_plan_check :
forall (d : Db) (t : nat) (shop : string) (shopRecord : Shop) (r : Rule),
  find (fun s => shopifyDomain s =? shop) (shops d) = Some shopRecord ->
  NoDup (map ruleId (rules d)) -> In r (rules d) -> isEnabled r = false ->
  let run := RulesIndex.action shop (Some "toggle") (Some (ruleId r))
               (Some "true") (mkWorld d [] t) in
  fst run = Returned Success
  /\ shops (db (snd run)) = shops d
  /\ List.length (Props.enabledOf (ruleShopId r) (db (snd run)))
     = List.length (Props.enabledOf (ruleShopId r) d) + 1.
Proof.
intros d t shop shopRecord r Hs Hnd Hin Hoff. cbv zeta.
rewrite (action_toggle d t shop (ruleId r) (Some "true") shopRecord Hs
           (has_rule _ _ Hin)).
split; [reflexivity|]. split; [reflexivity|].
unfold Props.enabledOf. cbn [snd db rules].
change ("true" =? "true") with true.
now apply enabling_adds_one.
Qed.

Variable parseFloat : Js.value -> float.
Variable decimal : float -> option float.

(** X21. Deleting a rule from the rule list removes the rule and, with it,
  every event of the rule, and nothing else; the request of any shop
  deletes it.  Afterwards [POST /track] answers 404 for the rule. *)
Theorem X21_delete_removes_rule_and_events :
forall (d : Db) (t : nat) (shop : string) (shopRecord : Shop) (r : Rule),
  find (fun s => shopifyDomain s =? shop) (shops d) = Some shopRecord ->
  In r (rules d) ->
  let run := RulesIndex.action shop (Some "delete") (Some (ruleId r)) None
               (mkWorld d [] t) in
  let d' := db (snd run) in
  fst run = Returned Success
  /\ shops d' = shops d
  /\ rules d' = filter (fun x => negb (ruleId x =? ruleId r)) (rules d)
  /\ events d' = filter (fun e => negb (evRuleId e =? ruleId r)) (events d)
  /\ (forall x, In x (rules d') <-> In x (rules d) /\ ruleId x <> ruleId r)
  /\ (forall e, In e (events d') <-> In e (events d) /\ evRuleId e <> ruleId r)
  /\ (forall t' b name domain ty owner,
        tEventType b = Some name -> Track.eventTypeOf name = Some ty ->
        tRuleId b = Some (ruleId r) -> ruleId r <> "" ->
        tShopDomain b = Some domain -> domain <> "" ->
        find (fun s => shopifyDomain s =? domain) (shops d) = Some owner ->
        Track.action parseFloat decimal "POST" (Some b) (mkWorld d' [] t')
        = (mkResponse 404 (ErrorBody "Rule not found"), mkWorld d' [] t')).
Proof.
intros d t shop shopRecord r Hs Hin. cbv zeta.
rewrite (action_delete d t shop (ruleId r) None shopRecord Hs (has_rule _ _ Hin)).
cbn [fst snd db shops rules events].
split; [reflexivity|]. split; [reflexivity|]. split; [reflexivity|].
split; [reflexivity|]. split; [|split].
- intros x. rewrite filter_In, negb_true_iff. split; intros [H1 H2]; split; auto.
  + now apply String.eqb_neq.
  + now apply String.eqb_neq.
- intros e. rewrite filter_In, negb_true_iff. split; intros [H1 H2]; split; auto.
  + now apply String.eqb_neq.
  + now apply String.eqb_neq.
- intros t' b name domain ty owner He Hty Hr Hrn Hd Hdn Ho.
  eapply (track_foreign_rule parseFloat decimal); eauto.
  cbn [rules]. intros x Hx Hid. apply filter_In in Hx as [_ Hx].
  rewrite Hid, String.eqb_refl in Hx. discriminate.
Qed.

End RuleList.

Lemma X20_witness :
  List.length
    (Props.enabledOf "shop-1"
       (db (snd (RulesIndex.action "other.myshopify.com" (Some "toggle")
                   (Some "rule-c") (Some "true") (mkWorld threeRulesDb [] 0)))))
  = List.length (Props.enabledOf "shop-1" threeRulesDb) + 1.
Proof.
  refine (proj2 (proj2 (X20_toggle_enables_without_plan_check threeRulesDb 0
                          "other.myshopify.com" otherShop disabledRule
                          eq_refl _ _ eq_refl))).
  - repeat constructor; simpl; intuition discriminate.
  - right. right. now left.
Defined.

Lemma X21_witness :
  rules (db (snd (RulesIndex.action "other.myshopify.com" (Some "delete")
                    (Some "rule-a") None (mkWorld threeRulesDb [] 0))))
  = [ruleB; disabledRule].
Proof.
  refine (proj1 (proj2 (proj2 (X21_delete_removes_rule_and_events
                                 sampleParseFloat sampleDecimal threeRulesDb 0
                                 "other.myshopify.com" otherShop ruleA
                                 eq_refl _)))).
  now left.
Defined.

(** ** The cart as a set, and what truncation drops *)

Lemma includes_same (c1 c2 : list string) (x : string) :
  (forall y, In y c1 <-> In y c2) -> Js.includes c1 x = Js.includes c2 x.
Proof.
  intros H. destruct (Js.includes c1 x) eqn:E1, (Js.includes c2 x) eqn:E2;
    try reflexivity.
  - apply includes_In in E1. apply H in E1. apply includes_In in E1. congruence.
  - apply includes_In in E2. apply H in E2. apply includes_In in E2. congruence.
Qed.

Lemma inCart_same (c1 c2 : list string) (id : option string) :
  (forall y, In y c1 <-> In y c2) -> Matcher.inCart c1 id = Matcher.inCart c2 id.
Proof.
  intros H. unfold Matcher.inCart. destruct id as [i|]; [|reflexivity].
  now rewrite (includes_same c1 c2 i H).
Qed.

Lemma cartInCollection_same (platform : string -> list string) (cid : string)
      (c1 c2 : list string) :
  (forall y, In y c1 <-> In y c2) ->
  Spec.cartInCollection platform cid c1 = Spec.cartInCollection platform cid c2.
Proof.
  intros H.
  destruct (Spec.cartInCollection platform cid c1) eqn:E1,
           (Spec.cartInCollection platform cid c2) eqn:E2; try reflexivity.
  - apply cartInCollection_spec in E1 as (p & Hp & Hc).
    assert (Spec.cartInCollection platform cid c2 = true).
    { apply cartInCollection_spec. exists p. split; [now apply H | exact Hc]. }
    congruence.
  - apply cartInCollection_spec in E2 as (p & Hp & Hc).
    assert (Spec.cartInCollection platform cid c1 = true).
    { apply cartInCollection_spec. exists p. split; [now apply H | exact Hc]. }
    congruence.
Qed.

(** X22. Only the set of cart ids matters to the matchers: two carts with
    the same ids, in any order and with any repetition, give the same
    matched rules. *)
Theorem X22_cart_is_a_set :
  forall (platform : string -> list string) (rules : list Rule)
         (cart1 cart2 : list string),
    (forall id, In id cart1 <-> In id cart2) ->
    Upsells.matchRules rules cart1 = Upsells.matchRules rules cart2
    /\ fst (UpsellsCollections.matchRules platform rules cart1)
       = fst (UpsellsCollections.matchRules platform rules cart2).
Proof.
  intros platform rules c1 c2 H.
  unfold Upsells.matchRules, UpsellsCollections.matchRules.
  rewrite !upsells_loop, !collections_loop. simpl. split.
  - apply filter_ext. intros r. unfold Spec.productOffer, Spec.upsellInCart.
    now rewrite !(inCart_same c1 c2 _ H).
  - apply filter_ext. intros r.
    unfold Spec.offered, Spec.productOffer, Spec.upsellInCart.
    now rewrite !(inCart_same c1 c2 _ H), (cartInCollection_same _ _ c1 c2 H).
Qed.

Lemma X22_witness :
  Upsells.matchRules [ruleA; ruleB] ["303"; "101"; "101"]
  = Upsells.matchRules [ruleA; ruleB] ["101"; "303"].
Proof.
  refine (proj1 (X22_cart_is_a_set summerPlatform [ruleA; ruleB]
                   ["303"; "101"; "101"] ["101"; "303"] _)).
  intros id. simpl. tauto.
Defined.

Lemma sorted_app_pairs (l1 l2 : list Rule) :
  StronglySorted Spec.byPriority (l1 ++ l2) ->
  forall a b, In a l1 -> In b l2 -> Spec.byPriority a b.
Proof.
  induction l1 as [|x l1 IH]; simpl; intros H a b Ha Hb; [destruct Ha|].
  inversion H as [|? ? Hs Hall]; subst. destruct Ha as [<- | Ha].
  - apply (proj1 (Forall_forall _ _) Hall). apply in_or_app. now right.
  - now apply IH.
Qed.

(** X23. Truncation keeps the rules of highest precedence: when the rules
    come in ascending priority, every matched rule that is left out of the
    three offers has a priority number at least that of every rule kept. *)
Theorem X23_truncation_drops_lowest_precedence :
  forall (rules : list Rule) (cart : list string) (kept dropped : Rule),
    StronglySorted Spec.byPriority rules ->
    In kept (firstn Matcher.maxOffers (Upsells.matchRules rules cart)) ->
    In dropped (skipn Matcher.maxOffers (Upsells.matchRules rules cart)) ->
    (priority kept <= priority dropped)%Z.
Proof.
  intros rules cart kept dropped Hs Hk Hd.
  assert (Hm : StronglySorted Spec.byPriority (Upsells.matchRules rules cart)).
  { unfold Upsells.matchRules. rewrite upsells_loop. simpl.
    now apply filter_sorted. }
  rewrite <- (firstn_skipn Matcher.maxOffers (Upsells.matchRules rules cart)) in Hm.
  exact (sorted_app_pairs _ _ Hm kept dropped Hk Hd).
Qed.

Lemma X23_witness :
  (priority (fourMatching 0) <= priority (fourMatching 3))%Z.
Proof.
  apply (X23_truncation_drops_lowest_precedence
           [fourMatching 0; fourMatching 1; fourMatching 2; fourMatching 3]
           ["101"] (fourMatching 0) (fourMatching 3)).
  - repeat constructor; unfold Spec.byPriority; simpl; lia.
  - now left.
  - now left.
Defined.
